(** * resume_parser: search-options normalisation, pagination and ranking

    A shallow embedding of the Python sources

      - schemas/Info.py                 (Resume, SearchOptions)
      - utils/helper.py                 (get_most_similar_word)
      - parsers/work_ua_parser.py       (the scrape-based source)
      - parsers/robota_ua_parser.py     (the API-based source)
      - telegram_bot/telegram_bot.py    (the aggregation in search_resumes)

    Python dicts that are only read and written by key are finite maps
    (gmap); dicts whose iteration order is observed (the region map handed
    to the fuzzy matcher) are association lists.  Exceptions are an error
    monad; the network, the log and the request trace are explicit state. *)

From Stdlib Require Import ZArith QArith List String Ascii Lia Permutation.
From stdpp Require Import base gmap strings list pretty sorting.

Local Open Scope string_scope.
Local Open Scope list_scope.
Local Open Scope Z_scope.

(** ** Python values *)

(** The values that travel through option maps, payloads and JSON bodies. *)
#[local] Set Warnings "-register-all".
Inductive pyval : Type :=
| PNone
| PBool (b : bool)
| PInt (z : Z)
| PStr (s : string)
| PList (l : list pyval)
| PDict (d : list (string * pyval)).

(** Python truthiness, as used by [if x:] and by comprehension filters. *)
Definition truthy (v : pyval) : bool :=
  match v with
  | PNone => false
  | PBool b => b
  | PInt z => negb (z =? 0)
  | PStr s => negb (String.eqb s "")
  | PList l => match l with [] => false | _ => true end
  | PDict d => match d with [] => false | _ => true end
  end.

(** Lookup in an insertion-ordered dict: [d.get(k)], with [None] for a
    missing key. *)
Fixpoint assoc {V : Type} (k : string) (d : list (string * V)) : option V :=
  match d with
  | [] => None
  | (k', v) :: d' => if String.eqb k k' then Some v else assoc k d'
  end.

(** ** Exceptions *)

Inductive exn : Type :=
| RequestException
| HTTPError
| JSONDecodeError
| KeyError (k : string)
| TypeError
| IndexError
| AttributeError
| ValidationError
| Exception (msg : string).

Inductive result (A : Type) : Type :=
| Ok (a : A)
| Raise (e : exn).
Arguments Ok {A} a.
Arguments Raise {A} e.

#[export] Instance result_ret : MRet result := fun _ a => Ok a.
#[export] Instance result_bind : MBind result := fun _ _ f m =>
  match m with
  | Ok a => f a
  | Raise e => Raise e
  end.

Definition is_Ok {A : Type} (r : result A) : bool :=
  match r with Ok _ => true | Raise _ => false end.

(** ** schemas/Info.py *)

Record Experience : Type := mkExperience {
  position : option string;
  duration : option string;
  details : option string
}.

Record Resume : Type := mkResume {
  href : string;
  salary_expectation : option string;
  experience : option (list Experience);
  filling_percentage : Z
}.

(** [Resume.__lt__]. *)
Definition Resume_lt (self other : Resume) : bool :=
  filling_percentage self <? filling_percentage other.

Record SearchOptions : Type := mkSearchOptions {
  so_search : string;
  so_region : option string;
  so_salary_from : option Z;
  so_salary_to : option Z;
  so_experience : option (list string)
}.

(** ** The built-in [sorted] *)

Section PySorted.
Context {A : Type} (lt : A -> A -> bool).

(** [sorted] is a stable sort that only ever asks [x < y].  An element
    is inserted in front of the first element that is not smaller than
    it, so that equal elements keep their input order. *)
Fixpoint sort_insert (x : A) (l : list A) : list A :=
  match l with
  | [] => [x]
  | y :: l' => if lt y x then y :: sort_insert x l' else x :: y :: l'
  end.

Fixpoint py_sorted (l : list A) : list A :=
  match l with
  | [] => []
  | x :: l' => sort_insert x (py_sorted l')
  end.

(** [sorted(l, reverse=True)]: the list is reversed, sorted and
    reversed again, which keeps equal elements in input order. *)
Definition py_sorted_reverse (l : list A) : list A :=
  rev (py_sorted (rev l)).
End PySorted.

(** ** telegram_bot/telegram_bot.py: the aggregation of search_resumes *)

(** [sorted(work_ua_results + robota_ua_results, reverse=True)]. *)
Definition combined_results (work_ua_results robota_ua_results : list Resume)
  : list Resume :=
  py_sorted_reverse Resume_lt (work_ua_results ++ robota_ua_results).

(** [combined_results[:topN]] for a non-negative [topN]. *)
Definition aggregate (work_ua_results robota_ua_results : list Resume)
  (topN : nat) : list Resume :=
  firstn topN (combined_results work_ua_results robota_ua_results).

(** [top_resumes = combined_results[:5]]. *)
Definition top_resumes (work_ua_results robota_ua_results : list Resume)
  : list Resume :=
  aggregate work_ua_results robota_ua_results 5.

(** ** Strings *)

(** [c.isspace()] on the ASCII range. *)
Definition is_space (c : ascii) : bool :=
  let n := nat_of_ascii c in
  ((9 <=? n) && (n <=? 13) || (28 <=? n) && (n <=? 32))%nat.

(** [s.split()]: the maximal runs of non-whitespace characters.  [cur]
    holds the characters of the current run, last one first. *)
Fixpoint split_ws_go (cur : list ascii) (s : list ascii) : list string :=
  let flush := match cur with
               | [] => []
               | _ => [string_of_list_ascii (rev cur)]
               end in
  match s with
  | [] => flush
  | c :: s' =>
      if is_space c then flush ++ split_ws_go [] s'
      else split_ws_go (c :: cur) s'
  end.

Definition split_ws (s : string) : list string :=
  split_ws_go [] (list_ascii_of_string s).

(** [needle in s]. *)
Fixpoint contains (needle s : string) : bool :=
  String.prefix needle s ||
  match s with
  | EmptyString => false
  | String _ s' => contains needle s'
  end.

(** [s.split(sep)[-1]] for a non-empty [sep]: what follows the last
    occurrence of [sep], or all of [s] when there is none.  Occurrences
    are found from the left and do not overlap, so after a match the
    scan resumes behind it ([skip] counts the characters still covered
    by the match). *)
Fixpoint after_last_go (sep : string) (skip : nat) (s : string) (last : string)
  : string :=
  match s with
  | EmptyString => last
  | String _ s' =>
      match skip with
      | S k => after_last_go sep k s' last
      | O =>
          if String.prefix sep s
          then after_last_go sep (String.length sep - 1) s'
                 (String.substring (String.length sep)
                    (String.length s - String.length sep) s)
          else after_last_go sep 0 s' last
      end
  end.

Definition after_last (sep s : string) : string := after_last_go sep 0 s s.

(** ** rapidfuzz *)

(** The matcher is a library outside the repository.  Its scan is
    written out below; the properties of [get_most_similar_word] hold
    for any scorer, and [token_sort_ratio] is the one the code passes. *)

(** Length of a longest common subsequence. *)
Fixpoint lcs (a b : list ascii) : nat :=
  match a with
  | [] => O
  | x :: a' =>
      (fix lcs_row (b : list ascii) : nat :=
         match b with
         | [] => O
         | y :: b' =>
             if Ascii.eqb x y then S (lcs a' b')
             else Nat.max (lcs a' b) (lcs_row b')
         end) b
  end.

(** [fuzz.ratio]: the normalised Indel similarity on a 0-100 scale,
    [100 * (1 - (|a| + |b| - 2 lcs) / (|a| + |b|))], here as the exact
    rational; two empty strings are fully similar. *)
Definition ratio (s1 s2 : string) : Q :=
  let a := list_ascii_of_string s1 in
  let b := list_ascii_of_string s2 in
  match (length a + length b)%nat with
  | O => 100
  | S n => Qmake (200 * Z.of_nat (lcs a b)) (Pos.of_succ_nat n)
  end.

(** [fuzz.token_sort_ratio]: both strings are split on whitespace, their
    tokens sorted and joined by single spaces, then compared by [ratio]. *)
Definition sort_tokens (s : string) : string :=
  String.concat " " (py_sorted String.ltb (split_ws s)).

Definition token_sort_ratio (s1 s2 : string) : Q :=
  ratio (sort_tokens s1) (sort_tokens s2).

Definition Qlt_bool (x y : Q) : bool := negb (Qle_bool y x).

Section ExtractOne.
(** The scorer handed to [process.extractOne]; its float result is
    taken as the rational it denotes. *)
Variable scorer : string -> string -> Q.

(** The scan of [process.extractOne]: the running best is replaced
    only by a strictly better score, and the scan stops at the first
    choice that reaches the optimal score 100. *)
Fixpoint extractOne_scan (query : string) (choices : list string)
  (result : option (string * Q)) : option (string * Q) :=
  match choices with
  | [] => result
  | choice :: rest =>
      let score := scorer query choice in
      let result' :=
        match result with
        | None => Some (choice, score)
        | Some (_, best) =>
            if Qlt_bool best score then Some (choice, score) else result
        end in
      if Qeq_bool score 100 then result'
      else extractOne_scan query rest result'
  end.

(** [process.extractOne(query, choices, scorer=...)]; a [None] query
    gives [None]. *)
Definition extractOne (query : option string) (choices : list string)
  : option (string * Q) :=
  match query with
  | None => None
  | Some q => extractOne_scan q choices None
  end.

(** ** utils/helper.py *)

(** [threshold] is [int(os.getenv("WORD_SIMILARITY_THRESHOLD"))]. *)
Definition get_most_similar_word (threshold : Z) (word : option string)
  (vocabulary : list string) : option string :=
  match extractOne word vocabulary with
  | Some (matched, score) =>
      if Qlt_bool (inject_Z threshold) score then Some matched else None
  | None => None
  end.
End ExtractOne.

(** ** Python helpers *)

Definition opt_str (o : option string) : pyval :=
  match o with Some s => PStr s | None => PNone end.

Definition opt_int (o : option Z) : pyval :=
  match o with Some z => PInt z | None => PNone end.

Definition opt_labels (o : option (list string)) : pyval :=
  match o with Some l => PList (map PStr l) | None => PNone end.

(** [d.get(k)] and [d.get(k, dflt)] on a dict used as a map. *)
Definition dict_get (d : gmap string pyval) (k : string) : pyval :=
  default PNone (d !! k).

Definition dict_get_default (d : gmap string pyval) (k : string)
  (dflt : pyval) : pyval :=
  default dflt (d !! k).

(** [v[k]] on a value read from JSON. *)
Definition subscript (v : pyval) (k : string) : result pyval :=
  match v with
  | PDict d =>
      match assoc k d with
      | Some x => Ok x
      | None => Raise (KeyError k)
      end
  | _ => Raise TypeError
  end.

(** [for x in v]: the items of a list, the keys of a dict, the
    characters of a string. *)
Definition iterate (v : pyval) : result (list pyval) :=
  match v with
  | PList l => Ok l
  | PDict d => Ok (map (fun kv => PStr (fst kv)) d)
  | PStr s => Ok (map (fun c => PStr (String c "")) (list_ascii_of_string s))
  | _ => Raise TypeError
  end.

(** [sep.join(items)]: every item has to be a string. *)
Fixpoint strings_of (items : list pyval) : result (list string) :=
  match items with
  | [] => Ok []
  | PStr s :: items' => l ← strings_of items'; Ok (s :: l)
  | _ :: _ => Raise TypeError
  end.

Definition str_join (sep : string) (items : list pyval) : result string :=
  l ← strings_of items; Ok (String.concat sep l).

(** [range(start, stop, step)] for a positive [step]. *)
Definition py_range (start stop step : Z) : list Z :=
  map (fun i => start + step * Z.of_nat i)
      (seq 0 (Z.to_nat ((stop - start + step - 1) / step))).

(** [math.ceil(n / d)] for a positive [d], on the exact quotient; the
    float quotient that Python rounds up gives the same integer as long
    as [n] stays far below 2^53. *)
Definition ceil_div (n d : Z) : Z := - ((- n) / d).

(** ** pydantic models *)

Definition validate_str (v : pyval) : result string :=
  match v with PStr s => Ok s | _ => Raise ValidationError end.

Definition validate_opt_str (v : pyval) : result (option string) :=
  match v with
  | PStr s => Ok (Some s)
  | PNone => Ok None
  | _ => Raise ValidationError
  end.

Definition validate_int (v : pyval) : result Z :=
  match v with PInt z => Ok z | _ => Raise ValidationError end.

(** A field that the keyword arguments do not supply is a validation
    error; keyword arguments that name no field are ignored. *)
Definition field (kwargs : list (string * pyval)) (name : string)
  : result pyval :=
  match assoc name kwargs with
  | Some v => Ok v
  | None => Raise ValidationError
  end.

Definition validate_Experience (v : pyval) : result Experience :=
  match v with
  | PDict kwargs =>
      p ← field kwargs "position"; p ← validate_opt_str p;
      d ← field kwargs "duration"; d ← validate_opt_str d;
      t ← field kwargs "details"; t ← validate_opt_str t;
      Ok (mkExperience p d t)
  | _ => Raise ValidationError
  end.

(** A loop or comprehension whose body may raise. *)
Fixpoint map_result {A B : Type} (f : A -> result B) (items : list A)
  : result (list B) :=
  match items with
  | [] => Ok []
  | v :: items' => b ← f v; l ← map_result f items'; Ok (b :: l)
  end.

Definition validate_opt_experience (v : pyval)
  : result (option (list Experience)) :=
  match v with
  | PNone => Ok None
  | PList items => l ← map_result validate_Experience items; Ok (Some l)
  | _ => Raise ValidationError
  end.

(** [schemas.Resume] built from a dict of keyword arguments. *)
Definition Resume_of_kwargs (kwargs : gmap string pyval) : result Resume :=
  let get name :=
    match kwargs !! name with
    | Some v => Ok v
    | None => Raise ValidationError
    end in
  h ← get "href"; h ← validate_str h;
  s ← get "salary_expectation"; s ← validate_opt_str s;
  e ← get "experience"; e ← validate_opt_experience e;
  f ← get "filling_percentage"; f ← validate_int f;
  Ok (mkResume h s e f).

(** ** The outside world *)

Record response : Type := mkResponse {
  status_code : Z;
  text : string;
  json : option pyval   (* what [response.json()] parses, if it parses *)
}.

(** The requests the two parsers send.  A results page of Work.ua is
    identified by the payload its URL is built from. *)
Inductive request : Type :=
| GetResumesPage (payload : gmap string pyval)
| GetResume (href : string)
| PostLogin
| PostResumes (payload : gmap string pyval).

Inductive log_entry : Type :=
| LogTotals (total_candidates total_pages : Z)
| LogPageError (page : Z) (e : exn)
| LogResumeError (href : string) (e : exn)
| LogProcessing (href : string)
| LogFound (total : pyval)
| LogRequestFailed (status : Z).

Record world : Type := mkWorld {
  trace : list request;   (* the requests sent so far, oldest first *)
  log : list log_entry    (* the [logger.info] lines, oldest first *)
}.

Definition world0 : world := mkWorld [] [].

(** Computations that may raise, send requests and log. *)
Definition M (A : Type) : Type := world -> result A * world.

#[export] Instance M_ret : MRet M := fun _ a w => (Ok a, w).
#[export] Instance M_bind : MBind M := fun _ _ f m w =>
  match m w with
  | (Ok a, w') => f a w'
  | (Raise e, w') => (Raise e, w')
  end.

Definition lift {A : Type} (r : result A) : M A := fun w => (r, w).

Definition logger_info (entry : log_entry) : M unit :=
  fun w => (Ok tt, mkWorld (trace w) (log w ++ [entry])).

(** [except requests.RequestException] also catches its subclass
    [HTTPError], which is what [raise_for_status] raises. *)
Definition is_RequestException (e : exn) : bool :=
  match e with
  | RequestException | HTTPError => true
  | _ => false
  end.

(** [try: body / except requests.RequestException as e: handler]. *)
Definition try_except {A : Type} (body : M A) (handler : exn -> M A) : M A :=
  fun w =>
    match body w with
    | (Raise e, w') =>
        if is_RequestException e then handler e w' else (Raise e, w')
    | ok => ok
    end.

(** [response.raise_for_status()]. *)
Definition raise_for_status (r : response) : result unit :=
  if (400 <=? status_code r) && (status_code r <? 600)
  then Raise HTTPError else Ok tt.

(** [response.json()]. *)
Definition response_json (r : response) : result pyval :=
  match json r with
  | Some v => Ok v
  | None => Raise JSONDecodeError
  end.

Section Network.
(** What the remote sites answer: a response, or a connection error
    or timeout raised by [requests]. *)
Variable net : request -> result response.

Definition send (r : request) : M response :=
  fun w => (net r, mkWorld (trace w ++ [r]) (log w)).
End Network.

(** ** parsers/work_ua_parser.py *)

Module WorkUa.

(** The option maps that [__init__] loads. *)
Record parser : Type := mkParser {
  REGIONS : list (string * pyval);
  SALARY_FROM_OPTIONS : gmap string pyval;
  SALARY_TO_OPTIONS : gmap string pyval;
  EXPERIENCE_OPTIONS : gmap string pyval
}.

Section Parser.
Variable scorer : string -> string -> Q.
Variable threshold : Z.
Variable net : request -> result response.
Variable base_url : string.

(** What BeautifulSoup finds in a page: the candidate count of
    [get_total_candidates] (an [Exception] when the text has none), the
    links of [get_resume_href_from_html], the [content] of the
    Description meta tag ([""] when the tag has no such attribute) and
    the experience dicts that the loop of [parse_resume] appends. *)
Variable get_total_candidates : string -> result Z.
Variable get_resume_href_from_html : string -> list string.
Variable find_meta_description : string -> option string.
Variable find_work_experience : string -> list pyval.

Variable self : parser.

(** The value stored under ["region"]: [REGIONS.get(region)] for the
    word that [get_most_similar_word] returns. *)
Definition region_id (params : SearchOptions) : pyval :=
  match get_most_similar_word scorer threshold (so_region params)
          (map fst (REGIONS self)) with
  | Some region => default PNone (assoc region (REGIONS self))
  | None => PNone
  end.

(** The generator handed to ["+".join]. *)
Definition experience_items (labels : list string) : list pyval :=
  map (fun exp => dict_get_default (EXPERIENCE_OPTIONS self) exp (PStr ""))
      labels.

(** [__unpack_search_options]. *)
Definition unpack_search_options (params : SearchOptions)
  : result (gmap string pyval) :=
  let payload : gmap string pyval := {[ "search" := PStr (so_search params) ]} in
  let payload :=
    if truthy (opt_str (so_region params))
    then <["region" := region_id params]> payload
    else payload in
  let payload :=
    if truthy (opt_int (so_salary_from params))
    then <["salaryfrom" :=
             dict_get (SALARY_FROM_OPTIONS self)
               (pretty (default 0 (so_salary_from params)))]> payload
    else payload in
  let payload :=
    if truthy (opt_int (so_salary_to params))
    then <["salaryto" :=
             dict_get (SALARY_TO_OPTIONS self)
               (pretty (default 0 (so_salary_to params)))]> payload
    else payload in
  if truthy (opt_labels (so_experience params)) then
    joined ← str_join "+"
               (experience_items (default [] (so_experience params)));
    Ok (<["experience" := PStr joined]> payload)
  else Ok payload.

(** One pass through the body of the page loops: set [payload["page"]],
    fetch the page, [raise_for_status], keep the text.  The [except]
    clause of [get_resume_pages] encloses every fetch; it logs the page
    it failed on and raises the error again. *)
Definition page_request (payload : gmap string pyval) (page : Z) : request :=
  GetResumesPage (<["page" := PInt page]> payload).

Definition fetch_page (payload : gmap string pyval) (page : Z) : M string :=
  try_except
    (response ← send net (page_request payload page);
     _ ← lift (raise_for_status response);
     mret (text response))
    (fun e => _ ← logger_info (LogPageError page e); lift (Raise e)).

Fixpoint fetch_pages (payload : gmap string pyval) (pages : list Z)
  : M (list string) :=
  match pages with
  | [] => mret []
  | page :: pages' =>
      html ← fetch_page payload page;
      htmls ← fetch_pages payload pages';
      mret (html :: htmls)
  end.

Definition get_resume_pages (params : SearchOptions) : M (list string) :=
  payload ← lift (unpack_search_options params);
  first ← fetch_page payload 1;
  total_candidates ← lift (get_total_candidates first);
  let total_pages := ceil_div total_candidates 14 in
  _ ← logger_info (LogTotals total_candidates total_pages);
  evens ← fetch_pages payload (py_range 2 (total_pages + 1) 2);
  odds ← fetch_pages payload (py_range 3 (total_pages + 1) 2);
  mret (first :: evens ++ odds).

(** [get_resume_html_from_href]: [None] after a failed fetch. *)
Definition get_resume_html_from_href (href : string) : M (option string) :=
  try_except
    (response ← send net (GetResume href);
     _ ← lift (raise_for_status response);
     mret (Some (text response)))
    (fun e => _ ← logger_info (LogResumeError href e); mret None).

(** The dict that [parse_resume] fills in.  The token that [split()]
    returns has no white space left for [strip()] to remove. *)
Definition resume_dict (link html : string) : result (gmap string pyval) :=
  let resume : gmap string pyval :=
    {[ "salary_expectation" := PStr "";
       "experience" := PList [];
       "filling_percentage" := PInt 0 ]} in
  resume ←
    match find_meta_description html with
    | Some description_content =>
        if contains "salary starting at" description_content then
          let salary_part :=
            after_last "salary starting at" description_content in
          match split_ws salary_part with
          | salary :: _ => Ok (<["salary expectation" := PStr salary]> resume)
          | [] => Raise IndexError
          end
        else Ok resume
    | None => Ok resume
    end;
  let resume := <["experience" := PList (find_work_experience html)]> resume in
  let resume := <["href" := PStr (base_url +:+ link)]> resume in
  Ok resume.

(** [parse_resume]. *)
Definition parse_resume (link html : string) : result Resume :=
  resume ← resume_dict link html;
  Resume_of_kwargs resume.

(** The body of the inner loop of [search_resumes]: what one link
    appends to [resume_data]. *)
Definition process_link (link : string) : M (list Resume) :=
  resume_html ← get_resume_html_from_href link;
  if truthy (opt_str resume_html) then
    _ ← logger_info (LogProcessing (base_url +:+ link));
    resume ← lift (parse_resume (base_url +:+ link) (default "" resume_html));
    mret [resume]
  else mret [].

(** The inner loop of [search_resumes], over the links of one page. *)
Fixpoint process_links (links : list string) : M (list Resume) :=
  match links with
  | [] => mret []
  | link :: links' =>
      found ← process_link link;
      rest ← process_links links';
      mret (found ++ rest)
  end.

(** The outer loop of [search_resumes], over the result pages. *)
Fixpoint process_pages (html_pages : list string) : M (list Resume) :=
  match html_pages with
  | [] => mret []
  | html_page :: html_pages' =>
      found ← process_links (get_resume_href_from_html html_page);
      rest ← process_pages html_pages';
      mret (found ++ rest)
  end.

Definition search_resumes (params : SearchOptions) : M (list Resume) :=
  html_pages ← get_resume_pages params;
  process_pages html_pages.

(** The page numbers of the result pages requested so far. *)
Definition pages_fetched (w : world) : list pyval :=
  omap (fun r => match r with
                 | GetResumesPage payload => Some (dict_get payload "page")
                 | _ => None
                 end) (trace w).

End Parser.
End WorkUa.

(** ** parsers/robota_ua_parser.py *)

Module RobotaUa.

(** What [__init__] stores: the login token and the option maps.  The
    attribute [EXPERIENCE_OPTIONS] stays unset when its file cannot be
    read. *)
Record parser : Type := mkParser {
  token : pyval;
  REGIONS : list (string * pyval);
  EXPERIENCE_OPTIONS : option (gmap string pyval)
}.

Definition base_url : string := "https://robota.ua".

Section Parser.
Variable scorer : string -> string -> Q.
Variable threshold : Z.
Variable net : request -> result response.

(** [str.strip().replace(nbsp, " ")], and the text that an f-string
    puts in place of a value. *)
Variable format_salary_expectation : string -> string.
Variable py_str : pyval -> string.

(** [__load_regions] and [__load_experience_options], which read the
    option files. *)
Variable load_regions : M (list (string * pyval)).
Variable load_experience_options : M (option (gmap string pyval)).

(** [__login]. *)
Definition login : M pyval :=
  response ← send net PostLogin;
  if status_code response =? 200 then lift (response_json response)
  else lift (Raise (Exception "Failed to login to Robota.ua")).

(** [__init__]. *)
Definition init : M parser :=
  token ← login;
  regions ← load_regions;
  experience_options ← load_experience_options;
  mret (mkParser token regions experience_options).

(** [unpack_resume_from_response]. *)
Definition unpack_resume_from_response (resume_data : pyval)
  : result (gmap string pyval) :=
  resumeId ← subscript resume_data "resumeId";
  salary ← subscript resume_data "salary";
  salary ← match salary with
           | PStr s => Ok (format_salary_expectation s)
           | _ => Raise AttributeError
           end;
  entries ← subscript resume_data "experience";
  entries ← iterate entries;
  experience ←
    map_result (fun exp =>
      p ← subscript exp "position";
      d ← subscript exp "datesDiff";
      c ← subscript exp "company";
      Ok (PDict [("position", p); ("duration", d); ("details", c)]))
    entries;
  filling ← subscript resume_data "fillingPercentage";
  Ok ({[ "href" := PStr (base_url +:+ "/candidates/" +:+ py_str resumeId);
         "salary_expectation" := PStr salary;
         "experience" := PList experience;
         "filling_percentage" := filling ]} : gmap string pyval).

Variable self : parser.

Definition experience_options : result (gmap string pyval) :=
  match EXPERIENCE_OPTIONS self with
  | Some options => Ok options
  | None => Raise AttributeError
  end.

(** The comprehension
    [[OPTIONS.get(exp) for exp in experience if OPTIONS.get(exp)]]. *)
Fixpoint experience_ids (labels : list string) : result (list pyval) :=
  match labels with
  | [] => Ok []
  | exp :: labels' =>
      options ← experience_options;
      rest ← experience_ids labels';
      Ok (if truthy (dict_get options exp)
          then dict_get options exp :: rest else rest)
  end.

(** [OPTIONS[label]]. *)
Definition experience_option (label : string) : result pyval :=
  options ← experience_options;
  match options !! label with
  | Some v => Ok v
  | None => Raise (KeyError label)
  end.

(** [region_id = self.REGIONS[region_name] if region_name else None]. *)
Definition region_id (search_params : SearchOptions) : result pyval :=
  let region_name :=
    get_most_similar_word scorer threshold (so_region search_params)
      (map fst (REGIONS self)) in
  if truthy (opt_str region_name) then
    match assoc (default "" region_name) (REGIONS self) with
    | Some v => Ok v
    | None => Raise (KeyError (default "" region_name))
    end
  else Ok PNone.

(** [__unpack_search_options]. *)
Definition unpack_search_options (search_params : SearchOptions)
  : result (gmap string pyval) :=
  region_id ← region_id search_params;
  labels ← match so_experience search_params with
           | Some labels => Ok labels
           | None => Raise TypeError
           end;
  ids ← experience_ids labels;
  ids ←
    (if bool_decide ("More than 5 years" ∈ labels) then
       k1 ← experience_option "5 to 10 years";
       k2 ← experience_option "More than 10 years";
       Ok (ids ++ [k1] ++ [k2])
     else Ok ids);
  Ok ({[ "cityId" := region_id;
         "keyWords" := PStr (so_search search_params);
         "salary" := PDict [("from", opt_int (so_salary_from search_params));
                            ("to", opt_int (so_salary_to search_params))];
         "experienceIds" := PList ids ]} : gmap string pyval).

(** [search_resumes]; the result is [None] when the second response is
    neither a 200 nor an error status. *)
Definition search_resumes (search_params : SearchOptions)
  : M (option (list Resume)) :=
  search_payload ← lift (unpack_search_options search_params);
  response ← send net (PostResumes search_payload);
  response_data ← lift (response_json response);
  total_resumes ← lift (subscript response_data "total");
  _ ← logger_info (LogFound total_resumes);
  let search_payload := <["count" := total_resumes]> search_payload in
  response ← send net (PostResumes search_payload);
  if status_code response =? 200 then
    response_data ← lift (response_json response);
    documents ← lift (subscript response_data "documents");
    documents ← lift (iterate documents);
    resumes_list ←
      lift (map_result
              (fun resume =>
                 resume_info ← unpack_resume_from_response resume;
                 Resume_of_kwargs resume_info)
              documents);
    mret (Some resumes_list)
  else
    _ ← logger_info (LogRequestFailed (status_code response));
    _ ← lift (raise_for_status response);
    mret None.

End Parser.
End RobotaUa.

(** ** Vocabulary of the properties *)

(** No element has a smaller [filling_percentage] than an element that
    comes after it. *)
Definition descending (l : list Resume) : Prop :=
  forall (i j : nat) (x y : Resume),
    (i < j)%nat -> l !! i = Some x -> l !! j = Some y ->
    filling_percentage y <= filling_percentage x.

(** What a fetch yields: the text of the response, unless [requests]
    or [raise_for_status] raises. *)
Definition fetch (net : request -> result response) (r : request)
  : result string :=
  response ← net r;
  _ ← raise_for_status response;
  Ok (text response).

(** The integers from [lo] up to [hi], ascending. *)
Definition pages_from_to (lo hi : Z) : list Z :=
  map (fun i => lo + Z.of_nat i) (seq 0 (Z.to_nat (hi - lo + 1))).

(** Page 1, then the even pages from 2 up to [total_pages], then the
    odd pages from 3 up to [total_pages]. *)
Definition expected_page_order (total_pages : Z) : list Z :=
  1 :: List.filter Z.even (pages_from_to 2 total_pages)
       ++ List.filter Z.odd (pages_from_to 3 total_pages).

(** The result pages that a search has to fetch: page 1 and, once it
    is there and tells the number of candidates, the pages after it. *)
Definition pages_to_fetch (net : request -> result response)
  (get_total_candidates : string -> result Z)
  (payload : gmap string pyval) : list Z :=
  match fetch net (WorkUa.page_request payload 1) with
  | Ok first =>
      match get_total_candidates first with
      | Ok n => expected_page_order (ceil_div n 14)
      | Raise _ => [1]
      end
  | Raise _ => [1]
  end.

(** The search options with another list of experience labels. *)
Definition set_experience (params : SearchOptions) (labels : list string)
  : SearchOptions :=
  mkSearchOptions (so_search params) (so_region params)
    (so_salary_from params) (so_salary_to params) (Some labels).

(** The running best of a scan that has only seen imperfect scores. *)
Definition imperfect (result : option (string * Q)) : Prop :=
  match result with
  | None => True
  | Some (_, best) => (best < 100)%Q
  end.

(** The text of a result page. *)
Definition page_text (net : request -> result response)
  (payload : gmap string pyval) (page : Z) : string :=
  match fetch net (WorkUa.page_request payload page) with
  | Ok html => html
  | Raise _ => ""
  end.

Section ResumesOfLinks.
Variable net : request -> result response.
Variable base_url : string.
Variable find_meta_description : string -> option string.
Variable find_work_experience : string -> list pyval.

(** The resumes that a list of links yields, as a function of what the
    site answers: a link whose fetch fails, or whose page is empty,
    yields none. *)
Fixpoint resumes_of_links (links : list string) : result (list Resume) :=
  match links with
  | [] => Ok []
  | link :: links' =>
      match fetch net (GetResume link) with
      | Raise e =>
          if is_RequestException e then resumes_of_links links' else Raise e
      | Ok html =>
          if String.eqb html "" then resumes_of_links links'
          else
            resume ← WorkUa.parse_resume base_url find_meta_description
                       find_work_experience (base_url +:+ link) html;
            rest ← resumes_of_links links';
            Ok (resume :: rest)
      end
  end.

End ResumesOfLinks.

(** ** Concrete settings *)

(** A concrete setting: two small region maps, Work.ua's salary
    brackets and experience keys, Robota.ua's experience keys. *)
Definition work_example : WorkUa.parser :=
  WorkUa.mkParser
    [("Kyiv", PInt 1); ("Lviv", PInt 2)]
    {[ "10000" := PStr "2"; "20000" := PStr "3" ]}
    {[ "20000" := PStr "3"; "30000" := PStr "4" ]}
    {[ "No experience" := PStr "0"; "1 to 2 years" := PStr "164";
       "More than 5 years" := PStr "166" ]}.

Definition robota_example : RobotaUa.parser :=
  RobotaUa.mkParser (PStr "token")
    [("Kyiv", PInt 1); ("Lviv", PInt 2)]
    (Some {[ "1 to 2 years" := PStr "2"; "5 to 10 years" := PStr "4";
             "More than 10 years" := PStr "5" ]}).

Definition params_example : SearchOptions :=
  mkSearchOptions "python" (Some "Atlantis") (Some 12345) None
    (Some ["1 to 2 years"; "Guru"]).

(** An experience map in which "More than 5 years" has the key 0. *)
Definition robota_zero_key : RobotaUa.parser :=
  RobotaUa.mkParser (PStr "token") []
    (Some {[ "More than 5 years" := PInt 0; "5 to 10 years" := PInt 4;
             "More than 10 years" := PInt 5 ]}).

Definition robota_five_key : RobotaUa.parser :=
  RobotaUa.mkParser (PStr "token") []
    (Some {[ "More than 5 years" := PInt 3; "5 to 10 years" := PInt 4;
             "More than 10 years" := PInt 5 ]}).

Definition params_more_than_5 : SearchOptions :=
  mkSearchOptions "python" None None None (Some ["More than 5 years"]).

(** A site that answers every request with the same page text. *)
Definition net_constant (html : string) : request -> result response :=
  fun _ => Ok (mkResponse 200 html None).

Definition params_python : SearchOptions :=
  mkSearchOptions "python" None None None None.

(** A server whose first answer has status 500 and a JSON body with a
    total, and whose second answer is a 200 with one document. *)
Definition net_500_then_200 : request -> result response :=
  fun r =>
    match r with
    | PostResumes payload =>
        match payload !! "count" with
        | None => Ok (mkResponse 500 "" (Some (PDict [("total", PInt 1)])))
        | Some _ =>
            Ok (mkResponse 200 ""
                  (Some (PDict
                     [("documents",
                       PList [PDict [("resumeId", PStr "7");
                                     ("salary", PStr "1000");
                                     ("experience", PList []);
                                     ("fillingPercentage", PInt 90)]])])))
        end
    | _ => Raise RequestException
    end.

(** A server whose second answer is a 304. *)
Definition net_200_then_304 : request -> result response :=
  fun r =>
    match r with
    | PostResumes payload =>
        match payload !! "count" with
        | None => Ok (mkResponse 200 "" (Some (PDict [("total", PInt 1)])))
        | Some _ => Ok (mkResponse 304 "" None)
        end
    | _ => Raise RequestException
    end.

Definition py_str_example (v : pyval) : string :=
  match v with
  | PStr s => s
  | PInt z => pretty z
  | _ => ""
  end.

Definition params_no_experience : SearchOptions :=
  mkSearchOptions "python" None None None (Some []).

(** A site with two result pages, the second of which times out. *)
Definition net_page2_down : request -> result response :=
  fun r =>
    match r with
    | GetResumesPage payload =>
        match dict_get payload "page" with
        | PInt 2 => Raise RequestException
        | _ => Ok (mkResponse 200 "20 candidates" None)
        end
    | _ => Ok (mkResponse 200 "cv" None)
    end.

(** A site with one result page of three links, the second of which
    answers 404. *)
Definition net_resume2_missing : request -> result response :=
  fun r =>
    match r with
    | GetResumesPage _ => Ok (mkResponse 200 "3 candidates" None)
    | GetResume href =>
        if String.eqb href "/resumes/2/"
        then Ok (mkResponse 404 "" None)
        else Ok (mkResponse 200 "cv" None)
    | _ => Raise RequestException
    end.

Definition three_links (html : string) : list string :=
  if String.eqb html "3 candidates"
  then ["/resumes/1/"; "/resumes/2/"; "/resumes/3/"] else [].

(** A candidate page that announces a salary. *)
Definition description_with_salary (html : string) : option string :=
  Some "Resume of a Python developer, salary starting at 45000 UAH, Kyiv".

(** A site with one result page of three links, the second of which
    leads to a page whose description announces a salary and names
    none. *)
Definition net_resume2_unparsable : request -> result response :=
  fun r =>
    match r with
    | GetResumesPage _ => Ok (mkResponse 200 "3 candidates" None)
    | GetResume href =>
        if String.eqb href "/resumes/2/"
        then Ok (mkResponse 200 "cv without salary" None)
        else Ok (mkResponse 200 "cv" None)
    | _ => Raise RequestException
    end.

Definition description_salary_missing (html : string) : option string :=
  if String.eqb html "cv without salary"
  then Some "Resume of a Python developer, salary starting at "
  else None.

(** A server that answers the login with a 201. *)
Definition net_login_201 : request -> result response :=
  fun _ => Ok (mkResponse 201 "" (Some (PStr "token"))).

(** A server whose second answer is a 503. *)
Definition net_200_then_503 : request -> result response :=
  fun r =>
    match r with
    | PostResumes payload =>
        match payload !! "count" with
        | None => Ok (mkResponse 200 "" (Some (PDict [("total", PInt 1)])))
        | Some _ => Ok (mkResponse 503 "Service Unavailable" None)
        end
    | _ => Raise RequestException
    end.

(** A parser whose experience options could not be loaded. *)
Definition robota_no_options : RobotaUa.parser :=
  RobotaUa.mkParser (PStr "token") [("Kyiv", PInt 1); ("Lviv", PInt 2)] None.

(** ** schemas/Info.py: the states of a dialogue, the search options *)

Inductive UserState : Type :=
| ASKING_KEYWORDS
| ASKING_REGION
| ASKING_SALARY
| ASKING_EXPERIENCE
| ASKING_SALARY_FROM
| ASKING_SALARY_TO
| FREE.

(** As for [Resume], a value is taken when it has the type of its
    field; of the values that the dialogue stores, the one that has not
    is the empty string of [clear] under the two salary bounds, which
    is no [int]. *)
Definition validate_opt_int (v : pyval) : result (option Z) :=
  match v with
  | PInt z => Ok (Some z)
  | PNone => Ok None
  | _ => Raise ValidationError
  end.

Definition validate_opt_labels (v : pyval) : result (option (list string)) :=
  match v with
  | PNone => Ok None
  | PList items => l ← map_result validate_str items; Ok (Some l)
  | _ => Raise ValidationError
  end.

(** [schemas.SearchOptions] built from a dict of keyword arguments. *)
Definition SearchOptions_of_kwargs (kwargs : gmap string pyval)
  : result SearchOptions :=
  let get name :=
    match kwargs !! name with
    | Some v => Ok v
    | None => Raise ValidationError
    end in
  s ← get "search"; s ← validate_str s;
  r ← get "region"; r ← validate_opt_str r;
  f ← get "salary_from"; f ← validate_opt_int f;
  t ← get "salary_to"; t ← validate_opt_int t;
  e ← get "experience"; e ← validate_opt_labels e;
  Ok (mkSearchOptions s r f t e).

(** ** More of Python's strings and dicts *)

(** The line feed of the f-strings. *)
Definition nl : string := String (ascii_of_nat 10) EmptyString.

(** [s.split(c)] for a separator of one character. *)
Fixpoint split_char_go (c : ascii) (cur : list ascii) (s : list ascii)
  : list string :=
  match s with
  | [] => [string_of_list_ascii (rev cur)]
  | x :: s' =>
      if Ascii.eqb x c
      then string_of_list_ascii (rev cur) :: split_char_go c [] s'
      else split_char_go c (x :: cur) s'
  end.

Definition split_char (c : ascii) (s : string) : list string :=
  split_char_go c [] (list_ascii_of_string s).

(** [d[k] = v] on an insertion-ordered dict: a key that is there keeps
    its place. *)
Fixpoint dict_set {V : Type} (d : list (string * V)) (k : string) (v : V)
  : list (string * V) :=
  match d with
  | [] => [(k, v)]
  | (k', v') :: d' =>
      if String.eqb k k' then (k', v) :: d' else (k', v') :: dict_set d' k v
  end.

(** [x == v] for a string [x]. *)
Definition is_str (x : string) (v : pyval) : bool :=
  match v with PStr s => String.eqb s x | _ => false end.

(** [l.remove(x)] on a list that contains [x]: the first occurrence
    goes. *)
Fixpoint list_remove (x : string) (l : list pyval) : list pyval :=
  match l with
  | [] => []
  | v :: l' => if is_str x v then l' else v :: list_remove x l'
  end.

(** ** telegram_bot/telegram_bot.py: the dialogue *)

Module TelegramBot.

Record button : Type := mkButton {
  label : string;
  callback_data : string
}.

(** What the bot hands to the chat SDK. *)
Inductive outgoing : Type :=
| send_message (chat_id : Z) (message : string)
    (reply_markup : option (list (list button)))
| answer
| edit_message_text (message : string)
    (reply_markup : option (list (list button))).

(** [self.__user_data[chat_id]]: a dict with the keys ["state"] and
    ["search_options"]. *)
Record chat : Type := mkChat {
  state : UserState;
  search_options : gmap string pyval
}.

Record bot : Type := mkBot {
  user_data : gmap Z chat;
  outbox : list outgoing   (* oldest first *)
}.

Definition bot0 : bot := mkBot ∅ [].

(** A handler: it may raise, change the chats and send. *)
Definition B (A : Type) : Type := bot -> result A * bot.

#[global] Instance B_ret : MRet B := fun _ a b => (Ok a, b).
#[global] Instance B_bind : MBind B := fun _ _ f m b =>
  match m b with
  | (Ok a, b') => f a b'
  | (Raise e, b') => (Raise e, b')
  end.

Definition raise {A : Type} (e : exn) : B A := fun b => (Raise e, b).

Definition lift {A : Type} (r : result A) : B A := fun b => (r, b).

Definition send (o : outgoing) : B unit :=
  fun b => (Ok tt, mkBot (user_data b) (outbox b ++ [o])).

(** [self.__user_data[chat_id]]. *)
Definition get_chat (chat_id : Z) : B chat :=
  fun b =>
    match user_data b !! chat_id with
    | Some c => (Ok c, b)
    | None => (Raise (KeyError (pretty chat_id)), b)
    end.

(** [self.__user_data[chat_id] = c]. *)
Definition put_chat (chat_id : Z) (c : chat) : B unit :=
  fun b => (Ok tt, mkBot (<[chat_id := c]> (user_data b)) (outbox b)).

(** [self.__user_data[chat_id]["state"] = st]. *)
Definition set_state (chat_id : Z) (st : UserState) : B unit :=
  c ← get_chat chat_id;
  put_chat chat_id (mkChat st (search_options c)).

(** [self.__user_data[chat_id]["search_options"][key] = v]. *)
Definition set_option (chat_id : Z) (key : string) (v : pyval) : B unit :=
  c ← get_chat chat_id;
  put_chat chat_id (mkChat (state c) (<[key := v]> (search_options c))).

(** The search options of [start] and of [clear], which differ in the
    two salary bounds. *)
Definition fresh_options (salary : pyval) : gmap string pyval :=
  {[ "search" := PStr ""; "region" := PStr "";
     "salary_from" := salary; "salary_to" := salary;
     "experience" := PList [] ]}.

Definition welcome : string :=
  "Hello! I'm a bot that can find resumes based on the parameters you provide."
  +:+ nl +:+ "Choose your option:"
  +:+ nl +:+ "/keywords - search query"
  +:+ nl +:+ "/region - region"
  +:+ nl +:+ "/salary - salary range"
  +:+ nl +:+ "/experience - required experience"
  +:+ nl +:+ "/search - start searching"
  +:+ nl +:+ "/clear - clear all parameters".

Definition start (chat_id : Z) : B unit :=
  _ ← put_chat chat_id (mkChat FREE (fresh_options (PInt 0)));
  send (send_message chat_id welcome None).

Definition stop (chat_id : Z) : B unit :=
  _ ← (fun b => (Ok tt, mkBot (delete chat_id (user_data b)) (outbox b)));
  send (send_message chat_id "Goodbye! Hope I was helpful." None).

Definition clear (chat_id : Z) : B unit :=
  _ ← put_chat chat_id (mkChat FREE (fresh_options (PStr "")));
  send (send_message chat_id
          "All parameters cleared. You can now provide new parameters." None).

Definition set_parameter (chat_id : Z) (text : string) : B unit :=
  if String.prefix "/keywords" text then
    _ ← send (send_message chat_id "Please provide your search query." None);
    set_state chat_id ASKING_KEYWORDS
  else if String.prefix "/region" text then
    _ ← send (send_message chat_id "Please provide your desired region." None);
    set_state chat_id ASKING_REGION
  else mret tt.

Definition not_choosing : string :=
  "It seems you're not choosing any parameter, type one of the following commands: "
  +:+ "/keywords, /region, /salary, /experience, /search, /clear".

(** [accept_parameter]; a chat that is there is a dict of two keys and
    so passes the test [if not self.__user_data.get(chat_id)]. *)
Definition accept_parameter (chat_id : Z) (text : string) : B unit :=
  fun b =>
    match user_data b !! chat_id with
    | None =>
        send (send_message chat_id "Please type /start to make a request."
                None) b
    | Some c =>
        (_ ← match state c with
             | FREE => send (send_message chat_id not_choosing None)
             | ASKING_KEYWORDS =>
                 _ ← set_option chat_id "search" (PStr text);
                 send (send_message chat_id
                         ("Search query set to: " +:+ text) None)
             | ASKING_REGION =>
                 _ ← set_option chat_id "region" (PStr text);
                 send (send_message chat_id ("Region set to: " +:+ text) None)
             | _ => mret tt
             end;
         set_state chat_id FREE) b
    end.

(** [TelegramBot.format_resume]. *)
Definition or_NA (o : option string) : string :=
  if truthy (opt_str o) then default "" o else "N/A".

Definition format_experience (exp : Experience) : string :=
  "    Position: " +:+ or_NA (position exp) +:+ nl
  +:+ "    Duration: " +:+ or_NA (duration exp) +:+ nl
  +:+ "    Details: " +:+ or_NA (details exp) +:+ nl +:+ nl.

Definition format_experiences (o : option (list Experience)) : string :=
  match o with
  | Some (exp :: exps) =>
      "Experience/Education:" +:+ nl
      +:+ String.concat "" (map format_experience (exp :: exps))
  | _ => ""
  end.

Definition format_resume (resume : Resume) : string :=
  "Resume: " +:+ href resume +:+ nl
  +:+ (if truthy (opt_str (salary_expectation resume))
       then "Salary expectation: "
            +:+ default "" (salary_expectation resume) +:+ nl
       else "")
  +:+ format_experiences (experience resume)
  +:+ "Resume filling percentage: "
  +:+ pretty (filling_percentage resume) +:+ "%" +:+ nl.

Section Handlers.
(** The option files of the bot: the labels and values of the two
    salary keyboards and the labels and callback data of the experience
    keyboard; an attribute is [None] when there is nothing to call
    [items()] on.  [py_str] is the text that an f-string puts in place
    of a value, [py_int] is [int()] on a string. *)
Variable SALARY_FROM_OPTIONS : option (list (string * pyval)).
Variable SALARY_TO_OPTIONS : option (list (string * pyval)).
Variable EXPERIENCE_OPTIONS : option (list (string * string)).
Variable py_str : pyval -> string.
Variable py_int : string -> result Z.

(** The two parsers, as the bot calls them. *)
Variable work_ua_search : SearchOptions -> result (list Resume).
Variable robota_ua_search : SearchOptions -> result (option (list Resume)).

(** [__get_experience_mapping]. *)
Definition get_experience_mapping : result (list (string * string)) :=
  match EXPERIENCE_OPTIONS with
  | Some options =>
      Ok (fold_left (fun d kl => dict_set d (snd kl) (fst kl)) options [])
  | None => Raise AttributeError
  end.

(** [label in selected_experience]. *)
Definition selected_in (x : string) (selected : pyval) : result bool :=
  match selected with
  | PList l => Ok (existsb (is_str x) l)
  | PStr s => Ok (contains x s)
  | PDict d => Ok (existsb (fun kv => String.eqb (fst kv) x) d)
  | _ => Raise TypeError
  end.

(** [__build_experience_keyboard]. *)
Definition build_experience_keyboard (selected_experience : pyval)
  : result (list (list button)) :=
  experience_mapping ← get_experience_mapping;
  row ← map_result
          (fun kl =>
             ticked ← selected_in (snd kl) selected_experience;
             Ok (mkButton (if ticked : bool then "✅ " +:+ snd kl else snd kl)
                   (fst kl)))
          experience_mapping;
  Ok [row;
      [mkButton "🔄 Reset" "experience_reset";
       mkButton "✔️ Complete" "experience_complete"]].

Definition experience (chat_id : Z) : B unit :=
  c ← get_chat chat_id;
  selected ← match search_options c !! "experience" with
             | Some v => mret v
             | None => raise (KeyError "experience")
             end;
  reply_markup ← lift (build_experience_keyboard selected);
  _ ← set_state chat_id ASKING_EXPERIENCE;
  send (send_message chat_id
          "Please choose your experience levels (you can select multiple):"
          (Some reply_markup)).

(** [", ".join(selected) if selected else "None"]. *)
Definition selected_text (selected : pyval) : result string :=
  if truthy selected then
    items ← iterate selected; str_join ", " items
  else Ok "None".

(** [experience_callback].  [selected_experience] is the list that the
    search options hold, so what [remove] and [append] do to it shows
    in the search options, unless the key was missing and the list is
    the default of [get].  A string or a dict answers [in] and has no
    [remove] or [append]; the other values do not answer [in]. *)
Definition experience_callback (chat_id : Z) (action : string) : B unit :=
  _ ← send answer;
  c ← get_chat chat_id;
  let selected := dict_get_default (search_options c) "experience" (PList []) in
  experience_mapping ← lift get_experience_mapping;
  if String.eqb action "experience_complete" then
    text ← lift (selected_text selected);
    _ ← set_state chat_id FREE;
    send (edit_message_text
            ("Experience selection completed: " +:+ text +:+ ".") None)
  else if String.eqb action "experience_reset" then
    _ ← set_option chat_id "experience" (PList []);
    reply_markup ← lift (build_experience_keyboard selected);
    send (edit_message_text
            "Experience options have been reset. Please select again."
            (Some reply_markup))
  else
    selected_option ← match assoc action experience_mapping with
                      | Some x => mret x
                      | None => raise (KeyError action)
                      end;
    items ← match selected with
            | PList l => mret l
            | PStr _ | PDict _ => raise AttributeError
            | _ => raise TypeError
            end;
    let toggled :=
      if existsb (is_str selected_option) items
      then list_remove selected_option items
      else items ++ [PStr selected_option] in
    _ ← match search_options c !! "experience" with
        | Some _ => set_option chat_id "experience" (PList toggled)
        | None => mret tt
        end;
    text ← lift (selected_text (PList toggled));
    reply_markup ← lift (build_experience_keyboard (PList toggled));
    send (edit_message_text
            ("Experience options selected: " +:+ text +:+ nl
             +:+ "You can toggle options, reset, or complete your selection.")
            (Some reply_markup)).

(** The keyboard of [salary] and of [salary_callback]: one row for each
    option. *)
Definition salary_keyboard (options : option (list (string * pyval)))
  (prefix : string) : result (list (list button)) :=
  match options with
  | Some items =>
      Ok (map (fun lv => [mkButton (fst lv) (prefix +:+ py_str (snd lv))])
            items)
  | None => Raise AttributeError
  end.

Definition salary (chat_id : Z) : B unit :=
  _ ← set_state chat_id ASKING_SALARY_FROM;
  reply_markup ← lift (salary_keyboard SALARY_FROM_OPTIONS "salary_from:");
  send (send_message chat_id "Select the minimum salary:" (Some reply_markup)).

(** [int(data.split(":")[1])]. *)
Definition salary_of (data : string) : result Z :=
  match split_char ":" data with
  | _ :: value :: _ => py_int value
  | _ => Raise IndexError
  end.

Definition salary_callback (chat_id : Z) (data : string) : B unit :=
  _ ← send answer;
  if String.prefix "salary_from:" data then
    value ← lift (salary_of data);
    _ ← set_option chat_id "salary_from" (PInt value);
    _ ← set_state chat_id ASKING_SALARY_TO;
    reply_markup ← lift (salary_keyboard SALARY_TO_OPTIONS "salary_to:");
    send (edit_message_text "Select the maximum salary:" (Some reply_markup))
  else if String.prefix "salary_to:" data then
    value ← lift (salary_of data);
    _ ← set_option chat_id "salary_to" (PInt value);
    _ ← set_state chat_id FREE;
    send (edit_message_text "Salary range set successfully." None)
  else mret tt.

(** The text that [search_resumes] sends. *)
Definition found_text (combined top : list Resume) : string :=
  "Found " +:+ pretty (length combined) +:+ " resumes" +:+ nl
  +:+ "You can see top 5 below:" +:+ nl
  +:+ String.concat nl (map format_resume top).

(** [search_resumes]; [work + None] is a [TypeError]. *)
Definition search_resumes (chat_id : Z) : B unit :=
  c ← get_chat chat_id;
  match search_options c !! "search" with
  | None =>
      send (send_message chat_id "Please provide at least keywords." None)
  | Some _ =>
      params ← lift (SearchOptions_of_kwargs (search_options c));
      work_ua_results ← lift (work_ua_search params);
      robota_ua_results ← lift (robota_ua_search params);
      robota_ua_results ← match robota_ua_results with
                          | Some l => mret l
                          | None => raise TypeError
                          end;
      send (send_message chat_id
              (found_text (combined_results work_ua_results robota_ua_results)
                 (top_resumes work_ua_results robota_ua_results))
              None)
  end.

(** The updates, each with the handler that [__add_handlers] gives it. *)
Inductive update : Type :=
| Start (chat_id : Z)
| Stop (chat_id : Z)
| Clear (chat_id : Z)
| Command (chat_id : Z) (text : string)
| Text (chat_id : Z) (text : string)
| ExperienceCommand (chat_id : Z)
| ExperienceCallback (chat_id : Z) (data : string)
| SalaryCommand (chat_id : Z)
| SalaryCallback (chat_id : Z) (data : string)
| Search (chat_id : Z).

Definition handle (u : update) : B unit :=
  match u with
  | Start c => start c
  | Stop c => stop c
  | Clear c => clear c
  | Command c text => set_parameter c text
  | Text c text => accept_parameter c text
  | ExperienceCommand c => experience c
  | ExperienceCallback c data => experience_callback c data
  | SalaryCommand c => salary c
  | SalaryCallback c data => salary_callback c data
  | Search c => search_resumes c
  end.

(** The bot takes the updates one after the other; a handler that
    raises is over, and what it did until then stays. *)
Definition step (b : bot) (u : update) : bot := snd (handle u b).

Definition run (updates : list update) (b : bot) : bot :=
  fold_left step updates b.

End Handlers.
End TelegramBot.

(** ** Vocabulary of the properties of the dialogue *)

(** The chat that an update belongs to. *)
Definition chat_of (u : TelegramBot.update) : Z :=
  match u with
  | TelegramBot.Start c | TelegramBot.Stop c | TelegramBot.Clear c
  | TelegramBot.Command c _ | TelegramBot.Text c _
  | TelegramBot.ExperienceCommand c | TelegramBot.ExperienceCallback c _
  | TelegramBot.SalaryCommand c | TelegramBot.SalaryCallback c _
  | TelegramBot.Search c => c
  end.

(** The search options that the handler of an update may write. *)
Definition touched (u : TelegramBot.update) : list string :=
  match u with
  | TelegramBot.Text _ _ => ["search"; "region"]
  | TelegramBot.ExperienceCallback _ _ => ["experience"]
  | TelegramBot.SalaryCallback _ _ => ["salary_from"; "salary_to"]
  | _ => []
  end.

(** A chat before and after a handler that may only write the search
    options [K]: a chat that is not there is not created, a chat that is
    there stays, with its other options as they were and none of its
    options removed. *)
Definition own_chat_kept (K : list string)
  (before after : option TelegramBot.chat) : Prop :=
  match before with
  | None => after = None
  | Some ch =>
      exists ch',
        after = Some ch'
        /\ (forall k, ~ In k K ->
              TelegramBot.search_options ch' !! k
              = TelegramBot.search_options ch !! k)
        /\ (forall k, is_Some (TelegramBot.search_options ch !! k) ->
              is_Some (TelegramBot.search_options ch' !! k))
  end.

(** The chats of [b] and of [b'] differ at most in chat [c], and there
    as [own_chat_kept K] allows. *)
Definition changes (c : Z) (K : list string) (b b' : TelegramBot.bot)
  : Prop :=
  (forall id, id <> c ->
     TelegramBot.user_data b' !! id = TelegramBot.user_data b !! id)
  /\ own_chat_kept K (TelegramBot.user_data b !! c)
       (TelegramBot.user_data b' !! c).

(** A handler that changes the chats at most in chat [c] and there only
    writes the options [K]. *)
Definition frames (c : Z) (K : list string) {A : Type} (m : TelegramBot.B A)
  : Prop :=
  forall b, changes c K b (snd (m b)).

Definition option_keys : list string :=
  ["search"; "region"; "salary_from"; "salary_to"; "experience"].

(** The updates that leave the salary bounds of chat [c] alone and do
    not start or stop the chat. *)
Definition keeps_salary (c : Z) (u : TelegramBot.update) : Prop :=
  match u with
  | TelegramBot.Start c' | TelegramBot.Stop c'
  | TelegramBot.SalaryCallback c' _ => c' <> c
  | _ => True
  end.

(** The updates whose handlers go straight to the data of the chat. *)
Definition needs_chat (u : TelegramBot.update) : bool :=
  match u with
  | TelegramBot.Command _ text =>
      String.prefix "/keywords" text || String.prefix "/region" text
  | TelegramBot.ExperienceCommand _ | TelegramBot.ExperienceCallback _ _
  | TelegramBot.SalaryCommand _ | TelegramBot.Search _ => true
  | _ => false
  end.

(** What [experience_callback] does to the selection when a label is
    pressed. *)
Definition toggle (x : string) (items : list pyval) : list pyval :=
  if existsb (is_str x) items
  then list_remove x items
  else items ++ [PStr x].

(** The message that [search_resumes] sends when the search options
    have no key ["search"]. *)
Definition is_keywords_request (o : TelegramBot.outgoing) : bool :=
  match o with
  | TelegramBot.send_message _ message _ =>
      String.eqb message "Please provide at least keywords."
  | _ => false
  end.

(** What a handler sends is added to the outbox, and the request for
    keywords is not among it. *)
Definition sends_no_keywords_request (b b' : TelegramBot.bot) : Prop :=
  exists sent,
    TelegramBot.outbox b' = TelegramBot.outbox b ++ sent
    /\ Forall (fun o => is_keywords_request o = false) sent.

Definition quiet {A : Type} (m : TelegramBot.B A) : Prop :=
  forall b, sends_no_keywords_request b (snd (m b)).

(** Every chat has all five search options. *)
Definition chats_complete (b : TelegramBot.bot) : Prop :=
  forall id ch,
    TelegramBot.user_data b !! id = Some ch ->
    Forall (fun k => is_Some (TelegramBot.search_options ch !! k))
      option_keys.

(** ** A dialogue *)

(** The option files of a bot, as [(key, label)] and [(label, value)]
    pairs. *)
Definition bot_experience_example : option (list (string * string)) :=
  Some [("No experience", "0"); ("1 to 2 years", "164")].

Definition bot_salary_example : option (list (string * pyval)) :=
  Some [("10000", PStr "2"); ("20000", PStr "3")].

(** [int()] on the strings of digits. *)
Definition py_int_example (s : string) : result Z :=
  match s with
  | "2" => Ok 2
  | "3" => Ok 3
  | _ => Raise (Exception "invalid literal for int()")
  end.

(** Parsers that find one resume each. *)
Definition work_ua_search_example (params : SearchOptions)
  : result (list Resume) :=
  Ok [mkResume "https://www.work.ua/resumes/1/" (Some "") (Some []) 0].

Definition robota_ua_search_example (params : SearchOptions)
  : result (option (list Resume)) :=
  Ok (Some [mkResume "https://robota.ua/candidates/7" (Some "45000")
              (Some []) 80]).

(** A bot after [/start] in chat 7. *)
Definition bot_started : TelegramBot.bot :=
  TelegramBot.step bot_salary_example bot_salary_example
    bot_experience_example py_str_example py_int_example
    work_ua_search_example robota_ua_search_example
    TelegramBot.bot0 (TelegramBot.Start 7).

(** The same bot after a press on "1 to 2 years". *)
Definition bot_selected : TelegramBot.bot :=
  TelegramBot.step bot_salary_example bot_salary_example
    bot_experience_example py_str_example py_int_example
    work_ua_search_example robota_ua_search_example
    bot_started (TelegramBot.ExperienceCallback 7 "164").

(** * Properties *)

(** ** The aggregation *)

Section PySortedFacts.
Context {A : Type} (key : A -> Z).
Local Abbreviation lt := (fun x y : A => key x <? key y).
Local Abbreviation le := (fun x y : A => key x <= key y).

Lemma sort_insert_perm (x : A) (l : list A) :
  Permutation (sort_insert lt x l) (x :: l).
Proof.
  induction l as [|y l IH]; simpl; [reflexivity|].
  destruct (lt y x); [|reflexivity].
  rewrite IH. apply perm_swap.
Qed.

Lemma py_sorted_perm (l : list A) : Permutation (py_sorted lt l) l.
Proof.
  induction l as [|x l IH]; simpl; [reflexivity|].
  rewrite sort_insert_perm. now constructor.
Qed.

Lemma sort_insert_sorted (x : A) (l : list A) :
  StronglySorted le l -> StronglySorted le (sort_insert lt x l).
Proof.
  induction 1 as [|y l Hl IH Hy]; simpl.
  - repeat constructor.
  - destruct (Z.ltb_spec (key y) (key x)) as [Hlt|Hge].
    + constructor; [exact IH|].
      eapply Permutation_Forall; [symmetry; apply sort_insert_perm|].
      constructor; [lia | exact Hy].
    + constructor; [now constructor|].
      constructor; [exact Hge|].
      eapply Forall_impl; [exact Hy|]. intros z Hz; simpl in *. lia.
Qed.

Lemma py_sorted_sorted (l : list A) : StronglySorted le (py_sorted lt l).
Proof.
  induction l as [|x l IH]; simpl; [constructor|].
  now apply sort_insert_sorted.
Qed.

Lemma StronglySorted_rev_flip (R : A -> A -> Prop) (l : list A) :
  StronglySorted R l -> StronglySorted (fun x y => R y x) (rev l).
Proof.
  induction 1 as [|x l Hl IH Hx]; simpl; [constructor|].
  apply StronglySorted_app_2.
  - intros a b Ha Hb.
    apply list_elem_of_In in Ha. apply in_rev in Ha.
    apply list_elem_of_In in Hb. destruct Hb as [<-|[]].
    rewrite List.Forall_forall in Hx. now apply Hx.
  - exact IH.
  - repeat constructor.
Qed.

Lemma py_sorted_reverse_perm (l : list A) :
  Permutation (py_sorted_reverse lt l) l.
Proof.
  unfold py_sorted_reverse.
  rewrite <- Permutation_rev, py_sorted_perm. symmetry. apply Permutation_rev.
Qed.

Lemma py_sorted_reverse_sorted (l : list A) :
  StronglySorted (fun x y => key y <= key x) (py_sorted_reverse lt l).
Proof.
  unfold py_sorted_reverse.
  apply (StronglySorted_rev_flip le), py_sorted_sorted.
Qed.
End PySortedFacts.

Lemma StronglySorted_firstn {A : Type} (R : A -> A -> Prop) (n : nat)
  (l : list A) :
  StronglySorted R l -> StronglySorted R (firstn n l).
Proof.
  intros H. rewrite <- (firstn_skipn n l) in H.
  now apply StronglySorted_app in H as (_ & H & _).
Qed.

Lemma StronglySorted_lookup {A : Type} (R : A -> A -> Prop) (l : list A) :
  StronglySorted R l ->
  forall (i j : nat) (x y : A),
    (i < j)%nat -> l !! i = Some x -> l !! j = Some y -> R x y.
Proof.
  induction 1 as [|a l Hl IH Ha]; intros i j x y Hij Hi Hj.
  - discriminate.
  - destruct j as [|j]; [lia|]. simpl in Hj.
    destruct i as [|i]; simpl in Hi.
    + injection Hi as ->. rewrite List.Forall_forall in Ha. apply Ha.
      apply list_elem_of_In. eapply list_elem_of_lookup_2; eauto.
    + apply (IH i j); [lia|assumption..].
Qed.

Lemma combined_results_perm (work robota : list Resume) :
  Permutation (combined_results work robota) (work ++ robota).
Proof. apply (py_sorted_reverse_perm filling_percentage). Qed.

Lemma combined_results_sorted (work robota : list Resume) :
  StronglySorted (fun x y => filling_percentage y <= filling_percentage x)
    (combined_results work robota).
Proof. apply (py_sorted_reverse_sorted filling_percentage). Qed.

(** C1: [aggregate] returns [min topN (len A + len B)] resumes, none of
    which has a smaller [filling_percentage] than one that comes after
    it; two empty lists give the empty list.  [A] is the list of the
    API-based source (Robota.ua), [B] that of the scrape-based one. *)
Theorem aggregate_length_descending (A B : list Resume) (topN : nat) :
  length (aggregate B A topN) = Nat.min topN (length A + length B)
  /\ descending (aggregate B A topN)
  /\ aggregate [] [] topN = [].
Proof.
  unfold aggregate. split; [|split].
  - rewrite length_firstn.
    rewrite (Permutation_length (combined_results_perm B A)), length_app.
    lia.
  - unfold descending. intros i j x y Hij Hi Hj.
    apply (StronglySorted_lookup
             (fun x y => filling_percentage y <= filling_percentage x)
             (firstn topN (combined_results B A))
             (StronglySorted_firstn _ _ _ (combined_results_sorted B A))
             i j x y Hij Hi Hj).
  - now destruct topN.
Qed.

(** What [search_resumes] sends is the aggregation at [topN = 5]. *)
Lemma top_resumes_aggregate (work robota : list Resume) :
  top_resumes work robota = aggregate work robota 5.
Proof. reflexivity. Qed.

(** Nothing is invented and nothing is lost: the resumes that are
    returned, with those that are cut off, are the resumes of the two
    sources. *)
Lemma aggregate_perm (work robota : list Resume) (topN : nat) :
  Permutation
    (aggregate work robota topN ++ skipn topN (combined_results work robota))
    (work ++ robota).
Proof.
  unfold aggregate. rewrite firstn_skipn. apply combined_results_perm.
Qed.

(** The example of the specification: of a resume filled to 80% and one
    filled to 95%, the top one is the latter. *)
Example aggregate_top1 (h1 h2 : string) :
  aggregate [mkResume h1 None None 80] [mkResume h2 None None 95] 1
  = [mkResume h2 None None 95].
Proof. reflexivity. Qed.

(** Equal scores keep the order in which the sources are concatenated. *)
Example aggregate_ties :
  map href (aggregate [mkResume "w1" None None 7; mkResume "w2" None None 9]
                      [mkResume "r1" None None 9; mkResume "r2" None None 7] 4)
  = ["w2"; "r1"; "w1"; "r2"].
Proof. reflexivity. Qed.

(** ** The fuzzy match of the region *)

Lemma Qlt_bool_true (x y : Q) : (x < y)%Q -> Qlt_bool x y = true.
Proof.
  intros H. unfold Qlt_bool. destruct (Qle_bool y x) eqn:E; [|reflexivity].
  apply Qle_bool_iff in E. exfalso. exact (Qlt_not_le _ _ H E).
Qed.

Lemma Qlt_bool_false (x y : Q) : (y <= x)%Q -> Qlt_bool x y = false.
Proof.
  intros H. unfold Qlt_bool. apply Qle_bool_iff in H. now rewrite H.
Qed.

Lemma Qeq_bool_false_lt (x y : Q) : (x < y)%Q -> Qeq_bool x y = false.
Proof.
  intros H. destruct (Qeq_bool x y) eqn:E; [|reflexivity].
  apply Qeq_bool_iff in E. rewrite E in H. exfalso. exact (Qlt_irrefl _ H).
Qed.

Section ExtractOneFacts.
Variable scorer : string -> string -> Q.

(** A scan stops at the first choice that scores 100 and returns it. *)
Lemma extractOne_scan_first_perfect (query key : string)
  (before after : list string) (result : option (string * Q)) :
  Forall (fun k => (scorer query k < 100)%Q) before ->
  (scorer query key == 100)%Q ->
  imperfect result ->
  extractOne_scan scorer query (before ++ key :: after) result
  = Some (key, scorer query key).
Proof.
  intros Hbefore Hkey. revert result.
  induction Hbefore as [|k before Hk Hbefore IH]; intros result Hres; simpl.
  - apply Qeq_bool_iff in Hkey as Hb. rewrite Hb.
    destruct result as [[c best]|]; [|reflexivity].
    simpl in Hres. rewrite Qlt_bool_true; [reflexivity|].
    now rewrite Hkey.
  - rewrite (Qeq_bool_false_lt _ _ Hk). apply IH.
    destruct result as [[c best]|]; simpl; [|exact Hk].
    destruct (Qlt_bool best (scorer query k)); simpl; assumption.
Qed.

(** A scan over choices that all score at most [bound] ends with a
    score of at most [bound]. *)
Lemma extractOne_scan_bound (query : string) (bound : Q)
  (choices : list string) (result : option (string * Q)) :
  Forall (fun k => (scorer query k <= bound)%Q) choices ->
  match result with Some (_, best) => (best <= bound)%Q | None => True end ->
  match extractOne_scan scorer query choices result with
  | Some (_, best) => (best <= bound)%Q
  | None => True
  end.
Proof.
  intros Hall. revert result.
  induction Hall as [|k choices Hk Hall IH]; intros result Hres; simpl;
    [exact Hres|].
  assert (Hnew : match (match result with
                        | None => Some (k, scorer query k)
                        | Some (_, best) =>
                            if Qlt_bool best (scorer query k)
                            then Some (k, scorer query k) else result
                        end) with
                 | Some (_, best) => (best <= bound)%Q
                 | None => True
                 end).
  { destruct result as [[c best]|]; [|exact Hk].
    destruct (Qlt_bool best (scorer query k)); [exact Hk|exact Hres]. }
  destruct (Qeq_bool (scorer query k) 100); [exact Hnew|].
  now apply IH.
Qed.

(** When no choice scores above the threshold, no word is returned. *)
Lemma get_most_similar_word_below (threshold : Z) (word : option string)
  (vocabulary : list string) :
  (forall q, word = Some q ->
     Forall (fun k => (scorer q k <= inject_Z threshold)%Q) vocabulary) ->
  get_most_similar_word scorer threshold word vocabulary = None.
Proof.
  intros Hall. unfold get_most_similar_word, extractOne.
  destruct word as [q|]; [|reflexivity].
  pose proof (extractOne_scan_bound q (inject_Z threshold) vocabulary None
                (Hall q eq_refl) I) as Hb.
  destruct (extractOne_scan scorer q vocabulary None) as [[m s]|];
    [|reflexivity].
  now rewrite Qlt_bool_false.
Qed.

(** C2, amended: a region string that is a key of the region map is
    resolved to that very key when the threshold is below 100 and no key
    that the map lists earlier reaches the score 100 as well. *)
Theorem exact_region_selected (threshold : Z) (word : string)
  (before after : list string) :
  (scorer word word == 100)%Q ->
  Forall (fun k => (scorer word k < 100)%Q) before ->
  threshold < 100 ->
  get_most_similar_word scorer threshold (Some word)
    (before ++ word :: after) = Some word.
Proof.
  intros Hself Hbefore Hthr. unfold get_most_similar_word, extractOne.
  rewrite (extractOne_scan_first_perfect word word before after None
             Hbefore Hself I).
  rewrite Qlt_bool_true; [reflexivity|].
  rewrite Hself. change 100%Q with (inject_Z 100). now rewrite <- Zlt_Qlt.
Qed.

(** At a threshold of 100 or more nothing is ever selected, whatever
    the scores up to 100 are. *)
Lemma threshold_100_selects_nothing (threshold : Z) (word : option string)
  (vocabulary : list string) :
  (forall q k, (scorer q k <= 100)%Q) ->
  100 <= threshold ->
  get_most_similar_word scorer threshold word vocabulary = None.
Proof.
  intros Hscale Hthr. apply get_most_similar_word_below.
  intros q _. apply List.Forall_forall. intros k _.
  apply Qle_trans with (y := 100%Q); [apply Hscale|].
  change 100%Q with (inject_Z 100). now rewrite <- Zle_Qle.
Qed.
End ExtractOneFacts.

Lemma exact_region_selected_witness :
  get_most_similar_word token_sort_ratio 70 (Some "Kyiv")
    (["Lviv"; "Kharkiv"] ++ "Kyiv" :: ["Odesa"]) = Some "Kyiv".
Proof.
  apply (exact_region_selected token_sort_ratio 70 "Kyiv"
           ["Lviv"; "Kharkiv"] ["Odesa"]).
  - reflexivity.
  - repeat constructor.
  - lia.
Defined.

(** C2 as stated fails: at the threshold 100 the exact key is not
    selected, since the score has to exceed the threshold. *)
Lemma exact_region_not_selected_at_100 :
  In "Kyiv" ["Kyiv"; "Lviv"]
  /\ get_most_similar_word token_sort_ratio 100 (Some "Kyiv") ["Kyiv"; "Lviv"]
     <> Some "Kyiv".
Proof. split; [now left|]. vm_compute. discriminate. Qed.

(** An earlier key with the same tokens wins over the exact key. *)
Example exact_region_tie :
  get_most_similar_word token_sort_ratio 70 (Some "New York")
    ["York New"; "New York"] = Some "York New".
Proof. reflexivity. Qed.

Example token_sort_ratio_examples :
  Qeq_bool (token_sort_ratio "Ivano  Frankivsk" "Frankivsk Ivano") 100 = true
  /\ Qeq_bool (token_sort_ratio "Kyiv" "Lviv") 50 = true
  /\ Qeq_bool (token_sort_ratio "zzz" "Kyiv") 0 = true.
Proof. repeat split. Qed.

Example after_last_examples :
  after_last "ab" "xxabyyabz" = "z" /\ after_last "aa" "aaab" = "ab"
  /\ after_last "ab" "xyz" = "xyz".
Proof. repeat split. Qed.

(** ** The payloads of the two normalizers *)

Section Payloads.
Variable scorer : string -> string -> Q.
Variable threshold : Z.

(** Every field of the Work.ua payload, read off the search options. *)
Lemma WorkUa_payload_fields (self : WorkUa.parser) (params : SearchOptions)
  (payload : gmap string pyval) :
  WorkUa.unpack_search_options scorer threshold self params = Ok payload ->
  payload !! "search" = Some (PStr (so_search params))
  /\ payload !! "region"
     = (if truthy (opt_str (so_region params))
        then Some (WorkUa.region_id scorer threshold self params) else None)
  /\ payload !! "salaryfrom"
     = (if truthy (opt_int (so_salary_from params))
        then Some (dict_get (WorkUa.SALARY_FROM_OPTIONS self)
                     (pretty (default 0 (so_salary_from params))))
        else None)
  /\ payload !! "salaryto"
     = (if truthy (opt_int (so_salary_to params))
        then Some (dict_get (WorkUa.SALARY_TO_OPTIONS self)
                     (pretty (default 0 (so_salary_to params))))
        else None)
  /\ (if truthy (opt_labels (so_experience params))
      then exists joined,
          str_join "+" (WorkUa.experience_items self
                          (default [] (so_experience params))) = Ok joined
          /\ payload !! "experience" = Some (PStr joined)
      else payload !! "experience" = None).
Proof.
  unfold WorkUa.unpack_search_options. intros H.
  destruct (truthy (opt_labels _)) eqn:Hexp.
  - destruct (str_join _ _) as [joined|e] eqn:Hjoin; [|discriminate].
    simpl in H. injection H as <-.
    repeat split;
      try (destruct (truthy (opt_str _)), (truthy (opt_int (so_salary_from _))),
             (truthy (opt_int (so_salary_to _))); by simplify_map_eq).
    exists joined. split; [reflexivity|]. by simplify_map_eq.
  - injection H as <-.
    repeat split;
      destruct (truthy (opt_str _)), (truthy (opt_int (so_salary_from _))),
        (truthy (opt_int (so_salary_to _))); by simplify_map_eq.
Qed.

(** The fuzzy match returns one of the words it is given. *)
Lemma extractOne_scan_In (query : string) (choices : list string)
  (result : option (string * Q)) (m : string) (sc : Q) :
  extractOne_scan scorer query choices result = Some (m, sc) ->
  In m choices \/ result = Some (m, sc).
Proof.
  revert result. induction choices as [|c cs IH]; intros result H; simpl in H.
  - now right.
  - assert (Hstep : forall r',
               r' = match result with
                    | None => Some (c, scorer query c)
                    | Some (_, best) =>
                        if Qlt_bool best (scorer query c)
                        then Some (c, scorer query c) else result
                    end ->
               r' = Some (m, sc) -> In m (c :: cs) \/ result = Some (m, sc)).
    { intros r' -> Hr. destruct result as [[c0 best]|].
      - destruct (Qlt_bool best (scorer query c)).
        + injection Hr as <- _. left. now left.
        + now right.
      - injection Hr as <- _. left. now left. }
    destruct (Qeq_bool (scorer query c) 100).
    + eapply Hstep; [reflexivity|exact H].
    + apply IH in H as [H|H]; [left; now right|].
      eapply Hstep; [reflexivity|exact H].
Qed.

Lemma get_most_similar_word_In (word : option string)
  (vocabulary : list string) (m : string) :
  get_most_similar_word scorer threshold word vocabulary = Some m ->
  In m vocabulary.
Proof.
  unfold get_most_similar_word, extractOne. destruct word as [q|]; [|discriminate].
  destruct (extractOne_scan scorer q vocabulary None) as [[m' sc]|] eqn:E;
    [|discriminate].
  destruct (Qlt_bool _ _); [|discriminate]. intros [= <-].
  apply extractOne_scan_In in E as [E|E]; [exact E|discriminate].
Qed.

Lemma assoc_In_keys {V : Type} (k : string) (d : list (string * V)) :
  In k (map fst d) -> exists v, assoc k d = Some v.
Proof.
  induction d as [|[k' v] d IH]; simpl; [intros []|].
  intros [->|H].
  - rewrite String.eqb_refl. eauto.
  - destruct (String.eqb k k'); eauto.
Qed.

(** Looking up the matched region never raises [KeyError]. *)
Lemma RobotaUa_region_id_Ok (self : RobotaUa.parser) (params : SearchOptions) :
  exists v, RobotaUa.region_id scorer threshold self params = Ok v.
Proof.
  unfold RobotaUa.region_id.
  destruct (get_most_similar_word _ _ _ _) as [m|] eqn:E; simpl; [|eauto].
  destruct (negb _); [|eauto].
  apply get_most_similar_word_In, assoc_In_keys in E as [v ->]. eauto.
Qed.

(** With the options loaded, the comprehension keeps the truthy
    mapped keys, in the order of their labels. *)
Lemma RobotaUa_experience_ids (self : RobotaUa.parser)
  (options : gmap string pyval) (labels : list string) :
  RobotaUa.EXPERIENCE_OPTIONS self = Some options ->
  RobotaUa.experience_ids self labels
  = Ok (List.filter truthy (map (dict_get options) labels)).
Proof.
  intros Hopt. induction labels as [|l labels IH]; simpl; [reflexivity|].
  unfold RobotaUa.experience_options. rewrite Hopt. simpl.
  rewrite IH. simpl. now destruct (truthy (dict_get options l)).
Qed.

(** Every field of the Robota.ua payload. *)
Lemma RobotaUa_payload_fields (self : RobotaUa.parser) (params : SearchOptions)
  (payload : gmap string pyval) :
  RobotaUa.unpack_search_options scorer threshold self params = Ok payload ->
  exists (rid : pyval) (labels : list string) (ids : list pyval),
    RobotaUa.region_id scorer threshold self params = Ok rid
    /\ so_experience params = Some labels
    /\ payload !! "cityId" = Some rid
    /\ payload !! "keyWords" = Some (PStr (so_search params))
    /\ payload !! "salary"
       = Some (PDict [("from", opt_int (so_salary_from params));
                      ("to", opt_int (so_salary_to params))])
    /\ payload !! "experienceIds" = Some (PList ids)
    /\ (RobotaUa.experience_ids self labels ≫=
          (fun ids0 =>
             if bool_decide ("More than 5 years" ∈ labels) then
               k1 ← RobotaUa.experience_option self "5 to 10 years";
               k2 ← RobotaUa.experience_option self "More than 10 years";
               Ok (ids0 ++ [k1] ++ [k2])
             else Ok ids0)) = Ok ids.
Proof.
  unfold RobotaUa.unpack_search_options. intros H.
  destruct (RobotaUa.region_id _ _ _ _) as [rid|] eqn:Hrid; [|discriminate].
  destruct (so_experience params) as [labels|]; [|discriminate].
  simpl in H.
  destruct (RobotaUa.experience_ids self labels) as [ids0|] eqn:Hids;
    [|discriminate].
  simpl in H.
  match type of H with
  | (?m ≫= _) = _ => destruct m as [ids|] eqn:Hexp; [|discriminate]
  end.
  simpl in H. injection H as <-.
  exists rid, labels, ids. repeat split; try by simplify_map_eq.
  rewrite Hids. exact Hexp.
Qed.

(** C3, amended: for a region string that scores at or below the
    threshold against every key, the region field is not left out but
    holds [None]: ["region"] in the Work.ua payload (for a non-empty
    region string; an empty one adds no field) and ["cityId"] in the
    Robota.ua payload. *)
Theorem region_below_threshold_is_None (work : WorkUa.parser)
  (robota : RobotaUa.parser) (params : SearchOptions) (region : string) :
  so_region params = Some region ->
  Forall (fun k => (scorer region k <= inject_Z threshold)%Q)
    (map fst (WorkUa.REGIONS work)) ->
  Forall (fun k => (scorer region k <= inject_Z threshold)%Q)
    (map fst (RobotaUa.REGIONS robota)) ->
  (forall payload,
      WorkUa.unpack_search_options scorer threshold work params = Ok payload ->
      payload !! "region"
      = if String.eqb region "" then None else Some PNone)
  /\ (forall payload,
        RobotaUa.unpack_search_options scorer threshold robota params
        = Ok payload ->
        payload !! "cityId" = Some PNone).
Proof.
  intros Hregion Hwork Hrobota. split; intros payload H.
  - apply WorkUa_payload_fields in H as (_ & -> & _).
    unfold WorkUa.region_id. rewrite get_most_similar_word_below.
    + rewrite Hregion. simpl. now destruct (String.eqb region "").
    + rewrite Hregion. now intros q [= <-].
  - apply RobotaUa_payload_fields in H as (rid & ? & ? & Hrid & _ & -> & _).
    unfold RobotaUa.region_id in Hrid.
    rewrite get_most_similar_word_below in Hrid.
    + simpl in Hrid. now injection Hrid as <-.
    + rewrite Hregion. now intros q [= <-].
Qed.

(** C4, amended: Work.ua leaves a salary bound out of the payload when
    it is absent or zero, and otherwise stores what the bracket map
    holds under its decimal string, which is [None] when no bracket
    matches; Robota.ua passes both bounds on as they are, [None] when
    absent, without a bracket map. *)
Theorem salary_bounds_in_payload (work : WorkUa.parser)
  (robota : RobotaUa.parser) (params : SearchOptions) :
  (forall payload,
      WorkUa.unpack_search_options scorer threshold work params = Ok payload ->
      payload !! "salaryfrom"
      = match so_salary_from params with
        | None => None
        | Some z =>
            if z =? 0 then None
            else Some (default PNone
                         (WorkUa.SALARY_FROM_OPTIONS work !! pretty z))
        end
      /\ payload !! "salaryto"
         = match so_salary_to params with
           | None => None
           | Some z =>
               if z =? 0 then None
               else Some (default PNone
                            (WorkUa.SALARY_TO_OPTIONS work !! pretty z))
           end)
  /\ (forall payload,
        RobotaUa.unpack_search_options scorer threshold robota params
        = Ok payload ->
        payload !! "salary"
        = Some (PDict [("from", opt_int (so_salary_from params));
                       ("to", opt_int (so_salary_to params))])).
Proof.
  split; intros payload H.
  - apply WorkUa_payload_fields in H as (_ & _ & -> & -> & _).
    destruct (so_salary_from params) as [f|], (so_salary_to params) as [t|];
      simpl; try destruct (f =? 0); try destruct (t =? 0); done.
  - now apply RobotaUa_payload_fields in H as (? & ? & ? & _ & _ & _ & _ & -> & _).
Qed.

End Payloads.

Lemma region_below_threshold_is_None_witness :
  exists pw pr,
    WorkUa.unpack_search_options token_sort_ratio 70 work_example
      params_example = Ok pw
    /\ RobotaUa.unpack_search_options token_sort_ratio 70 robota_example
         params_example = Ok pr
    /\ pw !! "region" = Some PNone
    /\ pr !! "cityId" = Some PNone.
Proof.
  pose proof (region_below_threshold_is_None token_sort_ratio 70
                work_example robota_example params_example "Atlantis"
                eq_refl) as H.
  destruct H as [Hw Hr].
  - repeat constructor; vm_compute; discriminate.
  - repeat constructor; vm_compute; discriminate.
  - eexists. eexists. split; [reflexivity|]. split; [reflexivity|].
    split; [apply Hw | apply Hr]; reflexivity.
Defined.

(** C3 as stated fails: the region scores below the threshold against
    every key, and yet the payload has a region field. *)
Lemma region_below_threshold_not_omitted :
  Forall (fun k => (token_sort_ratio "Atlantis" k <= inject_Z 70)%Q)
    (map fst (WorkUa.REGIONS work_example))
  /\ exists payload,
      WorkUa.unpack_search_options token_sort_ratio 70 work_example
        params_example = Ok payload
      /\ payload !! "region" <> None.
Proof.
  split.
  - repeat constructor; vm_compute; discriminate.
  - eexists. split; [reflexivity|]. vm_compute. discriminate.
Qed.

Lemma salary_bounds_in_payload_witness :
  exists pw pr,
    WorkUa.unpack_search_options token_sort_ratio 70 work_example
      (mkSearchOptions "python" None (Some 10000) (Some 0) (Some [])) = Ok pw
    /\ RobotaUa.unpack_search_options token_sort_ratio 70 robota_example
         (mkSearchOptions "python" None (Some 10000) (Some 0) (Some []))
       = Ok pr
    /\ pw !! "salaryfrom" = Some (PStr "2")
    /\ pw !! "salaryto" = None
    /\ pr !! "salary" = Some (PDict [("from", PInt 10000); ("to", PInt 0)]).
Proof.
  destruct (salary_bounds_in_payload token_sort_ratio 70
              work_example robota_example
              (mkSearchOptions "python" None (Some 10000) (Some 0) (Some [])))
    as [Hw Hr].
  eexists. eexists. split; [reflexivity|]. split; [reflexivity|].
  destruct (Hw _ eq_refl) as [Hfrom Hto].
  split; [exact Hfrom|]. split; [exact Hto|]. exact (Hr _ eq_refl).
Defined.

(** C4 as stated fails: a salary bound without a matching bracket is
    not left out of the Work.ua payload, it is stored as [None]. *)
Lemma unmatched_salary_not_omitted :
  WorkUa.SALARY_FROM_OPTIONS work_example !! pretty 12345 = None
  /\ exists payload,
      WorkUa.unpack_search_options token_sort_ratio 70 work_example
        params_example = Ok payload
      /\ payload !! "salaryfrom" = Some PNone.
Proof.
  split; [reflexivity|]. eexists. split; reflexivity.
Qed.

(** ** The experience labels *)

Lemma strings_of_app (a b : list pyval) :
  strings_of (a ++ b)
  = (sa ← strings_of a; sb ← strings_of b; Ok (sa ++ sb)).
Proof.
  induction a as [|v a IH]; simpl.
  - now destruct (strings_of b).
  - destruct v; try reflexivity. rewrite IH.
    destruct (strings_of a); [|reflexivity]. simpl.
    now destruct (strings_of b).
Qed.

Section Experience.
Variable scorer : string -> string -> Q.
Variable threshold : Z.

(** The payload of Robota.ua once the options are loaded and the
    expansion keys, if they are called for, are there. *)
Lemma RobotaUa_unpack_Ok (self : RobotaUa.parser) (params : SearchOptions)
  (options : gmap string pyval) (labels : list string) :
  RobotaUa.EXPERIENCE_OPTIONS self = Some options ->
  so_experience params = Some labels ->
  ("More than 5 years" ∈ labels ->
   is_Some (options !! "5 to 10 years")
   /\ is_Some (options !! "More than 10 years")) ->
  exists (rid : pyval) (payload : gmap string pyval),
    RobotaUa.unpack_search_options scorer threshold self params = Ok payload
    /\ payload !! "cityId" = Some rid
    /\ payload !! "experienceIds"
       = Some (PList
                 (List.filter truthy (map (dict_get options) labels)
                  ++ if bool_decide ("More than 5 years" ∈ labels)
                     then [dict_get options "5 to 10 years";
                           dict_get options "More than 10 years"]
                     else [])).
Proof.
  intros Hopt Hlabels Hkeys.
  destruct (RobotaUa_region_id_Ok scorer threshold self params) as [rid Hrid].
  unfold RobotaUa.unpack_search_options.
  rewrite Hrid, Hlabels. simpl.
  rewrite (RobotaUa_experience_ids self options labels Hopt). simpl.
  destruct (bool_decide ("More than 5 years" ∈ labels)) eqn:Hin.
  - apply bool_decide_eq_true in Hin.
    destruct (Hkeys Hin) as [[k1 Hk1] [k2 Hk2]].
    unfold RobotaUa.experience_option, RobotaUa.experience_options, dict_get.
    rewrite Hopt. simpl. rewrite Hk1, Hk2. simpl.
    eexists _, _. split; [reflexivity|]. split; by simplify_map_eq.
  - rewrite app_nil_r. eexists _, _. split; [reflexivity|].
    split; by simplify_map_eq.
Qed.

(** C5, amended.  Work.ua: an unmapped label is not dropped; it adds an
    empty segment to the string that joins the mapped keys with ["+"].
    Robota.ua: a label other than "More than 5 years" that is unmapped,
    or mapped to a falsy key, adds nothing: the payload is the one of
    the search options without that label. *)
Theorem unmapped_experience_label (work : WorkUa.parser)
  (robota : RobotaUa.parser) (params : SearchOptions)
  (l1 l2 : list string) (u : string) :
  so_experience params = Some (l1 ++ u :: l2) ->
  (WorkUa.EXPERIENCE_OPTIONS work !! u = None ->
   forall payload,
     WorkUa.unpack_search_options scorer threshold work params = Ok payload ->
     exists s1 s2,
       strings_of (WorkUa.experience_items work l1) = Ok s1
       /\ strings_of (WorkUa.experience_items work l2) = Ok s2
       /\ payload !! "experience"
          = Some (PStr (String.concat "+" (s1 ++ "" :: s2))))
  /\ (forall options,
        RobotaUa.EXPERIENCE_OPTIONS robota = Some options ->
        truthy (dict_get options u) = false ->
        u <> "More than 5 years" ->
        RobotaUa.unpack_search_options scorer threshold robota params
        = RobotaUa.unpack_search_options scorer threshold robota
            (set_experience params (l1 ++ l2))).
Proof.
  intros Hlabels. split.
  - intros Hu payload H.
    apply WorkUa_payload_fields in H as (_ & _ & _ & _ & H).
    rewrite Hlabels in H.
    change (default [] (Some (l1 ++ u :: l2))) with (l1 ++ u :: l2) in H.
    assert (Htruthy : truthy (opt_labels (Some (l1 ++ u :: l2))) = true)
      by now destruct l1.
    rewrite Htruthy in H. destruct H as (joined & Hjoin & ->).
    assert (Hitems : WorkUa.experience_items work (l1 ++ u :: l2)
                     = WorkUa.experience_items work l1
                       ++ PStr "" :: WorkUa.experience_items work l2).
    { unfold WorkUa.experience_items. rewrite map_app. simpl.
      unfold dict_get_default at 2. now rewrite Hu. }
    unfold str_join in Hjoin. rewrite Hitems, strings_of_app in Hjoin.
    destruct (strings_of (WorkUa.experience_items work l1)) as [s1|];
      [|discriminate].
    simpl in Hjoin.
    destruct (strings_of (WorkUa.experience_items work l2)) as [s2|];
      [|discriminate].
    simpl in Hjoin. injection Hjoin as <-. now exists s1, s2.
  - intros options Hopt Hfalsy Hne.
    unfold RobotaUa.unpack_search_options.
    change (RobotaUa.region_id scorer threshold robota
              (set_experience params (l1 ++ l2)))
      with (RobotaUa.region_id scorer threshold robota params).
    destruct (RobotaUa.region_id scorer threshold robota params);
      [|reflexivity].
    rewrite Hlabels. simpl.
    rewrite !(RobotaUa_experience_ids robota options _ Hopt). simpl.
    rewrite !map_app, !List.filter_app. simpl. rewrite Hfalsy.
    assert (Hmem : bool_decide ("More than 5 years" ∈ l1 ++ u :: l2)
                   = bool_decide ("More than 5 years" ∈ l1 ++ l2)).
    { apply bool_decide_ext. rewrite !elem_of_app, elem_of_cons.
      intuition congruence. }
    now rewrite Hmem.
Qed.

(** C6, amended: with "More than 5 years" among the labels and both
    finer brackets in the experience map, the experience keys of the
    Robota.ua payload contain the keys of "5 to 10 years" and of "More
    than 10 years", and the key of "More than 5 years" itself when that
    label is mapped to a truthy key. *)
Theorem more_than_5_years_expansion (robota : RobotaUa.parser)
  (params : SearchOptions) (options : gmap string pyval)
  (labels : list string) (k1 k2 : pyval) :
  so_experience params = Some labels ->
  In "More than 5 years" labels ->
  RobotaUa.EXPERIENCE_OPTIONS robota = Some options ->
  options !! "5 to 10 years" = Some k1 ->
  options !! "More than 10 years" = Some k2 ->
  exists payload ids,
    RobotaUa.unpack_search_options scorer threshold robota params = Ok payload
    /\ payload !! "experienceIds" = Some (PList ids)
    /\ In k1 ids /\ In k2 ids
    /\ (forall k, options !! "More than 5 years" = Some k ->
                  truthy k = true -> In k ids).
Proof.
  intros Hlabels Hin Hopt Hk1 Hk2.
  destruct (RobotaUa_unpack_Ok robota params options labels Hopt Hlabels)
    as (rid & payload & Hpayload & _ & Hids).
  { intros _. rewrite Hk1, Hk2. split; eauto. }
  rewrite bool_decide_eq_true_2 in Hids by now apply list_elem_of_In.
  unfold dict_get in Hids at 2 3. rewrite Hk1, Hk2 in Hids. simpl in Hids.
  eexists payload, _. split; [exact Hpayload|]. split; [exact Hids|].
  split; [|split].
  - apply in_or_app. right. now left.
  - apply in_or_app. right. right. now left.
  - intros k Hk Htruthy. apply in_or_app. left.
    apply filter_In. split; [|exact Htruthy].
    apply in_map_iff. exists "More than 5 years". split; [|exact Hin].
    unfold dict_get. now rewrite Hk.
Qed.

End Experience.

Lemma unmapped_experience_label_witness :
  (exists payload,
      WorkUa.unpack_search_options token_sort_ratio 70 work_example
        params_example = Ok payload
      /\ payload !! "experience" = Some (PStr "164+"))
  /\ RobotaUa.unpack_search_options token_sort_ratio 70 robota_example
       params_example
     = RobotaUa.unpack_search_options token_sort_ratio 70 robota_example
         (set_experience params_example ["1 to 2 years"]).
Proof.
  destruct (unmapped_experience_label token_sort_ratio 70 work_example
              robota_example params_example ["1 to 2 years"] [] "Guru"
              eq_refl) as [Hw Hr].
  split.
  - eexists. split; [reflexivity|].
    destruct (Hw eq_refl _ eq_refl) as (s1 & s2 & H1 & H2 & ->).
    injection H1 as <-. injection H2 as <-. reflexivity.
  - apply (Hr _ eq_refl); [reflexivity | discriminate].
Defined.

(** C5 as stated fails for Work.ua: the unmapped label "Guru" leaves a
    trailing separator behind, so the payload is not the one that the
    options without that label give. *)
Lemma unmapped_experience_label_not_dropped :
  WorkUa.EXPERIENCE_OPTIONS work_example !! "Guru" = None
  /\ exists payload payload',
      WorkUa.unpack_search_options token_sort_ratio 70 work_example
        params_example = Ok payload
      /\ WorkUa.unpack_search_options token_sort_ratio 70 work_example
           (set_experience params_example ["1 to 2 years"]) = Ok payload'
      /\ payload !! "experience" = Some (PStr "164+")
      /\ payload' !! "experience" = Some (PStr "164").
Proof.
  split; [reflexivity|]. eexists. eexists. repeat split; reflexivity.
Qed.

Lemma more_than_5_years_expansion_witness :
  exists payload ids,
    RobotaUa.unpack_search_options token_sort_ratio 70 robota_five_key
      params_more_than_5 = Ok payload
    /\ payload !! "experienceIds" = Some (PList ids)
    /\ In (PInt 4) ids /\ In (PInt 5) ids /\ In (PInt 3) ids.
Proof.
  destruct (more_than_5_years_expansion token_sort_ratio 70 robota_five_key
              params_more_than_5 _ ["More than 5 years"] (PInt 4) (PInt 5)
              eq_refl (or_introl eq_refl) eq_refl eq_refl eq_refl)
    as (payload & ids & Hp & Hids & H1 & H2 & H3).
  exists payload, ids. repeat split; try assumption.
  now apply H3.
Defined.

(** C6 as stated fails in its last part: "More than 5 years" is mapped,
    to the key 0, and that key is not among the experience keys, since
    the comprehension keeps truthy keys only. *)
Lemma more_than_5_years_zero_key_dropped :
  (exists options,
      RobotaUa.EXPERIENCE_OPTIONS robota_zero_key = Some options
      /\ options !! "More than 5 years" = Some (PInt 0)
      /\ is_Some (options !! "5 to 10 years")
      /\ is_Some (options !! "More than 10 years"))
  /\ In "More than 5 years" ["More than 5 years"]
  /\ exists payload,
      RobotaUa.unpack_search_options token_sort_ratio 70 robota_zero_key
        params_more_than_5 = Ok payload
      /\ payload !! "experienceIds" = Some (PList [PInt 4; PInt 5])
      /\ ~ In (PInt 0) [PInt 4; PInt 5].
Proof.
  split; [|split].
  - eexists. split; [reflexivity|]. split; [reflexivity|]. split; by eexists.
  - now left.
  - eexists. split; [reflexivity|]. split; [reflexivity|].
    intros [H|[H|[]]]; discriminate.
Qed.

(** ** The order of the result pages *)

(** [ceil_div n 14] is the least number of pages that hold [n]
    candidates. *)
Lemma ceil_div_14 (n : Z) :
  14 * (ceil_div n 14 - 1) < n <= 14 * ceil_div n 14.
Proof. unfold ceil_div. Z.div_mod_to_equations. lia. Qed.

(** Filtering a run of consecutive integers by a predicate that
    alternates keeps every second one. *)
Lemma filter_alternating (P : Z -> bool) :
  (forall z, P (z + 1) = negb (P z)) ->
  forall (len : nat) (start : Z),
    List.filter P (map (fun i => start + Z.of_nat i) (seq 0 len))
    = map (fun i => (if P start then start else start + 1) + 2 * Z.of_nat i)
          (seq 0 (Nat.div2 (len + if P start then 1 else 0))).
Proof.
  intros Halt. induction len as [|len IH]; intros start.
  - simpl. now destruct (P start).
  - cbn [seq map List.filter]. rewrite <- seq_shift, map_map.
    rewrite (map_ext _ (fun i => (start + 1) + Z.of_nat i))
      by (intros i; lia).
    rewrite IH, Halt, Z.add_0_r.
    destruct (P start) eqn:HP; cbn [negb].
    + replace (S len + 1)%nat with (S (S len)) by lia.
      rewrite Nat.add_0_r. cbn [Nat.div2 seq map].
      f_equal; [lia|]. rewrite <- seq_shift, map_map.
      apply map_ext. intros i. lia.
    + rewrite Nat.add_0_r. replace (len + 1)%nat with (S len) by lia.
      reflexivity.
Qed.

Lemma Z_even_alternates (z : Z) : Z.even (z + 1) = negb (Z.even z).
Proof. rewrite Z.even_add. now destruct (Z.even z). Qed.

Lemma Z_odd_alternates (z : Z) : Z.odd (z + 1) = negb (Z.odd z).
Proof. rewrite Z.odd_add. now destruct (Z.odd z). Qed.

Lemma div2_to_nat (a : Z) :
  Nat.div2 (Z.to_nat a + 1) = Z.to_nat ((a + 1) / 2).
Proof.
  rewrite Nat.div2_div.
  destruct (Z.le_gt_cases 0 a) as [H|H].
  - apply Nat2Z.inj. rewrite Nat2Z.inj_div, Nat2Z.inj_add, !Z2Nat.id.
    + reflexivity.
    + apply Z.div_pos; lia.
    + exact H.
  - replace (Z.to_nat a) with O by lia.
    replace (Z.to_nat ((a + 1) / 2)) with O; [reflexivity|].
    assert ((a + 1) / 2 <= 0) by (apply Z.div_le_upper_bound; lia). lia.
Qed.

(** [range(2, total_pages + 1, 2)] lists the even pages from 2 up to
    [total_pages], and [range(3, total_pages + 1, 2)] the odd pages
    from 3 up to [total_pages]. *)
Lemma py_range_even_pages (total_pages : Z) :
  py_range 2 (total_pages + 1) 2
  = List.filter Z.even (pages_from_to 2 total_pages).
Proof.
  unfold pages_from_to.
  rewrite (filter_alternating Z.even Z_even_alternates). cbn [Z.even].
  rewrite div2_to_nat. unfold py_range.
  replace ((total_pages + 1 - 2 + 2 - 1) / 2)
    with ((total_pages - 2 + 1 + 1) / 2) by (f_equal; lia).
  reflexivity.
Qed.

Lemma py_range_odd_pages (total_pages : Z) :
  py_range 3 (total_pages + 1) 2
  = List.filter Z.odd (pages_from_to 3 total_pages).
Proof.
  unfold pages_from_to.
  rewrite (filter_alternating Z.odd Z_odd_alternates). cbn [Z.odd].
  rewrite div2_to_nat. unfold py_range.
  replace ((total_pages + 1 - 3 + 2 - 1) / 2)
    with ((total_pages - 3 + 1 + 1) / 2) by (f_equal; lia).
  reflexivity.
Qed.

Example expected_page_order_7 :
  expected_page_order 7 = [1; 2; 4; 6; 3; 5; 7].
Proof. reflexivity. Qed.

Section WorkUaPages.
Variable scorer : string -> string -> Q.
Variable threshold : Z.
Variable net : request -> result response.
Variable get_total_candidates : string -> result Z.
Variable self : WorkUa.parser.

(** One fetch of a result page: the request is sent, and a failure is
    logged with its page number and raised again. *)
Lemma fetch_page_run (payload : gmap string pyval) (page : Z) (w : world) :
  WorkUa.fetch_page net payload page w
  = match fetch net (WorkUa.page_request payload page) with
    | Ok html =>
        (Ok html,
         mkWorld (trace w ++ [WorkUa.page_request payload page]) (log w))
    | Raise e =>
        (Raise e,
         mkWorld (trace w ++ [WorkUa.page_request payload page])
           (if is_RequestException e
            then log w ++ [LogPageError page e] else log w))
    end.
Proof.
  unfold WorkUa.fetch_page, try_except, fetch, send, lift, logger_info.
  unfold mbind, M_bind, result_bind, mret, M_ret.
  destruct (net _) as [response|e]; simpl.
  - destruct (raise_for_status response) as [[]|e]; simpl; [reflexivity|].
    now destruct (is_RequestException e).
  - now destruct (is_RequestException e).
Qed.

Lemma fetch_pages_run_Ok (payload : gmap string pyval) (pages : list Z)
  (w : world) :
  Forall (fun p => is_Ok (fetch net (WorkUa.page_request payload p)) = true)
    pages ->
  WorkUa.fetch_pages net payload pages w
  = (Ok (map (page_text net payload) pages),
     mkWorld (trace w ++ map (WorkUa.page_request payload) pages) (log w)).
Proof.
  intros Hall. revert w.
  induction Hall as [|p pages Hp Hall IH]; intros w; simpl.
  - unfold mret, M_ret. rewrite app_nil_r. now destruct w.
  - unfold mbind, M_bind. rewrite fetch_page_run. unfold page_text at 1.
    destruct (fetch net (WorkUa.page_request payload p)) as [html|e];
      [|discriminate].
    rewrite IH. simpl. unfold mret, M_ret. now rewrite <- app_assoc.
Qed.

(** A failing fetch among the pages makes the whole loop raise the
    error of a fetch that failed. *)
Lemma fetch_pages_run_Raise (payload : gmap string pyval) (pages : list Z)
  (w : world) :
  Exists (fun p => is_Ok (fetch net (WorkUa.page_request payload p)) = false)
    pages ->
  exists p e,
    In p pages
    /\ fetch net (WorkUa.page_request payload p) = Raise e
    /\ fst (WorkUa.fetch_pages net payload pages w) = Raise e.
Proof.
  intros Hex. revert w.
  induction Hex as [p pages Hp|p pages Hex IH]; intros w; simpl;
    unfold mbind at 1, M_bind at 1; rewrite fetch_page_run.
  - destruct (fetch net (WorkUa.page_request payload p)) as [html|e] eqn:E;
      [discriminate|].
    exists p, e. split; [now left|]. now split.
  - destruct (fetch net (WorkUa.page_request payload p)) as [html|e] eqn:E.
    + destruct (IH (mkWorld (trace w ++ [WorkUa.page_request payload p])
                      (log w))) as (q & e & Hq & Hfetch & Hrun).
      exists q, e. split; [now right|]. split; [exact Hfetch|].
      unfold mbind, M_bind.
      destruct (WorkUa.fetch_pages net payload pages _) as [[htmls|e'] w'];
        [discriminate|exact Hrun].
    + exists p, e. split; [now left|]. now split.
Qed.

Lemma pages_fetched_app (t : list request) (l l' : list log_entry)
  (payload : gmap string pyval) (pages : list Z) :
  WorkUa.pages_fetched
    (mkWorld (t ++ map (WorkUa.page_request payload) pages) l)
  = WorkUa.pages_fetched (mkWorld t l') ++ map PInt pages.
Proof.
  unfold WorkUa.pages_fetched. simpl. rewrite omap_app. f_equal.
  induction pages as [|p pages IH]; simpl; [reflexivity|].
  f_equal; [|exact IH]. unfold dict_get. now rewrite lookup_insert_eq.
Qed.

(** C7: when the first page reports [n] candidates and the fetches
    succeed, the pages requested are page 1, then the even pages from 2
    up to [total_pages] in ascending order, then the odd pages from 3 up
    to [total_pages] in ascending order, with [total_pages] the ceiling
    of [n / 14]; one page text is returned per request. *)
Theorem result_pages_order (params : SearchOptions)
  (payload : gmap string pyval) (first : string) (n : Z) (w : world) :
  WorkUa.unpack_search_options scorer threshold self params = Ok payload ->
  fetch net (WorkUa.page_request payload 1) = Ok first ->
  get_total_candidates first = Ok n ->
  Forall (fun p => is_Ok (fetch net (WorkUa.page_request payload p)) = true)
    (expected_page_order (ceil_div n 14)) ->
  14 * (ceil_div n 14 - 1) < n <= 14 * ceil_div n 14
  /\ exists w',
      WorkUa.get_resume_pages scorer threshold net get_total_candidates self
        params w
      = (Ok (map (page_text net payload) (expected_page_order (ceil_div n 14))),
         w')
      /\ WorkUa.pages_fetched w'
         = WorkUa.pages_fetched w
           ++ map PInt (expected_page_order (ceil_div n 14)).
Proof.
  intros Hpayload Hfirst Hn Hall. split; [apply ceil_div_14|].
  unfold expected_page_order in *.
  apply Forall_cons in Hall as [_ Hall]. apply Forall_app in Hall as [He Ho].
  rewrite <- py_range_even_pages in *. rewrite <- py_range_odd_pages in *.
  unfold WorkUa.get_resume_pages.
  unfold mbind at 1, M_bind at 1, lift at 1. rewrite Hpayload.
  unfold mbind at 1, M_bind at 1. rewrite fetch_page_run, Hfirst.
  unfold mbind at 1, M_bind at 1, lift at 1. rewrite Hn.
  unfold mbind at 1, M_bind at 1, logger_info at 1. cbn [trace log].
  unfold mbind at 1, M_bind at 1. rewrite (fetch_pages_run_Ok _ _ _ He).
  unfold mbind at 1, M_bind at 1. rewrite (fetch_pages_run_Ok _ _ _ Ho).
  unfold mret, M_ret. cbn [trace log].
  eexists. split.
  - cbn [map]. unfold page_text at 3. rewrite Hfirst. rewrite map_app.
    reflexivity.
  - rewrite <- !app_assoc.
    change ([WorkUa.page_request payload 1]
            ++ map (WorkUa.page_request payload) (py_range 2 (ceil_div n 14 + 1) 2)
            ++ map (WorkUa.page_request payload) (py_range 3 (ceil_div n 14 + 1) 2))
      with (map (WorkUa.page_request payload)
              (1 :: py_range 2 (ceil_div n 14 + 1) 2)
            ++ map (WorkUa.page_request payload)
                 (py_range 3 (ceil_div n 14 + 1) 2)).
    rewrite <- map_app. destruct w as [t l].
    apply (pages_fetched_app t _ l).
Qed.

(** Whatever the fetches do, the loop requests an initial segment of
    its pages, and all of them when it returns. *)
Lemma fetch_pages_trace (payload : gmap string pyval) (pages : list Z)
  (w : world) :
  exists k : nat,
    (k <= length pages)%nat
    /\ trace (snd (WorkUa.fetch_pages net payload pages w))
       = trace w ++ map (WorkUa.page_request payload) (firstn k pages)
    /\ (is_Ok (fst (WorkUa.fetch_pages net payload pages w)) = true ->
        k = length pages).
Proof.
  revert w. induction pages as [|p pages IH]; intros w.
  - exists O. simpl. rewrite app_nil_r. now repeat split.
  - cbn [WorkUa.fetch_pages]. unfold mbind at 1 3, M_bind at 1 3.
    rewrite fetch_page_run.
    destruct (fetch net (WorkUa.page_request payload p)) as [html|e].
    + destruct (IH (mkWorld (trace w ++ [WorkUa.page_request payload p])
                      (log w))) as (k & Hk & Htrace & Hall).
      exists (S k). unfold mbind, M_bind, mret, M_ret.
      destruct (WorkUa.fetch_pages net payload pages _) as [[htmls|e] w'];
        cbn [fst snd is_Ok trace length firstn map] in *;
        rewrite Htrace, <- app_assoc; repeat split; auto with arith.
    + exists 1%nat. cbn [fst snd is_Ok trace length firstn map].
      repeat split; [lia|discriminate].
Qed.

(** Once page 1 tells the number of candidates, the pages requested are
    always an initial segment of the expected order. *)
Lemma result_pages_prefix (params : SearchOptions)
  (payload : gmap string pyval) (first : string) (n : Z) (w : world) :
  WorkUa.unpack_search_options scorer threshold self params = Ok payload ->
  fetch net (WorkUa.page_request payload 1) = Ok first ->
  get_total_candidates first = Ok n ->
  exists k : nat,
    WorkUa.pages_fetched
      (snd (WorkUa.get_resume_pages scorer threshold net
              get_total_candidates self params w))
    = WorkUa.pages_fetched w
      ++ map PInt (firstn k (expected_page_order (ceil_div n 14))).
Proof.
  intros Hpayload Hfirst Hn. unfold expected_page_order.
  rewrite <- py_range_even_pages, <- py_range_odd_pages.
  set (evens := py_range 2 (ceil_div n 14 + 1) 2).
  set (odds := py_range 3 (ceil_div n 14 + 1) 2).
  unfold WorkUa.get_resume_pages.
  unfold mbind at 1, M_bind at 1, lift at 1. rewrite Hpayload.
  unfold mbind at 1, M_bind at 1. rewrite fetch_page_run, Hfirst.
  unfold mbind at 1, M_bind at 1, lift at 1. rewrite Hn.
  unfold mbind at 1, M_bind at 1, logger_info at 1. cbn [trace log].
  unfold mbind at 1, M_bind at 1. fold evens. fold odds.
  match goal with
  | |- context [WorkUa.fetch_pages net payload evens ?w0] =>
      destruct (fetch_pages_trace payload evens w0) as (k1 & Hk1 & Ht1 & Hall1);
      destruct (WorkUa.fetch_pages net payload evens w0) as [[he|e] w1]
  end; cbn [fst snd is_Ok trace] in Ht1, Hall1.
  - rewrite (Hall1 eq_refl), firstn_all in Ht1.
    unfold mbind at 1, M_bind at 1.
    destruct (fetch_pages_trace payload odds w1) as (k2 & Hk2 & Ht2 & _).
    exists (S (length evens + k2)).
    assert (Hfinal : trace (snd (WorkUa.fetch_pages net payload odds w1))
                     = trace w
                       ++ map (WorkUa.page_request payload)
                            (firstn (S (length evens + k2))
                               (1 :: evens ++ odds))).
    { rewrite Ht2, Ht1. cbn [firstn]. rewrite List.firstn_app_2.
      cbn [map]. rewrite map_app, <- !app_assoc. reflexivity. }
    destruct (WorkUa.fetch_pages net payload odds w1) as [[ho|e] w2];
      cbn [fst snd] in Hfinal |- *; unfold mret, M_ret; cbn [snd];
      destruct w as [t l]; destruct w2 as [t2 l2]; cbn [trace] in Hfinal;
      rewrite Hfinal; apply pages_fetched_app.
  - exists (S k1). cbn [snd].
    destruct w as [t l]; destruct w1 as [t1 l1]; cbn [trace] in Ht1.
    rewrite Ht1. cbn [firstn]. rewrite List.firstn_app.
    replace (k1 - length evens)%nat with O by lia.
    cbn [firstn]. rewrite app_nil_r, <- app_assoc.
    apply (pages_fetched_app t l1 l payload (1 :: firstn k1 evens)).
Qed.

End WorkUaPages.

Lemma result_pages_order_witness :
  exists w',
    fst (WorkUa.get_resume_pages token_sort_ratio 70
           (net_constant "65 candidates") (fun _ => Ok 65) work_example
           params_python world0)
    = Ok (repeat "65 candidates" 5)
    /\ WorkUa.pages_fetched w' = map PInt [1; 2; 4; 3; 5]
    /\ snd (WorkUa.get_resume_pages token_sort_ratio 70
              (net_constant "65 candidates") (fun _ => Ok 65) work_example
              params_python world0) = w'.
Proof.
  destruct (result_pages_order token_sort_ratio 70
              (net_constant "65 candidates") (fun _ => Ok 65) work_example
              params_python {[ "search" := PStr "python" ]} "65 candidates"
              65 world0 eq_refl eq_refl eq_refl)
    as [_ (w' & Hrun & Hpages)].
  - repeat constructor.
  - exists w'. rewrite Hrun. repeat split. exact Hpages.
Defined.

(** ** The API-based source: statuses *)

Section RobotaUaStatus.
Variable scorer : string -> string -> Q.
Variable threshold : Z.
Variable net : request -> result response.
Variable format_salary_expectation : string -> string.
Variable py_str : pyval -> string.
Variable load_regions : M (list (string * pyval)).
Variable load_experience_options : M (option (gmap string pyval)).

(** A login that is answered by any status other than 200 raises, and
    so does the construction of the parser. *)
Lemma login_status_not_200 (response : response) (w : world) :
  net PostLogin = Ok response ->
  status_code response <> 200 ->
  RobotaUa.login net w
  = (Raise (Exception "Failed to login to Robota.ua"),
     mkWorld (trace w ++ [PostLogin]) (log w))
  /\ fst (RobotaUa.init net load_regions load_experience_options w)
     = Raise (Exception "Failed to login to Robota.ua").
Proof.
  intros Hnet Hstatus.
  assert (Hlogin : RobotaUa.login net w
                   = (Raise (Exception "Failed to login to Robota.ua"),
                      mkWorld (trace w ++ [PostLogin]) (log w))).
  { unfold RobotaUa.login, send, lift, mbind, M_bind. rewrite Hnet.
    destruct (Z.eqb_spec (status_code response) 200); [contradiction|].
    reflexivity. }
  split; [exact Hlogin|].
  unfold RobotaUa.init, mbind, M_bind. now rewrite Hlogin.
Qed.

(** The second query: an error status (4xx or 5xx) raises [HTTPError]. *)
Lemma second_query_error_status (self : RobotaUa.parser)
  (params : SearchOptions) (payload : gmap string pyval)
  (first second : response) (data total : pyval) (w : world) :
  RobotaUa.unpack_search_options scorer threshold self params = Ok payload ->
  net (PostResumes payload) = Ok first ->
  json first = Some data ->
  subscript data "total" = Ok total ->
  net (PostResumes (<["count" := total]> payload)) = Ok second ->
  400 <= status_code second < 600 ->
  fst (RobotaUa.search_resumes scorer threshold net
         format_salary_expectation py_str self params w)
  = Raise HTTPError.
Proof.
  intros Hpayload Hfirst Hjson Htotal Hsecond Hstatus.
  unfold RobotaUa.search_resumes.
  unfold mbind at 1, M_bind at 1, lift at 1. rewrite Hpayload.
  unfold mbind at 1, M_bind at 1, send at 1. rewrite Hfirst.
  unfold mbind at 1, M_bind at 1, lift at 1, response_json at 1.
  rewrite Hjson.
  unfold mbind at 1, M_bind at 1, lift at 1. rewrite Htotal.
  unfold mbind at 1, M_bind at 1, logger_info at 1.
  unfold mbind at 1, M_bind at 1, send at 1. rewrite Hsecond.
  destruct (Z.eqb_spec (status_code second) 200) as [E|_]; [lia|].
  unfold mbind, M_bind, logger_info, lift, raise_for_status. simpl.
  destruct (Z.leb_spec 400 (status_code second)); [|lia].
  destruct (Z.ltb_spec (status_code second) 600); [|lia].
  reflexivity.
Qed.

End RobotaUaStatus.

(** C8, at the failing input: the first query is answered with status
    500, and [search_resumes] does not fail; it returns the resumes of
    the second answer. *)
Theorem first_query_status_unchecked :
  (exists payload first,
      RobotaUa.unpack_search_options token_sort_ratio 70 robota_example
        params_no_experience = Ok payload
      /\ net_500_then_200 (PostResumes payload) = Ok first
      /\ status_code first = 500)
  /\ fst (RobotaUa.search_resumes token_sort_ratio 70 net_500_then_200
            (fun s => s) py_str_example robota_example params_no_experience
            world0)
     = Ok (Some [mkResume "https://robota.ua/candidates/7" (Some "1000")
                   (Some []) 90]).
Proof.
  split; [|vm_compute; reflexivity].
  eexists _, _. split; [reflexivity|]. split; reflexivity.
Qed.

(** A second answer that is neither a 200 nor an error status raises
    nothing either: the search returns [None]. *)
Example second_query_304_returns_None :
  fst (RobotaUa.search_resumes token_sort_ratio 70 net_200_then_304
         (fun s => s) py_str_example robota_example params_no_experience
         world0)
  = Ok None.
Proof. vm_compute. reflexivity. Qed.

(** ** The scrape-based source: failed fetches *)

Section WorkUaSearch.
Variable scorer : string -> string -> Q.
Variable threshold : Z.
Variable net : request -> result response.
Variable base_url : string.
Variable get_total_candidates : string -> result Z.
Variable get_resume_href_from_html : string -> list string.
Variable find_meta_description : string -> option string.
Variable find_work_experience : string -> list pyval.
Variable self : WorkUa.parser.

Local Abbreviation parse_resume :=
  (WorkUa.parse_resume base_url find_meta_description find_work_experience).
Local Abbreviation process_link :=
  (WorkUa.process_link net base_url find_meta_description
     find_work_experience).
Local Abbreviation process_links :=
  (WorkUa.process_links net base_url find_meta_description
     find_work_experience).
Local Abbreviation process_pages :=
  (WorkUa.process_pages net base_url get_resume_href_from_html
     find_meta_description find_work_experience).
Local Abbreviation get_resume_pages :=
  (WorkUa.get_resume_pages scorer threshold net get_total_candidates self).
Local Abbreviation resumes_of :=
  (resumes_of_links net base_url find_meta_description find_work_experience).
Local Abbreviation search_resumes :=
  (WorkUa.search_resumes scorer threshold net base_url get_total_candidates
     get_resume_href_from_html find_meta_description find_work_experience
     self).

(** A link whose fetch fails is logged and appends nothing. *)
Lemma process_link_failed (link : string) (e : exn) (w : world) :
  fetch net (GetResume link) = Raise e ->
  is_RequestException e = true ->
  process_link link w
  = (Ok [], mkWorld (trace w ++ [GetResume link])
              (log w ++ [LogResumeError link e])).
Proof.
  unfold WorkUa.process_link, WorkUa.get_resume_html_from_href, try_except,
    fetch, send, lift, logger_info.
  unfold mbind, M_bind, result_bind, mret, M_ret.
  intros Hfetch He. destruct (net (GetResume link)) as [response|e']; simpl.
  - destruct (raise_for_status response) as [[]|e']; [discriminate|].
    simpl in *. injection Hfetch as ->. now rewrite He.
  - injection Hfetch as ->. now rewrite He.
Qed.

(** The value and the log of one pass through the inner loop. *)
Lemma process_link_run (link : string) (w : world) :
  fst (process_link link w)
  = match fetch net (GetResume link) with
    | Raise e => if is_RequestException e then Ok [] else Raise e
    | Ok html =>
        if String.eqb html "" then Ok []
        else resume ← parse_resume (base_url +:+ link) html; Ok [resume]
    end
  /\ exists entries, log (snd (process_link link w)) = log w ++ entries.
Proof.
  unfold WorkUa.process_link, WorkUa.get_resume_html_from_href, try_except,
    fetch, send, lift, logger_info.
  unfold mbind, M_bind, result_bind, mret, M_ret.
  destruct (net (GetResume link)) as [response|e]; simpl.
  - destruct (raise_for_status response) as [[]|e]; simpl.
    + destruct (String.eqb (text response) ""); simpl.
      * split; [reflexivity|]. exists []. now rewrite app_nil_r.
      * destruct (parse_resume _ _); simpl; split; eauto.
    + destruct (is_RequestException e); simpl; split; eauto.
      exists []. now rewrite app_nil_r.
  - destruct (is_RequestException e); simpl; split; eauto.
    exists []. now rewrite app_nil_r.
Qed.

Lemma process_links_cons (link : string) (links : list string) (w : world) :
  process_links (link :: links) w
  = match process_link link w with
    | (Ok found, w1) =>
        match process_links links w1 with
        | (Ok rest, w2) => (Ok (found ++ rest), w2)
        | (Raise e, w2) => (Raise e, w2)
        end
    | (Raise e, w1) => (Raise e, w1)
    end.
Proof. reflexivity. Qed.

(** The resumes that the inner loop returns do not depend on the state
    it starts in, and the loop only ever adds to the log. *)
Lemma process_links_run (links : list string) (w : world) :
  fst (process_links links w) = resumes_of links
  /\ exists entries, log (snd (process_links links w)) = log w ++ entries.
Proof.
  revert w. induction links as [|link links IH]; intros w.
  - split; [reflexivity|]. exists []. simpl. now rewrite app_nil_r.
  - rewrite process_links_cons. cbn [resumes_of_links].
    destruct (process_link_run link w) as [Hv [entries Hl]].
    destruct (process_link link w) as [[found|e] w1]; simpl in Hv, Hl.
    + destruct (IH w1) as [Hv' [entries' Hl']].
      destruct (process_links links w1) as [[rest|e] w2]; simpl in Hv', Hl';
        rewrite <- Hv'; cbn [fst snd]; split;
        try (exists (entries ++ entries'); now rewrite Hl', Hl, app_assoc).
      * destruct (fetch net (GetResume link)) as [html|e].
        -- destruct (String.eqb html ""); [now injection Hv as ->|].
           destruct (parse_resume _ _); [|discriminate].
           now injection Hv as ->.
        -- destruct (is_RequestException e); [|discriminate].
           now injection Hv as ->.
      * destruct (fetch net (GetResume link)) as [html|e'].
        -- destruct (String.eqb html ""); [reflexivity|].
           now destruct (parse_resume _ _).
        -- now destruct (is_RequestException e').
    + cbn [fst snd]. split; [|eauto].
      destruct (fetch net (GetResume link)) as [html|e'].
      * destruct (String.eqb html ""); [discriminate|].
        destruct (parse_resume _ _); [discriminate|]. simpl in Hv.
        now rewrite Hv.
      * destruct (is_RequestException e'); [discriminate|]. now rewrite Hv.
Qed.

Lemma resumes_of_links_app (l1 l2 : list string) :
  resumes_of (l1 ++ l2)
  = (r1 ← resumes_of l1; r2 ← resumes_of l2; Ok (r1 ++ r2)).
Proof.
  induction l1 as [|link l1 IH]; simpl.
  - now destruct (resumes_of l2).
  - destruct (fetch net (GetResume link)) as [html|e].
    + destruct (String.eqb html ""); [exact IH|].
      destruct (parse_resume _ _); [|reflexivity]. simpl. rewrite IH.
      destruct (resumes_of l1); [|reflexivity]. simpl.
      now destruct (resumes_of l2).
    + now destruct (is_RequestException e).
Qed.

Lemma process_pages_cons (page : string) (pages : list string) (w : world) :
  process_pages (page :: pages) w
  = match process_links (get_resume_href_from_html page) w with
    | (Ok found, w1) =>
        match process_pages pages w1 with
        | (Ok rest, w2) => (Ok (found ++ rest), w2)
        | (Raise e, w2) => (Raise e, w2)
        end
    | (Raise e, w1) => (Raise e, w1)
    end.
Proof. reflexivity. Qed.

(** The two loops of [search_resumes] go through the links of all pages
    in order. *)
Lemma process_pages_run (html_pages : list string) (w : world) :
  fst (process_pages html_pages w)
  = resumes_of (flat_map get_resume_href_from_html html_pages)
  /\ exists entries, log (snd (process_pages html_pages w)) = log w ++ entries.
Proof.
  revert w. induction html_pages as [|page pages IH]; intros w.
  - split; [reflexivity|]. exists []. simpl. now rewrite app_nil_r.
  - rewrite process_pages_cons. cbn [flat_map]. rewrite resumes_of_links_app.
    destruct (process_links_run (get_resume_href_from_html page) w)
      as [Hv [entries Hl]].
    destruct (process_links _ w) as [[found|e] w1]; simpl in Hv, Hl;
      rewrite <- Hv; [|cbn [fst snd]; simpl; eauto].
    destruct (IH w1) as [Hv' [entries' Hl']].
    destruct (process_pages pages w1) as [[rest|e] w2]; simpl in Hv', Hl';
      rewrite <- Hv'; cbn [fst snd]; (split; [reflexivity|]);
      exists (entries ++ entries'); now rewrite Hl', Hl, app_assoc.
Qed.

Lemma process_links_app (l1 l2 : list string) (w : world) :
  process_links (l1 ++ l2) w
  = match process_links l1 w with
    | (Ok r1, w1) =>
        match process_links l2 w1 with
        | (Ok r2, w2) => (Ok (r1 ++ r2), w2)
        | (Raise e, w2) => (Raise e, w2)
        end
    | (Raise e, w1) => (Raise e, w1)
    end.
Proof.
  revert w. induction l1 as [|link l1 IH]; intros w.
  - simpl. unfold mret, M_ret. now destruct (process_links l2 w) as [[r2|e] w2].
  - rewrite <- app_comm_cons, !process_links_cons.
    destruct (process_link link w) as [[found|e] w1]; [|reflexivity].
    rewrite IH. destruct (process_links l1 w1) as [[r1|e] w2]; [|reflexivity].
    destruct (process_links l2 w2) as [[r2|e] w3]; [|reflexivity].
    now rewrite app_assoc.
Qed.

Lemma process_pages_flat (html_pages : list string) (w : world) :
  process_pages html_pages w
  = process_links (flat_map get_resume_href_from_html html_pages) w.
Proof.
  revert w. induction html_pages as [|page pages IH]; intros w;
    [reflexivity|].
  rewrite process_pages_cons. cbn [flat_map]. rewrite process_links_app.
  destruct (process_links _ w) as [[found|e] w1]; [|reflexivity].
  now rewrite IH.
Qed.

(** A failed link yields nothing. *)
Lemma resumes_of_links_skip (l1 l2 : list string) (link : string) (e : exn) :
  fetch net (GetResume link) = Raise e ->
  is_RequestException e = true ->
  resumes_of (l1 ++ link :: l2) = resumes_of (l1 ++ l2).
Proof.
  intros Hfetch He. rewrite !resumes_of_links_app. cbn [resumes_of_links].
  now rewrite Hfetch, He.
Qed.

Lemma fetch_all_or_fail (payload : gmap string pyval) (pages : list Z) :
  Forall (fun p => is_Ok (fetch net (WorkUa.page_request payload p)) = true)
    pages
  \/ Exists (fun p => is_Ok (fetch net (WorkUa.page_request payload p)) = false)
       pages.
Proof.
  induction pages as [|p pages [IH|IH]].
  - left. constructor.
  - destruct (is_Ok (fetch net (WorkUa.page_request payload p))) eqn:E.
    + left. now constructor.
    + right. now constructor.
  - right. now constructor 2.
Qed.

Lemma search_resumes_run (params : SearchOptions) (w : world) :
  search_resumes params w
  = match get_resume_pages params w with
    | (Ok html_pages, w1) => process_pages html_pages w1
    | (Raise e, w1) => (Raise e, w1)
    end.
Proof. reflexivity. Qed.

(** C9: a failed fetch of a result page makes [search_resumes] raise the
    error of that fetch, whereas a failed fetch of a candidate page is
    logged and skipped: the search returns what the other links yield. *)
Theorem failed_fetches (params : SearchOptions) (payload : gmap string pyval)
  (w : world) :
  WorkUa.unpack_search_options scorer threshold self params = Ok payload ->
  (Exists (fun p => is_Ok (fetch net (WorkUa.page_request payload p)) = false)
     (pages_to_fetch net get_total_candidates payload) ->
   exists p e,
     In p (pages_to_fetch net get_total_candidates payload)
     /\ fetch net (WorkUa.page_request payload p) = Raise e
     /\ fst (search_resumes params w) = Raise e)
  /\ (forall html_pages w1 l1 link l2 e,
        get_resume_pages params w = (Ok html_pages, w1) ->
        flat_map get_resume_href_from_html html_pages = l1 ++ link :: l2 ->
        fetch net (GetResume link) = Raise e ->
        is_RequestException e = true ->
        fst (search_resumes params w) = resumes_of (l1 ++ l2)
        /\ (is_Ok (resumes_of l1) = true ->
            In (LogResumeError link e) (log (snd (search_resumes params w))))).
Proof.
  intros Hpayload. split.
  - intros Hex. rewrite search_resumes_run. unfold pages_to_fetch in *.
    unfold WorkUa.get_resume_pages.
    unfold mbind at 1, M_bind at 1, lift at 1. rewrite Hpayload.
    unfold mbind at 1, M_bind at 1. rewrite fetch_page_run.
    destruct (fetch net (WorkUa.page_request payload 1)) as [first|e] eqn:E1.
    + unfold mbind at 1, M_bind at 1, lift at 1.
      destruct (get_total_candidates first) as [n|e] eqn:En.
      * unfold expected_page_order in *.
        rewrite <- py_range_even_pages, <- py_range_odd_pages in *.
        apply Exists_cons in Hex as [Hex|Hex]; [now rewrite E1 in Hex|].
        unfold mbind at 1, M_bind at 1, logger_info at 1.
        unfold mbind at 1, M_bind at 1.
        match goal with
        | |- context [WorkUa.fetch_pages net payload (py_range 2 _ _) ?w0] =>
            set (wa := w0)
        end.
        destruct (fetch_all_or_fail payload
                    (py_range 2 (ceil_div n 14 + 1) 2)) as [Hall|Hex3].
        -- rewrite (fetch_pages_run_Ok _ _ _ _ Hall).
           apply Exists_app in Hex as [Hex|Hex].
           ++ exfalso. apply List.Exists_exists in Hex as (q & Hq & Hfail).
              rewrite List.Forall_forall in Hall.
              rewrite (Hall q Hq) in Hfail. discriminate.
           ++ unfold mbind at 1, M_bind at 1.
              match goal with
              | |- context [WorkUa.fetch_pages net payload (py_range 3 _ _) ?w0]
                => destruct (fetch_pages_run_Raise net payload _ w0 Hex)
                     as (q & e & Hq & Hfetch & Hrun)
              end.
              exists q, e. split; [right; apply in_or_app; now right|].
              split; [exact Hfetch|].
              destruct (WorkUa.fetch_pages net payload (py_range 3 _ _) _)
                as [[odds|e'] w3]; [discriminate|].
              simpl in Hrun |- *. congruence.
        -- destruct (fetch_pages_run_Raise net payload _ wa Hex3)
             as (q & e & Hq & Hfetch & Hrun).
           exists q, e. split; [right; apply in_or_app; now left|].
           split; [exact Hfetch|].
           destruct (WorkUa.fetch_pages net payload (py_range 2 _ _) wa)
             as [[evens|e'] w2]; [discriminate|].
           simpl in Hrun |- *. congruence.
      * apply Exists_cons in Hex as [Hex|Hex]; [now rewrite E1 in Hex|].
        now apply Exists_nil in Hex.
    + exists 1, e. split; [now left|]. now split.
  - intros html_pages w1 l1 link l2 e Hpages Hlinks Hfetch He.
    rewrite search_resumes_run, Hpages, process_pages_flat, Hlinks.
    split.
    + rewrite (proj1 (process_links_run _ _)).
      now apply resumes_of_links_skip with (e := e).
    + intros Hok. rewrite process_links_app.
      destruct (process_links_run l1 w1) as [Hv _].
      destruct (process_links l1 w1) as [[r1|e1] w2]; simpl in Hv;
        [|rewrite <- Hv in Hok; discriminate].
      rewrite process_links_cons, (process_link_failed _ e _ Hfetch He).
      match goal with
      | |- context [process_links l2 ?w0] =>
          destruct (process_links_run l2 w0) as [_ [entries Hl]];
          destruct (process_links l2 w0) as [[r2|e2] w3]
      end; simpl in Hl |- *; rewrite Hl; apply in_or_app; left;
        apply in_or_app; right; now left.
Qed.

End WorkUaSearch.

Lemma failed_fetches_witness :
  (exists p e,
      In p [1; 2]
      /\ fetch net_page2_down
           (WorkUa.page_request {[ "search" := PStr "python" ]} p) = Raise e
      /\ fst (WorkUa.search_resumes token_sort_ratio 70 net_page2_down
                "https://www.work.ua" (fun _ => Ok 20) three_links
                (fun _ => None) (fun _ => []) work_example params_python
                world0)
         = Raise e)
  /\ fst (WorkUa.search_resumes token_sort_ratio 70 net_resume2_missing
            "https://www.work.ua" (fun _ => Ok 3) three_links
            (fun _ => None) (fun _ => []) work_example params_python world0)
     = resumes_of_links net_resume2_missing "https://www.work.ua"
         (fun _ => None) (fun _ => []) (["/resumes/1/"] ++ ["/resumes/3/"])
  /\ In (LogResumeError "/resumes/2/" HTTPError)
       (log (snd (WorkUa.search_resumes token_sort_ratio 70
                    net_resume2_missing "https://www.work.ua" (fun _ => Ok 3)
                    three_links (fun _ => None) (fun _ => []) work_example
                    params_python world0))).
Proof.
  split.
  - destruct (failed_fetches token_sort_ratio 70 net_page2_down
                "https://www.work.ua" (fun _ => Ok 20) three_links
                (fun _ => None) (fun _ => []) work_example params_python
                {[ "search" := PStr "python" ]} world0 eq_refl) as [H _].
    apply H. right. left. reflexivity.
  - destruct (failed_fetches token_sort_ratio 70 net_resume2_missing
                "https://www.work.ua" (fun _ => Ok 3) three_links
                (fun _ => None) (fun _ => []) work_example params_python
                {[ "search" := PStr "python" ]} world0 eq_refl) as [_ H].
    destruct (H ["3 candidates"]
                (snd (WorkUa.get_resume_pages token_sort_ratio 70
                        net_resume2_missing (fun _ => Ok 3) work_example
                        params_python world0))
                ["/resumes/1/"] "/resumes/2/" ["/resumes/3/"] HTTPError
                eq_refl eq_refl eq_refl eq_refl) as [Hv Hlog].
    split; [exact Hv|]. apply Hlog. reflexivity.
Defined.

(** ** The salary of a scraped resume *)

Section WorkUaParse.
Variable base_url : string.
Variable find_meta_description : string -> option string.
Variable find_work_experience : string -> list pyval.

Local Abbreviation resume_dict :=
  (WorkUa.resume_dict base_url find_meta_description find_work_experience).
Local Abbreviation parse_resume :=
  (WorkUa.parse_resume base_url find_meta_description find_work_experience).

(** The dict of [parse_resume] keeps [""] under ["salary_expectation"];
    a salary that is found goes under ["salary expectation"]. *)
Lemma resume_dict_salary (link html : string) (resume : gmap string pyval) :
  resume_dict link html = Ok resume ->
  resume !! "salary_expectation" = Some (PStr "")
  /\ resume !! "filling_percentage" = Some (PInt 0)
  /\ (forall description,
        find_meta_description html = Some description ->
        contains "salary starting at" description = true ->
        exists salary rest,
          split_ws (after_last "salary starting at" description)
          = salary :: rest
          /\ resume !! "salary expectation" = Some (PStr salary)).
Proof.
  unfold WorkUa.resume_dict. intros H.
  destruct (find_meta_description html) as [description|].
  - destruct (contains "salary starting at" description) eqn:Hc.
    + destruct (split_ws (after_last "salary starting at" description))
        as [|salary rest] eqn:Hs; [discriminate|].
      simpl in H. injection H as <-.
      split; [by simplify_map_eq|]. split; [by simplify_map_eq|].
      intros d [= <-] _. exists salary, rest. rewrite Hs.
      split; [reflexivity|]. by simplify_map_eq.
    + simpl in H. injection H as <-.
      split; [by simplify_map_eq|]. split; [by simplify_map_eq|].
      intros d [= <-] Hc'. rewrite Hc in Hc'. discriminate.
  - simpl in H. injection H as <-.
    split; [by simplify_map_eq|]. split; [by simplify_map_eq|].
    intros d Hd. discriminate.
Qed.

(** C10: the resume that [parse_resume] returns has the empty string as
    its [salary_expectation]: that is what the dict holds under
    ["salary_expectation"], while a salary found on the page is stored
    under the other key ["salary expectation"], which [Resume] ignores. *)
Theorem scraped_salary_expectation_empty (link html : string)
  (resume : Resume) :
  parse_resume link html = Ok resume ->
  salary_expectation resume = Some ""
  /\ exists kwargs,
      resume_dict link html = Ok kwargs
      /\ kwargs !! "salary_expectation" = Some (PStr "")
      /\ (forall description,
            find_meta_description html = Some description ->
            contains "salary starting at" description = true ->
            exists salary rest,
              split_ws (after_last "salary starting at" description)
              = salary :: rest
              /\ kwargs !! "salary expectation" = Some (PStr salary)).
Proof.
  unfold WorkUa.parse_resume. intros H.
  destruct (resume_dict link html) as [kwargs|] eqn:Hdict; [|discriminate].
  destruct (resume_dict_salary link html kwargs Hdict) as (Hs & _ & Hfound).
  split; [|exists kwargs; now repeat split].
  simpl in H. unfold Resume_of_kwargs in H. rewrite Hs in H.
  destruct (kwargs !! "href") as [h|]; [|discriminate]. simpl in H.
  destruct (validate_str h); [|discriminate]. simpl in H.
  destruct (kwargs !! "experience") as [ex|]; [|discriminate]. simpl in H.
  destruct (validate_opt_experience ex); [|discriminate]. simpl in H.
  destruct (kwargs !! "filling_percentage") as [f|]; [|discriminate].
  simpl in H. destruct (validate_int f); [|discriminate]. simpl in H.
  now injection H as <-.
Qed.

(** [parse_resume] returns a resume unless a salary is announced and
    missing, or an experience entry is malformed. *)
Lemma parse_resume_Ok (link html : string) (entries : list Experience) :
  match find_meta_description html with
  | Some description =>
      contains "salary starting at" description = true ->
      split_ws (after_last "salary starting at" description) <> []
  | None => True
  end ->
  map_result validate_Experience (find_work_experience html) = Ok entries ->
  parse_resume link html
  = Ok (mkResume (base_url +:+ link) (Some "") (Some entries) 0).
Proof.
  intros Hsalary Hentries.
  unfold WorkUa.parse_resume, WorkUa.resume_dict.
  assert (Hgo : forall resume0 : gmap string pyval,
             resume0 !! "salary_expectation" = Some (PStr "") ->
             resume0 !! "filling_percentage" = Some (PInt 0) ->
             Resume_of_kwargs
               (<["href" := PStr (base_url +:+ link)]>
                  (<["experience" := PList (find_work_experience html)]>
                     resume0))
             = Ok (mkResume (base_url +:+ link) (Some "") (Some entries) 0)).
  { intros resume0 Hs Hf. unfold Resume_of_kwargs.
    set (m := <["href" := _]> _).
    assert (H1 : m !! "href" = Some (PStr (base_url +:+ link)))
      by (subst m; by simplify_map_eq).
    assert (H2 : m !! "salary_expectation" = Some (PStr ""))
      by (subst m; by simplify_map_eq).
    assert (H3 : m !! "experience" = Some (PList (find_work_experience html)))
      by (subst m; by simplify_map_eq).
    assert (H4 : m !! "filling_percentage" = Some (PInt 0))
      by (subst m; by simplify_map_eq).
    cbv zeta beta. rewrite H1, H2, H3, H4. simpl. now rewrite Hentries. }
  destruct (find_meta_description html) as [description|].
  - destruct (contains "salary starting at" description).
    + destruct (split_ws _) as [|salary rest]; [now contradiction Hsalary|].
      cbn [mbind result_bind]. apply Hgo; reflexivity.
    + cbn [mbind result_bind]. apply Hgo; reflexivity.
  - cbn [mbind result_bind]. apply Hgo; reflexivity.
Qed.

End WorkUaParse.

Lemma scraped_salary_expectation_empty_witness :
  WorkUa.parse_resume "https://www.work.ua" description_with_salary
    (fun _ => []) "/resumes/1/" "<html>"
  = Ok (mkResume "https://www.work.ua/resumes/1/" (Some "") (Some []) 0)
  /\ exists kwargs,
      WorkUa.resume_dict "https://www.work.ua" description_with_salary
        (fun _ => []) "/resumes/1/" "<html>" = Ok kwargs
      /\ kwargs !! "salary_expectation" = Some (PStr "")
      /\ kwargs !! "salary expectation" = Some (PStr "45000").
Proof.
  split; [vm_compute; reflexivity|].
  destruct (scraped_salary_expectation_empty "https://www.work.ua"
              description_with_salary (fun _ => [])
              "/resumes/1/" "<html>" _ eq_refl)
    as (_ & kwargs & Hdict & Hempty & Hfound).
  exists kwargs. split; [exact Hdict|]. split; [exact Hempty|].
  destruct (Hfound _ eq_refl eq_refl) as (salary & rest & Hsplit & ->).
  now injection Hsplit as <- _.
Defined.

(** * Further properties *)

(** ** The fuzzy match: what is selected *)

Lemma Qlt_bool_spec (x y : Q) :
  (Qlt_bool x y = true /\ (x < y)%Q) \/ (Qlt_bool x y = false /\ (y <= x)%Q).
Proof.
  unfold Qlt_bool. destruct (Qle_bool y x) eqn:E.
  - right. split; [reflexivity|]. now apply Qle_bool_iff.
  - left. split; [reflexivity|]. apply Qnot_le_lt. intros H.
    apply Qle_bool_iff in H. congruence.
Qed.

Section ExtractOneBest.
Variable scorer : string -> string -> Q.

(** What a scan over scores of at most 100 ends with: a choice whose
    score no other choice and no earlier best exceeds. *)
Lemma extractOne_scan_max (query : string) (choices : list string)
  (result : option (string * Q)) :
  Forall (fun k => (scorer query k <= 100)%Q) choices ->
  match result with Some (_, best) => (best <= 100)%Q | None => True end ->
  match extractOne_scan scorer query choices result with
  | None => choices = [] /\ result = None
  | Some (m, s) =>
      (forall k, In k choices -> (scorer query k <= s)%Q)
      /\ match result with Some (_, best) => (best <= s)%Q | None => True end
      /\ (result = Some (m, s) \/ (In m choices /\ s = scorer query m))
  end.
Proof.
  intros Hall. revert result.
  induction Hall as [|c choices Hc Hall IH]; intros result Hres.
  - simpl. destruct result as [[m s]|]; [|now split].
    split; [intros k []|]. split; [apply Qle_refl|now left].
  - cbn [extractOne_scan].
    set (sc := scorer query c) in *.
    set (result' := match result with
                    | None => Some (c, sc)
                    | Some (_, best) =>
                        if Qlt_bool best sc then Some (c, sc) else result
                    end).
    assert (Hstep : exists m' s',
               result' = Some (m', s')
               /\ (sc <= s')%Q /\ (s' <= 100)%Q
               /\ match result with
                  | Some (_, best) => (best <= s')%Q
                  | None => True
                  end
               /\ (result = Some (m', s') \/ (m' = c /\ s' = sc))).
    { subst result'. destruct result as [[c0 best]|].
      - destruct (Qlt_bool_spec best sc) as [[-> Hlt]|[-> Hle]].
        + exists c, sc. repeat split; auto using Qle_refl, Qlt_le_weak.
        + exists c0, best. repeat split; auto using Qle_refl.
      - exists c, sc. repeat split; auto using Qle_refl. }
    destruct Hstep as (m' & s' & Hr' & Hsc & Hcap & Hbest & Hfrom).
    destruct (Qeq_bool sc 100) eqn:Hbreak.
    + rewrite Hr'. apply Qeq_bool_iff in Hbreak. split; [|split].
      * intros k [<-|Hk]; [exact Hsc|].
        rewrite List.Forall_forall in Hall.
        apply Qle_trans with (y := 100%Q); [now apply Hall|].
        rewrite <- Hbreak. exact Hsc.
      * exact Hbest.
      * destruct Hfrom as [->|[-> ->]]; [now left|right; split; [now left|]].
        reflexivity.
    + specialize (IH result'). rewrite Hr' in IH. specialize (IH Hcap).
      rewrite Hr'.
      destruct (extractOne_scan scorer query choices (Some (m', s')))
        as [[m s]|]; [|destruct IH as [_ IH]; discriminate].
      destruct IH as (Hmax & Hle & Hmem). split; [|split].
      * intros k [<-|Hk]; [|now apply Hmax].
        now apply Qle_trans with (y := s').
      * destruct result as [[c0 best]|]; [|exact I].
        now apply Qle_trans with (y := s').
      * destruct Hmem as [Heq|[Hin Hs]].
        -- injection Heq as <- <-.
           destruct Hfrom as [->|[-> ->]]; [now left|].
           right. split; [now left|reflexivity].
        -- right. split; [now right|exact Hs].
Qed.

(** The word that [get_most_similar_word] returns is a word of the
    vocabulary, scores above the threshold, and no word of the
    vocabulary scores higher (scores being at most 100). *)
Theorem get_most_similar_word_is_best (threshold : Z) (word : string)
  (vocabulary : list string) (matched : string) :
  Forall (fun k => (scorer word k <= 100)%Q) vocabulary ->
  get_most_similar_word scorer threshold (Some word) vocabulary
  = Some matched ->
  In matched vocabulary
  /\ (inject_Z threshold < scorer word matched)%Q
  /\ forall k, In k vocabulary -> (scorer word k <= scorer word matched)%Q.
Proof.
  intros Hcap. unfold get_most_similar_word, extractOne.
  pose proof (extractOne_scan_max word vocabulary None Hcap I) as Hscan.
  destruct (extractOne_scan scorer word vocabulary None) as [[m s]|];
    [|discriminate].
  destruct Hscan as (Hmax & _ & [Habs|[Hin Hs]]); [discriminate|].
  destruct (Qlt_bool_spec (inject_Z threshold) s) as [[-> Hlt]|[-> _]];
    [|discriminate].
  intros [= <-]. subst s. now repeat split.
Qed.

(** No word is returned exactly when no word of the vocabulary scores
    above the threshold. *)
Theorem get_most_similar_word_None_iff (threshold : Z) (word : string)
  (vocabulary : list string) :
  Forall (fun k => (scorer word k <= 100)%Q) vocabulary ->
  get_most_similar_word scorer threshold (Some word) vocabulary = None
  <-> Forall (fun k => (scorer word k <= inject_Z threshold)%Q) vocabulary.
Proof.
  intros Hcap. split.
  - unfold get_most_similar_word, extractOne.
    pose proof (extractOne_scan_max word vocabulary None Hcap I) as Hscan.
    destruct (extractOne_scan scorer word vocabulary None) as [[m s]|].
    + destruct Hscan as (Hmax & _ & _).
      destruct (Qlt_bool_spec (inject_Z threshold) s) as [[-> _]|[-> Hle]];
        [discriminate|].
      intros _. apply List.Forall_forall. intros k Hk.
      apply Qle_trans with (y := s); [now apply Hmax|exact Hle].
    + destruct Hscan as [-> _]. constructor.
  - intros Hbelow. apply get_most_similar_word_below.
    now intros q [= <-].
Qed.
End ExtractOneBest.

Lemma get_most_similar_word_is_best_witness :
  In "Kyiv" ["Lviv"; "Kyiv"; "Odesa"]
  /\ (inject_Z 70 < token_sort_ratio "Kiyv" "Kyiv")%Q
  /\ forall k, In k ["Lviv"; "Kyiv"; "Odesa"] ->
       (token_sort_ratio "Kiyv" k <= token_sort_ratio "Kiyv" "Kyiv")%Q.
Proof.
  apply (get_most_similar_word_is_best token_sort_ratio 70 "Kiyv"
           ["Lviv"; "Kyiv"; "Odesa"] "Kyiv").
  - repeat constructor; vm_compute; discriminate.
  - reflexivity.
Defined.

Lemma get_most_similar_word_None_iff_witness :
  get_most_similar_word token_sort_ratio 70 (Some "Atlantis")
    ["Lviv"; "Kyiv"; "Odesa"] = None
  <-> Forall (fun k => (token_sort_ratio "Atlantis" k <= inject_Z 70)%Q)
        ["Lviv"; "Kyiv"; "Odesa"].
Proof.
  apply (get_most_similar_word_None_iff token_sort_ratio 70 "Atlantis"
           ["Lviv"; "Kyiv"; "Odesa"]).
  repeat constructor; vm_compute; discriminate.
Defined.

(** ** The aggregation: selection and ties *)

Section PySortedStable.
Context {A : Type} (key : A -> Z).
Local Abbreviation lt := (fun x y : A => key x <? key y).

Lemma sort_insert_filter (k : Z) (x : A) (l : list A) :
  List.filter (fun a => key a =? k) (sort_insert lt x l)
  = List.filter (fun a => key a =? k) (x :: l).
Proof.
  induction l as [|y l IH]; [reflexivity|].
  cbn [sort_insert]. destruct (Z.ltb_spec (key y) (key x)) as [Hlt|Hge];
    [|reflexivity].
  cbn [List.filter] in *. rewrite IH.
  destruct (Z.eqb_spec (key x) k) as [Hx|Hx];
    destruct (Z.eqb_spec (key y) k) as [Hy|Hy]; try reflexivity.
  lia.
Qed.

Lemma py_sorted_filter (k : Z) (l : list A) :
  List.filter (fun a => key a =? k) (py_sorted lt l)
  = List.filter (fun a => key a =? k) l.
Proof.
  induction l as [|x l IH]; [reflexivity|].
  cbn [py_sorted]. rewrite sort_insert_filter. cbn [List.filter].
  now rewrite IH.
Qed.

Lemma filter_rev_comm (f : A -> bool) (l : list A) :
  List.filter f (rev l) = rev (List.filter f l).
Proof.
  induction l as [|x l IH]; [reflexivity|].
  cbn [rev List.filter]. rewrite List.filter_app, IH. cbn [List.filter].
  destruct (f x); [reflexivity|]. now rewrite app_nil_r.
Qed.

Lemma py_sorted_reverse_filter (k : Z) (l : list A) :
  List.filter (fun a => key a =? k) (py_sorted_reverse lt l)
  = List.filter (fun a => key a =? k) l.
Proof.
  unfold py_sorted_reverse.
  now rewrite filter_rev_comm, py_sorted_filter, filter_rev_comm, rev_involutive.
Qed.
End PySortedStable.

(** Ties are not reordered: the resumes of any one filling percentage
    come out in the order in which the two lists were concatenated, the
    Work.ua ones first. *)
Theorem combined_results_stable (work robota : list Resume) (k : Z) :
  List.filter (fun r => filling_percentage r =? k)
    (combined_results work robota)
  = List.filter (fun r => filling_percentage r =? k) work
    ++ List.filter (fun r => filling_percentage r =? k) robota.
Proof.
  unfold combined_results.
  rewrite <- List.filter_app.
  apply (py_sorted_reverse_filter filling_percentage).
Qed.

(** The aggregation is a selection of the best: the resumes returned
    and the resumes cut off are together the resumes of the two sources,
    and no resume that is cut off is filled more than one that is
    returned. *)
Theorem aggregate_keeps_the_best (work robota : list Resume) (topN : nat) :
  Permutation
    (aggregate work robota topN ++ skipn topN (combined_results work robota))
    (work ++ robota)
  /\ forall kept cut,
      In kept (aggregate work robota topN) ->
      In cut (skipn topN (combined_results work robota)) ->
      filling_percentage cut <= filling_percentage kept.
Proof.
  split; [apply aggregate_perm|].
  intros kept cut Hkept Hcut. unfold aggregate in Hkept.
  pose proof (combined_results_sorted work robota) as Hsorted.
  rewrite <- (firstn_skipn topN (combined_results work robota)) in Hsorted.
  apply StronglySorted_app in Hsorted as (Hcross & _ & _).
  apply Hcross; now apply list_elem_of_In.
Qed.

(** ** The Work.ua payload: its keys and its errors *)

Section WorkUaPayload.
Variable scorer : string -> string -> Q.
Variable threshold : Z.
Variable self : WorkUa.parser.

(** The payload always carries the keywords under ["search"], has no
    other keys than the five of the search options, and in particular
    no ["page"], which only [get_resume_pages] adds. *)
Theorem WorkUa_payload_keys (params : SearchOptions)
  (payload : gmap string pyval) :
  WorkUa.unpack_search_options scorer threshold self params = Ok payload ->
  payload !! "search" = Some (PStr (so_search params))
  /\ payload !! "page" = None
  /\ forall k, is_Some (payload !! k) ->
       In k ["search"; "region"; "salaryfrom"; "salaryto"; "experience"].
Proof.
  intros H.
  pose proof (WorkUa_payload_fields scorer threshold self params payload H)
    as (Hsearch & _).
  split; [exact Hsearch|].
  assert (Hdom : dom payload
                 ⊆ ({["search"; "region"; "salaryfrom"; "salaryto";
                      "experience"]} : gset string)).
  { unfold WorkUa.unpack_search_options in H.
    destruct (truthy (opt_labels _)).
    - destruct (str_join _ _) as [joined|e]; [|discriminate].
      simpl in H. injection H as <-.
      destruct (truthy (opt_str _)), (truthy (opt_int (so_salary_from _))),
        (truthy (opt_int (so_salary_to _)));
        rewrite ?dom_insert_L, dom_singleton_L; set_unfold; intuition.
    - injection H as <-.
      destruct (truthy (opt_str _)), (truthy (opt_int (so_salary_from _))),
        (truthy (opt_int (so_salary_to _)));
        rewrite ?dom_insert_L, dom_singleton_L; set_unfold; intuition. }
  split.
  - apply not_elem_of_dom. intros Hin. apply Hdom in Hin.
    set_unfold in Hin. intuition discriminate.
  - intros k Hk. apply elem_of_dom in Hk. apply Hdom in Hk.
    set_unfold in Hk. simpl. intuition.
Qed.

(** The only error of the normalizer is the [TypeError] of ["+".join],
    raised exactly when a label is mapped to something that is not a
    string; unmapped labels never make it fail. *)
Theorem WorkUa_unpack_errors (params : SearchOptions) :
  match WorkUa.unpack_search_options scorer threshold self params with
  | Ok _ =>
      Forall (fun label =>
                match WorkUa.EXPERIENCE_OPTIONS self !! label with
                | Some (PStr _) | None => True
                | Some _ => False
                end) (default [] (so_experience params))
  | Raise e =>
      e = TypeError
      /\ Exists (fun label =>
                   match WorkUa.EXPERIENCE_OPTIONS self !! label with
                   | Some (PStr _) | None => False
                   | Some _ => True
                   end) (default [] (so_experience params))
  end.
Proof.
  assert (Hjoin : forall labels,
             match strings_of (WorkUa.experience_items self labels) with
             | Ok _ =>
                 Forall (fun label =>
                           match WorkUa.EXPERIENCE_OPTIONS self !! label with
                           | Some (PStr _) | None => True
                           | Some _ => False
                           end) labels
             | Raise e =>
                 e = TypeError
                 /\ Exists (fun label =>
                              match WorkUa.EXPERIENCE_OPTIONS self !! label with
                              | Some (PStr _) | None => False
                              | Some _ => True
                              end) labels
             end).
  { induction labels as [|l labels IH]; [constructor|].
    cbn [WorkUa.experience_items map strings_of] in *.
    unfold dict_get_default at 1.
    destruct (WorkUa.EXPERIENCE_OPTIONS self !! l) as [v|] eqn:Hl; simpl.
    - destruct v; try (split; [reflexivity|]; left; now rewrite Hl).
      destruct (strings_of _) as [ss|e]; simpl.
      + constructor; [now rewrite Hl|exact IH].
      + destruct IH as [-> IH]. split; [reflexivity|now right].
    - destruct (strings_of _) as [ss|e]; simpl.
      + constructor; [now rewrite Hl|exact IH].
      + destruct IH as [-> IH]. split; [reflexivity|now right]. }
  unfold WorkUa.unpack_search_options.
  destruct (so_experience params) as [[|l labels]|];
    cbn [opt_labels truthy map from_option id].
  - constructor.
  - specialize (Hjoin (l :: labels)). unfold str_join.
    destruct (strings_of (WorkUa.experience_items self (l :: labels)));
      cbn [mbind result_bind]; exact Hjoin.
  - constructor.
Qed.
End WorkUaPayload.

Lemma WorkUa_payload_keys_witness :
  exists payload,
    WorkUa.unpack_search_options token_sort_ratio 70 work_example
      params_example = Ok payload
    /\ payload !! "search" = Some (PStr "python")
    /\ payload !! "page" = None.
Proof.
  eexists. split; [reflexivity|].
  destruct (WorkUa_payload_keys token_sort_ratio 70 work_example
              params_example _ eq_refl) as (Hs & Hp & _).
  now split.
Defined.

(** ** The result pages: every page once, and the failures *)

Lemma pages_from_to_cons (lo hi : Z) :
  lo <= hi -> pages_from_to lo hi = lo :: pages_from_to (lo + 1) hi.
Proof.
  intros H. unfold pages_from_to.
  replace (Z.to_nat (hi - lo + 1)) with (S (Z.to_nat (hi - (lo + 1) + 1)))
    by lia.
  cbn [seq map]. f_equal; [lia|].
  rewrite <- seq_shift, map_map. apply map_ext. intros i. lia.
Qed.

Lemma pages_from_to_nil (lo hi : Z) : hi < lo -> pages_from_to lo hi = [].
Proof.
  intros H. unfold pages_from_to.
  now replace (Z.to_nat (hi - lo + 1)) with O by lia.
Qed.

Lemma filter_split_perm {A : Type} (f : A -> bool) (l : list A) :
  Permutation (List.filter f l ++ List.filter (fun x => negb (f x)) l) l.
Proof.
  induction l as [|x l IH]; [reflexivity|].
  cbn [List.filter]. destruct (f x); cbn [negb app].
  - now constructor.
  - rewrite <- Permutation_middle. now constructor.
Qed.

(** The two passes together go through the pages from 1 up to
    [total_pages], each of them once; there is always a page 1. *)
Lemma expected_page_order_perm (total_pages : Z) :
  Permutation (expected_page_order total_pages)
    (pages_from_to 1 (Z.max 1 total_pages)).
Proof.
  unfold expected_page_order.
  assert (Hodd : List.filter Z.odd (pages_from_to 3 total_pages)
                 = List.filter (fun z => negb (Z.even z))
                     (pages_from_to 2 total_pages)).
  { destruct (Z.le_gt_cases 2 total_pages) as [H|H].
    - rewrite (pages_from_to_cons 2) by exact H. cbn [List.filter Z.even negb].
      apply List.filter_ext. intros z. now rewrite Z.negb_even.
    - now rewrite !pages_from_to_nil by lia. }
  rewrite Hodd, filter_split_perm.
  destruct (Z.le_gt_cases 1 total_pages) as [H|H].
  - rewrite Z.max_r by exact H. now rewrite (pages_from_to_cons 1) by exact H.
  - rewrite Z.max_l by lia. rewrite (pages_from_to_nil 2) by lia.
    reflexivity.
Qed.

Section WorkUaPagesMore.
Variable scorer : string -> string -> Q.
Variable threshold : Z.
Variable net : request -> result response.
Variable get_total_candidates : string -> result Z.
Variable self : WorkUa.parser.

Local Abbreviation get_resume_pages :=
  (WorkUa.get_resume_pages scorer threshold net get_total_candidates self).

Lemma fetch_pages_app (payload : gmap string pyval) (l1 l2 : list Z)
  (w : world) :
  WorkUa.fetch_pages net payload (l1 ++ l2) w
  = match WorkUa.fetch_pages net payload l1 w with
    | (Ok h1, w1) =>
        match WorkUa.fetch_pages net payload l2 w1 with
        | (Ok h2, w2) => (Ok (h1 ++ h2), w2)
        | (Raise e, w2) => (Raise e, w2)
        end
    | (Raise e, w1) => (Raise e, w1)
    end.
Proof.
  revert w. induction l1 as [|p l1 IH]; intros w.
  - cbn [app WorkUa.fetch_pages]. unfold mret, M_ret.
    now destruct (WorkUa.fetch_pages net payload l2 w) as [[h2|e] w2].
  - cbn [app WorkUa.fetch_pages]. unfold mbind, M_bind, mret, M_ret.
    destruct (WorkUa.fetch_page net payload p w) as [[html|e] w1];
      [|reflexivity].
    rewrite IH.
    destruct (WorkUa.fetch_pages net payload l1 w1) as [[h1|e] w2];
      [|reflexivity].
    now destruct (WorkUa.fetch_pages net payload l2 w2) as [[h2|e] w3].
Qed.

(** The run of [get_resume_pages] once page 1 is there with its count:
    one loop over the even pages followed by the odd pages. *)
Lemma get_resume_pages_run (params : SearchOptions)
  (payload : gmap string pyval) (first : string) (n : Z) (w : world) :
  WorkUa.unpack_search_options scorer threshold self params = Ok payload ->
  fetch net (WorkUa.page_request payload 1) = Ok first ->
  get_total_candidates first = Ok n ->
  get_resume_pages params w
  = match WorkUa.fetch_pages net payload
            (List.filter Z.even (pages_from_to 2 (ceil_div n 14))
             ++ List.filter Z.odd (pages_from_to 3 (ceil_div n 14)))
            (mkWorld (trace w ++ [WorkUa.page_request payload 1])
               (log w ++ [LogTotals n (ceil_div n 14)])) with
    | (Ok rest, w') => (Ok (first :: rest), w')
    | (Raise e, w') => (Raise e, w')
    end.
Proof.
  intros Hpayload Hfirst Hn.
  rewrite <- py_range_even_pages, <- py_range_odd_pages, fetch_pages_app.
  unfold WorkUa.get_resume_pages.
  unfold mbind at 1, M_bind at 1, lift at 1. rewrite Hpayload.
  unfold mbind at 1, M_bind at 1. rewrite fetch_page_run, Hfirst.
  unfold mbind at 1, M_bind at 1, lift at 1. rewrite Hn.
  unfold mbind at 1, M_bind at 1, logger_info at 1. cbn [trace log].
  unfold mbind at 1, M_bind at 1.
  destruct (WorkUa.fetch_pages net payload (py_range 2 _ _) _)
    as [[evens|e] w1]; [|reflexivity].
  unfold mbind at 1, M_bind at 1.
  now destruct (WorkUa.fetch_pages net payload (py_range 3 _ _) _)
    as [[odds|e] w2].
Qed.

(** A loop that meets a failing page after pages that succeed requests
    nothing after it; the failure is logged with the number of the page
    when it is a request error. *)
Lemma fetch_pages_run_fail (payload : gmap string pyval)
  (before after : list Z) (p : Z) (e : exn) (w : world) :
  Forall (fun q => is_Ok (fetch net (WorkUa.page_request payload q)) = true)
    before ->
  fetch net (WorkUa.page_request payload p) = Raise e ->
  WorkUa.fetch_pages net payload (before ++ p :: after) w
  = (Raise e,
     mkWorld (trace w ++ map (WorkUa.page_request payload) (before ++ [p]))
       (if is_RequestException e
        then log w ++ [LogPageError p e] else log w)).
Proof.
  intros Hbefore Hp. rewrite fetch_pages_app.
  rewrite (fetch_pages_run_Ok net payload before w Hbefore).
  cbn [WorkUa.fetch_pages]. unfold mbind, M_bind.
  rewrite fetch_page_run, Hp. cbn [trace log].
  now rewrite map_app, app_assoc.
Qed.

(** If every page from 1 up to [total_pages] can be fetched, the search
    requests each of them exactly once and returns one text per page. *)
Theorem every_result_page_once (params : SearchOptions)
  (payload : gmap string pyval) (first : string) (n : Z) (w : world) :
  WorkUa.unpack_search_options scorer threshold self params = Ok payload ->
  fetch net (WorkUa.page_request payload 1) = Ok first ->
  get_total_candidates first = Ok n ->
  Forall (fun p => is_Ok (fetch net (WorkUa.page_request payload p)) = true)
    (pages_from_to 1 (Z.max 1 (ceil_div n 14))) ->
  exists pages html_pages w',
    get_resume_pages params w = (Ok html_pages, w')
    /\ WorkUa.pages_fetched w' = WorkUa.pages_fetched w ++ map PInt pages
    /\ Permutation pages (pages_from_to 1 (Z.max 1 (ceil_div n 14)))
    /\ length html_pages = length pages.
Proof.
  intros Hpayload Hfirst Hn Hall.
  rewrite (get_resume_pages_run params payload first n w Hpayload Hfirst Hn).
  pose proof (expected_page_order_perm (ceil_div n 14)) as Hperm.
  assert (Hrest : Forall
            (fun p => is_Ok (fetch net (WorkUa.page_request payload p)) = true)
            (List.filter Z.even (pages_from_to 2 (ceil_div n 14))
             ++ List.filter Z.odd (pages_from_to 3 (ceil_div n 14)))).
  { symmetry in Hperm. apply (Permutation_Forall Hperm) in Hall.
    unfold expected_page_order in Hall. now apply Forall_cons in Hall as [_ ?]. }
  rewrite (fetch_pages_run_Ok net payload _ _ Hrest). cbn [trace log].
  exists (expected_page_order (ceil_div n 14)). eexists. eexists.
  split; [reflexivity|]. split; [|split; [exact Hperm|]].
  - destruct w as [t l]. cbn [trace log]. unfold expected_page_order.
    rewrite <- app_assoc.
    apply (pages_fetched_app t _ l payload
             (1 :: List.filter Z.even (pages_from_to 2 (ceil_div n 14))
                   ++ List.filter Z.odd (pages_from_to 3 (ceil_div n 14)))).
  - unfold expected_page_order. cbn [length]. now rewrite length_map.
Qed.

(** A first page without a candidate count ends the search with the
    error of [get_total_candidates]: one request was sent, and nothing
    is logged, since the error is not a request error. *)
Theorem missing_candidate_count (params : SearchOptions)
  (payload : gmap string pyval) (first : string) (e : exn) (w : world) :
  WorkUa.unpack_search_options scorer threshold self params = Ok payload ->
  fetch net (WorkUa.page_request payload 1) = Ok first ->
  get_total_candidates first = Raise e ->
  get_resume_pages params w
  = (Raise e,
     mkWorld (trace w ++ [WorkUa.page_request payload 1]) (log w)).
Proof.
  intros Hpayload Hfirst He. unfold WorkUa.get_resume_pages.
  unfold mbind at 1, M_bind at 1, lift at 1. rewrite Hpayload.
  unfold mbind at 1, M_bind at 1. rewrite fetch_page_run, Hfirst.
  unfold mbind at 1, M_bind at 1, lift at 1. now rewrite He.
Qed.

(** When a page after the first fails with a request error, the pages
    before it in the order have been requested, the pages after it are
    not, and the log ends with the number of the page that failed. *)
Theorem failed_result_page_logged (params : SearchOptions)
  (payload : gmap string pyval) (first : string) (n : Z)
  (before after : list Z) (p : Z) (e : exn) (w : world) :
  WorkUa.unpack_search_options scorer threshold self params = Ok payload ->
  fetch net (WorkUa.page_request payload 1) = Ok first ->
  get_total_candidates first = Ok n ->
  expected_page_order (ceil_div n 14) = 1 :: before ++ p :: after ->
  Forall (fun q => is_Ok (fetch net (WorkUa.page_request payload q)) = true)
    before ->
  fetch net (WorkUa.page_request payload p) = Raise e ->
  is_RequestException e = true ->
  get_resume_pages params w
  = (Raise e,
     mkWorld
       (trace w ++ map (WorkUa.page_request payload) (1 :: before ++ [p]))
       (log w ++ [LogTotals n (ceil_div n 14); LogPageError p e])).
Proof.
  intros Hpayload Hfirst Hn Horder Hbefore Hp He.
  rewrite (get_resume_pages_run params payload first n w Hpayload Hfirst Hn).
  unfold expected_page_order in Horder. injection Horder as ->.
  rewrite (fetch_pages_run_fail payload before after p e _ Hbefore Hp), He.
  cbn [trace log map]. now rewrite <- !app_assoc.
Qed.

End WorkUaPagesMore.

Lemma every_result_page_once_witness :
  exists pages html_pages w',
    WorkUa.get_resume_pages token_sort_ratio 70
      (net_constant "65 candidates") (fun _ => Ok 65) work_example
      params_python world0 = (Ok html_pages, w')
    /\ WorkUa.pages_fetched w' = WorkUa.pages_fetched world0 ++ map PInt pages
    /\ Permutation pages [1; 2; 3; 4; 5]
    /\ length html_pages = length pages.
Proof.
  apply (every_result_page_once token_sort_ratio 70
           (net_constant "65 candidates") (fun _ => Ok 65) work_example
           params_python {[ "search" := PStr "python" ]} "65 candidates" 65
           world0 eq_refl eq_refl eq_refl).
  repeat constructor.
Defined.

Lemma missing_candidate_count_witness :
  WorkUa.get_resume_pages token_sort_ratio 70 (net_constant "<html>")
    (fun _ => Raise (Exception "Unable to find candidate count"))
    work_example params_python world0
  = (Raise (Exception "Unable to find candidate count"),
     mkWorld [WorkUa.page_request {[ "search" := PStr "python" ]} 1] []).
Proof.
  apply (missing_candidate_count token_sort_ratio 70 (net_constant "<html>")
           (fun _ => Raise (Exception "Unable to find candidate count"))
           work_example params_python {[ "search" := PStr "python" ]}
           "<html>" _ world0 eq_refl eq_refl eq_refl).
Defined.

Lemma failed_result_page_logged_witness :
  WorkUa.get_resume_pages token_sort_ratio 70 net_page2_down
    (fun _ => Ok 65) work_example params_python world0
  = (Raise RequestException,
     mkWorld
       (map (WorkUa.page_request {[ "search" := PStr "python" ]}) [1; 2])
       [LogTotals 65 5; LogPageError 2 RequestException]).
Proof.
  apply (failed_result_page_logged token_sort_ratio 70 net_page2_down
           (fun _ => Ok 65) work_example params_python
           {[ "search" := PStr "python" ]} "20 candidates" 65 [] [4; 3; 5] 2
           RequestException world0 eq_refl eq_refl eq_refl eq_refl).
  - constructor.
  - reflexivity.
  - reflexivity.
Defined.

(** ** The scraped resumes: their shape, and a page that cannot be parsed *)

Section WorkUaResults.
Variable scorer : string -> string -> Q.
Variable threshold : Z.
Variable net : request -> result response.
Variable base_url : string.
Variable get_total_candidates : string -> result Z.
Variable get_resume_href_from_html : string -> list string.
Variable find_meta_description : string -> option string.
Variable find_work_experience : string -> list pyval.
Variable self : WorkUa.parser.

Local Abbreviation parse_resume :=
  (WorkUa.parse_resume base_url find_meta_description find_work_experience).
Local Abbreviation resumes_of :=
  (resumes_of_links net base_url find_meta_description find_work_experience).
Local Abbreviation get_resume_pages :=
  (WorkUa.get_resume_pages scorer threshold net get_total_candidates self).
Local Abbreviation search_resumes :=
  (WorkUa.search_resumes scorer threshold net base_url get_total_candidates
     get_resume_href_from_html find_meta_description find_work_experience
     self).

(** What [parse_resume] puts into a resume besides the experience: the
    link behind the base URL, and a filling percentage of 0. *)
Lemma parse_resume_shape (link html : string) (resume : Resume) :
  parse_resume link html = Ok resume ->
  href resume = base_url +:+ link /\ filling_percentage resume = 0.
Proof.
  unfold WorkUa.parse_resume, WorkUa.resume_dict. intros H.
  assert (Hgo : forall resume0 : gmap string pyval,
             resume0 !! "filling_percentage" = Some (PInt 0) ->
             Resume_of_kwargs
               (<["href" := PStr (base_url +:+ link)]>
                  (<["experience" := PList (find_work_experience html)]>
                     resume0)) = Ok resume ->
             href resume = base_url +:+ link /\ filling_percentage resume = 0).
  { intros resume0 Hf. unfold Resume_of_kwargs.
    set (m := <["href" := _]> _).
    assert (H1 : m !! "href" = Some (PStr (base_url +:+ link)))
      by (subst m; by simplify_map_eq).
    assert (H4 : m !! "filling_percentage" = Some (PInt 0))
      by (subst m; by simplify_map_eq).
    cbv zeta beta. rewrite H1, H4. cbn [mbind result_bind validate_str].
    destruct (m !! "salary_expectation") as [s|]; [|discriminate].
    cbn [mbind result_bind]. destruct (validate_opt_str s); [|discriminate].
    cbn [mbind result_bind].
    destruct (m !! "experience") as [ex|]; [|discriminate].
    cbn [mbind result_bind].
    destruct (validate_opt_experience ex); [|discriminate].
    cbn [mbind result_bind validate_int]. intros [= <-]. now split. }
  destruct (find_meta_description html) as [description|].
  - destruct (contains "salary starting at" description).
    + destruct (split_ws _) as [|salary rest]; [discriminate|].
      cbn [mbind result_bind] in H. revert H. apply Hgo. reflexivity.
    + cbn [mbind result_bind] in H. revert H. apply Hgo. reflexivity.
  - cbn [mbind result_bind] in H. revert H. apply Hgo. reflexivity.
Qed.

Lemma resumes_of_links_shape (links : list string) (resumes : list Resume) :
  resumes_of links = Ok resumes ->
  exists kept,
    sublist kept links
    /\ map href resumes
       = map (fun link => base_url +:+ (base_url +:+ link)) kept
    /\ Forall (fun r => filling_percentage r = 0) resumes.
Proof.
  revert resumes. induction links as [|link links IH]; intros resumes H.
  - injection H as <-. exists []. repeat split; constructor.
  - cbn [resumes_of_links] in H.
    assert (Hskip : resumes_of links = Ok resumes ->
              exists kept,
                sublist kept (link :: links)
                /\ map href resumes
                   = map (fun link => base_url +:+ (base_url +:+ link)) kept
                /\ Forall (fun r => filling_percentage r = 0) resumes).
    { intros H'. destruct (IH _ H') as (kept & Hsub & Hhref & Hfp).
      exists kept. split; [now constructor|]. now split. }
    destruct (fetch net (GetResume link)) as [html|e].
    + destruct (String.eqb html ""); [now apply Hskip|].
      destruct (parse_resume (base_url +:+ link) html) as [r|] eqn:Hparse;
        [|discriminate].
      cbn [mbind result_bind] in H.
      destruct (resumes_of links) as [rest|]; [|discriminate].
      cbn [mbind result_bind] in H. injection H as <-.
      destruct (IH rest eq_refl) as (kept & Hsub & Hhref & Hfp).
      apply parse_resume_shape in Hparse as [Hh Hf].
      exists (link :: kept). split; [now constructor|]. split.
      * cbn [map]. now rewrite Hh, Hhref.
      * now constructor.
    + destruct (is_RequestException e); [now apply Hskip|discriminate].
Qed.

(** Every resume that the Work.ua search returns has a filling
    percentage of 0, and its link carries the base URL twice; the
    resumes come in the order of the links on the pages, one for each
    link that was kept. *)
Theorem scraped_resumes_shape (params : SearchOptions)
  (html_pages : list string) (resumes : list Resume) (w w1 : world) :
  get_resume_pages params w = (Ok html_pages, w1) ->
  fst (search_resumes params w) = Ok resumes ->
  exists kept,
    sublist kept (flat_map get_resume_href_from_html html_pages)
    /\ map href resumes
       = map (fun link => base_url +:+ (base_url +:+ link)) kept
    /\ Forall (fun r => filling_percentage r = 0) resumes.
Proof.
  intros Hpages Hsearch.
  rewrite (search_resumes_run scorer threshold net base_url
             get_total_candidates get_resume_href_from_html
             find_meta_description find_work_experience self) in Hsearch.
  rewrite Hpages in Hsearch.
  rewrite (proj1 (process_pages_run net base_url get_resume_href_from_html
                    find_meta_description find_work_experience _ _))
    in Hsearch.
  now apply resumes_of_links_shape.
Qed.

(** A candidate page that announces a salary and names none cannot be
    parsed: the [IndexError] is not caught, so unlike a failed fetch it
    ends the whole search, whatever the other links would yield. *)
Theorem unparsable_resume_aborts (params : SearchOptions)
  (html_pages : list string) (w w1 : world) (l1 l2 : list string)
  (link html description : string) :
  get_resume_pages params w = (Ok html_pages, w1) ->
  flat_map get_resume_href_from_html html_pages = l1 ++ link :: l2 ->
  is_Ok (resumes_of l1) = true ->
  fetch net (GetResume link) = Ok html ->
  html <> "" ->
  find_meta_description html = Some description ->
  contains "salary starting at" description = true ->
  split_ws (after_last "salary starting at" description) = [] ->
  fst (search_resumes params w) = Raise IndexError.
Proof.
  intros Hpages Hlinks Hl1 Hfetch Hhtml Hmeta Hcontains Hsplit.
  rewrite (search_resumes_run scorer threshold net base_url
             get_total_candidates get_resume_href_from_html
             find_meta_description find_work_experience self).
  rewrite Hpages.
  rewrite (proj1 (process_pages_run net base_url get_resume_href_from_html
                    find_meta_description find_work_experience _ _)).
  rewrite Hlinks, resumes_of_links_app.
  destruct (resumes_of l1) as [r1|]; [|discriminate].
  cbn [mbind result_bind resumes_of_links]. rewrite Hfetch.
  apply String.eqb_neq in Hhtml. rewrite Hhtml.
  unfold WorkUa.parse_resume, WorkUa.resume_dict.
  now rewrite Hmeta, Hcontains, Hsplit.
Qed.

End WorkUaResults.

Lemma scraped_resumes_shape_witness :
  exists kept,
    sublist kept ["/resumes/1/"; "/resumes/2/"; "/resumes/3/"]
    /\ map href
         [mkResume "https://www.work.uahttps://www.work.ua/resumes/1/"
            (Some "") (Some []) 0;
          mkResume "https://www.work.uahttps://www.work.ua/resumes/3/"
            (Some "") (Some []) 0]
       = map (fun link => "https://www.work.ua"
                          +:+ ("https://www.work.ua" +:+ link)) kept
    /\ Forall (fun r => filling_percentage r = 0)
         [mkResume "https://www.work.uahttps://www.work.ua/resumes/1/"
            (Some "") (Some []) 0;
          mkResume "https://www.work.uahttps://www.work.ua/resumes/3/"
            (Some "") (Some []) 0].
Proof.
  apply (scraped_resumes_shape token_sort_ratio 70 net_resume2_missing
           "https://www.work.ua" (fun _ => Ok 3) three_links
           (fun _ => None) (fun _ => []) work_example params_python
           ["3 candidates"] _ world0
           (snd (WorkUa.get_resume_pages token_sort_ratio 70
                   net_resume2_missing (fun _ => Ok 3) work_example
                   params_python world0))).
  - reflexivity.
  - vm_compute. reflexivity.
Defined.

Lemma unparsable_resume_aborts_witness :
  fst (WorkUa.search_resumes token_sort_ratio 70 net_resume2_unparsable
         "https://www.work.ua" (fun _ => Ok 3) three_links
         description_salary_missing (fun _ => []) work_example params_python
         world0)
  = Raise IndexError.
Proof.
  apply (unparsable_resume_aborts token_sort_ratio 70 net_resume2_unparsable
           "https://www.work.ua" (fun _ => Ok 3) three_links
           description_salary_missing (fun _ => []) work_example
           params_python ["3 candidates"] world0
           (snd (WorkUa.get_resume_pages token_sort_ratio 70
                   net_resume2_unparsable (fun _ => Ok 3) work_example
                   params_python world0))
           ["/resumes/1/"] ["/resumes/3/"] "/resumes/2/" "cv without salary"
           "Resume of a Python developer, salary starting at ").
  - reflexivity.
  - reflexivity.
  - vm_compute. reflexivity.
  - reflexivity.
  - discriminate.
  - reflexivity.
  - vm_compute. reflexivity.
  - vm_compute. reflexivity.
Defined.

(** ** The API-based source: errors, requests and results *)


Section RobotaUaMore.
Variable scorer : string -> string -> Q.
Variable threshold : Z.
Variable net : request -> result response.
Variable format_salary_expectation : string -> string.
Variable py_str : pyval -> string.
Variable self : RobotaUa.parser.

Local Abbreviation unpack_search_options :=
  (RobotaUa.unpack_search_options scorer threshold self).
Local Abbreviation search_resumes :=
  (RobotaUa.search_resumes scorer threshold net format_salary_expectation
     py_str self).

(** The normalizer of Robota.ua fails for three reasons only: the
    experience list is [None] ([TypeError]); there is a label to map and
    the experience options were never loaded ([AttributeError]); or
    "More than 5 years" is selected and the options lack one of the two
    finer brackets ([KeyError]).  Resolving the region never fails. *)
Theorem RobotaUa_unpack_errors (params : SearchOptions) (e : exn) :
  unpack_search_options params = Raise e ->
  (e = TypeError /\ so_experience params = None)
  \/ (e = AttributeError
      /\ RobotaUa.EXPERIENCE_OPTIONS self = None
      /\ exists label labels, so_experience params = Some (label :: labels))
  \/ (exists options labels k,
        e = KeyError k
        /\ RobotaUa.EXPERIENCE_OPTIONS self = Some options
        /\ so_experience params = Some labels
        /\ In "More than 5 years" labels
        /\ options !! k = None
        /\ (k = "5 to 10 years" \/ k = "More than 10 years")).
Proof.
  unfold RobotaUa.unpack_search_options.
  destruct (RobotaUa_region_id_Ok scorer threshold self params) as [rid ->].
  cbn [mbind result_bind].
  destruct (so_experience params) as [labels|];
    [|intros [= <-]; left; now split].
  cbn [mbind result_bind].
  destruct (RobotaUa.EXPERIENCE_OPTIONS self) as [options|] eqn:Hopt.
  - rewrite (RobotaUa_experience_ids self options labels Hopt).
    cbn [mbind result_bind].
    destruct (bool_decide ("More than 5 years" ∈ labels)) eqn:Hin;
      [|discriminate].
    apply bool_decide_eq_true, list_elem_of_In in Hin.
    unfold RobotaUa.experience_option, RobotaUa.experience_options.
    rewrite Hopt. cbn [mbind result_bind].
    destruct (options !! "5 to 10 years") as [k1|] eqn:Hk1.
    + cbn [mbind result_bind].
      destruct (options !! "More than 10 years") as [k2|] eqn:Hk2;
        [discriminate|].
      intros [= <-]. right. right.
      exists options, labels, "More than 10 years". now repeat split; auto.
    + intros [= <-]. right. right.
      exists options, labels, "5 to 10 years". now repeat split; auto.
  - destruct labels as [|label labels].
    + cbn. discriminate.
    + cbn [RobotaUa.experience_ids]. unfold RobotaUa.experience_options.
      rewrite Hopt. cbn [mbind result_bind]. intros [= <-].
      right. left. repeat split. now exists label, labels.
Qed.

(** What is left of [search_resumes] after the second answer sends no
    request. *)
Lemma search_resumes_requests (params : SearchOptions)
  (payload : gmap string pyval) (first : response) (data total : pyval)
  (w : world) :
  unpack_search_options params = Ok payload ->
  net (PostResumes payload) = Ok first ->
  json first = Some data ->
  subscript data "total" = Ok total ->
  trace (snd (search_resumes params w))
  = trace w ++ [PostResumes payload;
                PostResumes (<["count" := total]> payload)].
Proof.
  intros Hpayload Hfirst Hjson Htotal.
  unfold RobotaUa.search_resumes.
  unfold mbind at 1, M_bind at 1, lift at 1. rewrite Hpayload.
  unfold mbind at 1, M_bind at 1, send at 1. rewrite Hfirst.
  unfold mbind at 1, M_bind at 1, lift at 1, response_json at 1.
  rewrite Hjson.
  unfold mbind at 1, M_bind at 1, lift at 1. rewrite Htotal.
  unfold mbind at 1, M_bind at 1, logger_info at 1.
  unfold mbind at 1, M_bind at 1, send at 1. cbn [trace log].
  rewrite <- app_assoc. cbn [app].
  destruct (net (PostResumes (<["count" := total]> payload)))
    as [second|e]; [|reflexivity].
  unfold mbind, M_bind, lift, logger_info, mret, M_ret.
  destruct (status_code second =? 200).
  - destruct (response_json second) as [d|]; [|reflexivity].
    destruct (subscript d "documents") as [docs|]; [|reflexivity].
    destruct (iterate docs) as [items|]; [|reflexivity].
    now destruct (map_result _ items).
  - cbn [trace log]. now destruct (raise_for_status second) as [[]|].
Qed.

(** The search sends exactly two requests once the first answer tells a
    total, whatever the second answer is: the payload, and the payload
    again with the total it was told as ["count"]. *)
Theorem RobotaUa_two_queries (params : SearchOptions)
  (payload : gmap string pyval) (first : response) (data total : pyval) :
  unpack_search_options params = Ok payload ->
  net (PostResumes payload) = Ok first ->
  json first = Some data ->
  subscript data "total" = Ok total ->
  trace (snd (search_resumes params world0))
  = [PostResumes payload; PostResumes (<["count" := total]> payload)].
Proof.
  intros Hpayload Hfirst Hjson Htotal.
  now rewrite (search_resumes_requests params payload first data total world0).
Qed.



End RobotaUaMore.

Lemma RobotaUa_unpack_errors_witness :
  (AttributeError = TypeError /\ so_experience params_example = None)
  \/ (AttributeError = AttributeError
      /\ RobotaUa.EXPERIENCE_OPTIONS robota_no_options = None
      /\ exists label labels,
          so_experience params_example = Some (label :: labels))
  \/ (exists options labels k,
        AttributeError = KeyError k
        /\ RobotaUa.EXPERIENCE_OPTIONS robota_no_options = Some options
        /\ so_experience params_example = Some labels
        /\ In "More than 5 years" labels
        /\ options !! k = None
        /\ (k = "5 to 10 years" \/ k = "More than 10 years")).
Proof.
  apply (RobotaUa_unpack_errors token_sort_ratio 70 robota_no_options
           params_example AttributeError).
  reflexivity.
Defined.

Lemma RobotaUa_two_queries_witness :
  exists payload,
    RobotaUa.unpack_search_options token_sort_ratio 70 robota_example
      params_no_experience = Ok payload
    /\ trace (snd (RobotaUa.search_resumes token_sort_ratio 70
                     net_500_then_200 (fun s => s) py_str_example
                     robota_example params_no_experience world0))
       = [PostResumes payload; PostResumes (<["count" := PInt 1]> payload)].
Proof.
  eexists. split; [reflexivity|].
  apply (RobotaUa_two_queries token_sort_ratio 70 net_500_then_200
           (fun s => s) py_str_example robota_example params_no_experience
           _ (mkResponse 500 "" (Some (PDict [("total", PInt 1)])))
           (PDict [("total", PInt 1)]) (PInt 1));
    reflexivity.
Defined.


Lemma login_status_not_200_witness :
  RobotaUa.login net_login_201 world0
  = (Raise (Exception "Failed to login to Robota.ua"),
     mkWorld [PostLogin] [])
  /\ fst (RobotaUa.init net_login_201 (fun w => (Ok [], w))
            (fun w => (Ok None, w)) world0)
     = Raise (Exception "Failed to login to Robota.ua").
Proof.
  apply (login_status_not_200 net_login_201 (fun w => (Ok [], w))
           (fun w => (Ok None, w))
           (mkResponse 201 "" (Some (PStr "token"))) world0).
  - reflexivity.
  - discriminate.
Defined.

Lemma second_query_error_status_witness :
  fst (RobotaUa.search_resumes token_sort_ratio 70 net_200_then_503
         (fun s => s) py_str_example robota_example params_no_experience
         world0)
  = Raise HTTPError.
Proof.
  eapply (second_query_error_status token_sort_ratio 70 net_200_then_503
            (fun s => s) py_str_example robota_example params_no_experience
            _ (mkResponse 200 "" (Some (PDict [("total", PInt 1)])))
            (mkResponse 503 "Service Unavailable" None)
            (PDict [("total", PInt 1)]) (PInt 1) world0);
    try reflexivity.
  cbn. lia.
Defined.

(** ** The dialogue: what a handler may change *)

Lemma own_chat_kept_refl (K : list string) (o : option TelegramBot.chat) :
  own_chat_kept K o o.
Proof. destruct o as [ch|]; [|reflexivity]. exists ch. now repeat split. Qed.

Lemma changes_refl (c : Z) (K : list string) (b : TelegramBot.bot) :
  changes c K b b.
Proof. split; [reflexivity|apply own_chat_kept_refl]. Qed.

Lemma changes_trans (c : Z) (K : list string) (b1 b2 b3 : TelegramBot.bot) :
  changes c K b1 b2 -> changes c K b2 b3 -> changes c K b1 b3.
Proof.
  intros [Ho12 Hc12] [Ho23 Hc23]. split.
  - intros id Hid. now rewrite Ho23, Ho12.
  - unfold own_chat_kept in *.
    destruct (TelegramBot.user_data b1 !! c) as [ch|].
    + destruct Hc12 as (ch' & E & Hsame & Hkeys). rewrite E in Hc23.
      destruct Hc23 as (ch'' & E' & Hsame' & Hkeys').
      exists ch''. split; [exact E'|]. split.
      * intros k Hk. now rewrite Hsame', Hsame.
      * intros k Hk. now apply Hkeys', Hkeys.
    + now rewrite Hc12 in Hc23.
Qed.

Section Frames.
Variable c : Z.
Variable K : list string.

Lemma frames_ret {A : Type} (a : A) : frames c K (mret a : TelegramBot.B A).
Proof. intros b. apply changes_refl. Qed.

Lemma frames_raise {A : Type} (e : exn) :
  frames c K (TelegramBot.raise e : TelegramBot.B A).
Proof. intros b. apply changes_refl. Qed.

Lemma frames_lift {A : Type} (r : result A) : frames c K (TelegramBot.lift r).
Proof. intros b. apply changes_refl. Qed.

Lemma frames_send (o : TelegramBot.outgoing) : frames c K (TelegramBot.send o).
Proof. intros b. split; cbn; [reflexivity|apply own_chat_kept_refl]. Qed.

Lemma frames_get_chat : frames c K (TelegramBot.get_chat c).
Proof.
  intros b. unfold TelegramBot.get_chat.
  destruct (TelegramBot.user_data b !! c); apply changes_refl.
Qed.

Lemma frames_bind {A B : Type} (m : TelegramBot.B A)
  (f : A -> TelegramBot.B B) :
  frames c K m -> (forall a, frames c K (f a)) -> frames c K (m ≫= f).
Proof.
  intros Hm Hf b. unfold mbind, TelegramBot.B_bind.
  specialize (Hm b). destruct (m b) as [[a|e] b1]; [|exact Hm].
  eapply changes_trans; [exact Hm|apply Hf].
Qed.

Lemma frames_put_options (st : UserState) (k : string) (v : pyval)
  (b : TelegramBot.bot) (ch : TelegramBot.chat) :
  TelegramBot.user_data b !! c = Some ch ->
  (In k K \/ TelegramBot.search_options ch !! k = Some v) ->
  changes c K b
    (snd (TelegramBot.put_chat c
            (TelegramBot.mkChat st (<[k := v]> (TelegramBot.search_options ch)))
            b)).
Proof.
  intros Hch Hk. split; cbn.
  - intros id Hid. now rewrite lookup_insert_ne.
  - rewrite Hch, lookup_insert_eq. eexists. split; [reflexivity|]. cbn.
    split.
    + intros k' Hk'. destruct (decide (k = k')) as [<-|Hne].
      * destruct Hk as [Hk|Hk]; [contradiction|].
        now rewrite lookup_insert_eq.
      * now rewrite lookup_insert_ne.
    + intros k' Hk'. destruct (decide (k = k')) as [<-|Hne].
      * rewrite lookup_insert_eq. eauto.
      * now rewrite lookup_insert_ne.
Qed.

Lemma frames_set_state (st : UserState) :
  frames c K (TelegramBot.set_state c st).
Proof.
  intros b. unfold TelegramBot.set_state, mbind, TelegramBot.B_bind,
    TelegramBot.get_chat.
  destruct (TelegramBot.user_data b !! c) as [ch|] eqn:Hch;
    [|apply changes_refl].
  split; cbn.
  - intros id Hid. now rewrite lookup_insert_ne.
  - rewrite Hch, lookup_insert_eq. eexists. split; [reflexivity|].
    now split.
Qed.

Lemma frames_set_option (k : string) (v : pyval) :
  In k K -> frames c K (TelegramBot.set_option c k v).
Proof.
  intros Hk b. unfold TelegramBot.set_option, mbind, TelegramBot.B_bind,
    TelegramBot.get_chat.
  destruct (TelegramBot.user_data b !! c) as [ch|] eqn:Hch;
    [|apply changes_refl].
  apply frames_put_options; [exact Hch|now left].
Qed.
End Frames.

Ltac frames_step :=
  first
    [ apply frames_set_state
    | apply frames_set_option; simpl; tauto
    | apply frames_get_chat
    | apply frames_send
    | apply frames_lift
    | apply frames_raise
    | apply frames_ret
    | apply frames_bind; [|intros ?]
    | match goal with
      | |- frames _ _ (if ?x then _ else _) => destruct x
      | |- frames _ _ (match ?x with _ => _ end) => destruct x
      end ].

Section DialogueFrames.
Variable SALARY_FROM_OPTIONS : option (list (string * pyval)).
Variable SALARY_TO_OPTIONS : option (list (string * pyval)).
Variable EXPERIENCE_OPTIONS : option (list (string * string)).
Variable py_str : pyval -> string.
Variable py_int : string -> result Z.
Variable work_ua_search : SearchOptions -> result (list Resume).
Variable robota_ua_search : SearchOptions -> result (option (list Resume)).

Local Abbreviation handle :=
  (TelegramBot.handle SALARY_FROM_OPTIONS SALARY_TO_OPTIONS EXPERIENCE_OPTIONS
     py_str py_int work_ua_search robota_ua_search).
Local Abbreviation step :=
  (TelegramBot.step SALARY_FROM_OPTIONS SALARY_TO_OPTIONS EXPERIENCE_OPTIONS
     py_str py_int work_ua_search robota_ua_search).
Local Abbreviation run :=
  (TelegramBot.run SALARY_FROM_OPTIONS SALARY_TO_OPTIONS EXPERIENCE_OPTIONS
     py_str py_int work_ua_search robota_ua_search).

Lemma frames_set_parameter (c : Z) (text : string) :
  frames c [] (TelegramBot.set_parameter c text).
Proof. unfold TelegramBot.set_parameter. repeat frames_step. Qed.

Lemma frames_accept_parameter (c : Z) (text : string) :
  frames c ["search"; "region"] (TelegramBot.accept_parameter c text).
Proof.
  intros b. unfold TelegramBot.accept_parameter.
  destruct (TelegramBot.user_data b !! c) as [ch|].
  - revert b. change (frames c ["search"; "region"]
                        (_ ← match TelegramBot.state ch with
                             | FREE =>
                                 TelegramBot.send
                                   (TelegramBot.send_message c
                                      TelegramBot.not_choosing None)
                             | ASKING_KEYWORDS =>
                                 _ ← TelegramBot.set_option c "search"
                                       (PStr text);
                                 TelegramBot.send
                                   (TelegramBot.send_message c
                                      ("Search query set to: " +:+ text) None)
                             | ASKING_REGION =>
                                 _ ← TelegramBot.set_option c "region"
                                       (PStr text);
                                 TelegramBot.send
                                   (TelegramBot.send_message c
                                      ("Region set to: " +:+ text) None)
                             | _ => mret tt
                             end;
                         TelegramBot.set_state c FREE)).
    repeat frames_step.
  - apply frames_send.
Qed.

Lemma frames_experience (c : Z) :
  frames c [] (TelegramBot.experience EXPERIENCE_OPTIONS c).
Proof. unfold TelegramBot.experience. repeat frames_step. Qed.

Lemma frames_experience_callback (c : Z) (action : string) :
  frames c ["experience"]
    (TelegramBot.experience_callback EXPERIENCE_OPTIONS c action).
Proof.
  unfold TelegramBot.experience_callback. cbv zeta. repeat frames_step.
Qed.

Lemma frames_salary (c : Z) :
  frames c [] (TelegramBot.salary SALARY_FROM_OPTIONS py_str c).
Proof. unfold TelegramBot.salary. repeat frames_step. Qed.

Lemma frames_salary_callback (c : Z) (data : string) :
  frames c ["salary_from"; "salary_to"]
    (TelegramBot.salary_callback SALARY_TO_OPTIONS py_str py_int c data).
Proof. unfold TelegramBot.salary_callback. repeat frames_step. Qed.

Lemma frames_search_resumes (c : Z) :
  frames c []
    (TelegramBot.search_resumes work_ua_search robota_ua_search c).
Proof. unfold TelegramBot.search_resumes. repeat frames_step. Qed.

Lemma handle_changes (u : TelegramBot.update) (b : TelegramBot.bot) :
  (forall id, id <> chat_of u ->
     TelegramBot.user_data (step b u) !! id = TelegramBot.user_data b !! id)
  /\ match u with
     | TelegramBot.Start c =>
         TelegramBot.user_data (step b u) !! c
         = Some (TelegramBot.mkChat FREE (TelegramBot.fresh_options (PInt 0)))
     | TelegramBot.Clear c =>
         TelegramBot.user_data (step b u) !! c
         = Some (TelegramBot.mkChat FREE
                   (TelegramBot.fresh_options (PStr "")))
     | TelegramBot.Stop c => TelegramBot.user_data (step b u) !! c = None
     | _ =>
         own_chat_kept (touched u) (TelegramBot.user_data b !! chat_of u)
           (TelegramBot.user_data (step b u) !! chat_of u)
     end.
Proof.
  destruct u as [c|c|c|c text|c text|c|c data|c|c data|c];
    unfold TelegramBot.step; cbn [TelegramBot.handle chat_of touched].
  - unfold TelegramBot.start, TelegramBot.put_chat, TelegramBot.send, mbind,
      TelegramBot.B_bind.
    cbn [snd TelegramBot.user_data].
    split; [intros id Hid; now rewrite lookup_insert_ne|apply lookup_insert_eq].
  - unfold TelegramBot.stop, TelegramBot.send, mbind, TelegramBot.B_bind.
    cbn [snd TelegramBot.user_data].
    split; [intros id Hid; now rewrite lookup_delete_ne|apply lookup_delete_eq].
  - unfold TelegramBot.clear, TelegramBot.put_chat, TelegramBot.send, mbind,
      TelegramBot.B_bind.
    cbn [snd TelegramBot.user_data].
    split; [intros id Hid; now rewrite lookup_insert_ne|apply lookup_insert_eq].
  - apply frames_set_parameter.
  - apply frames_accept_parameter.
  - apply frames_experience.
  - apply frames_experience_callback.
  - apply frames_salary.
  - apply frames_salary_callback.
  - apply frames_search_resumes.
Qed.

(** Whatever the state, an update changes the data of its own chat
    only.  [/start] and [/clear] put the fresh search options there and
    [/stop] removes the chat; any other update creates no chat, removes
    no option, and writes no other options than its own: the keywords
    and the region for a text message, the experience for a press on the
    experience keyboard, the two bounds for a press on a salary
    keyboard. *)
Theorem handler_frame (u : TelegramBot.update) (b : TelegramBot.bot) :
  (forall id, id <> chat_of u ->
     TelegramBot.user_data (step b u) !! id = TelegramBot.user_data b !! id)
  /\ match u with
     | TelegramBot.Start c =>
         TelegramBot.user_data (step b u) !! c
         = Some (TelegramBot.mkChat FREE (TelegramBot.fresh_options (PInt 0)))
     | TelegramBot.Clear c =>
         TelegramBot.user_data (step b u) !! c
         = Some (TelegramBot.mkChat FREE
                   (TelegramBot.fresh_options (PStr "")))
     | TelegramBot.Stop c => TelegramBot.user_data (step b u) !! c = None
     | _ =>
         own_chat_kept (touched u) (TelegramBot.user_data b !! chat_of u)
           (TelegramBot.user_data (step b u) !! chat_of u)
     end.
Proof. exact (handle_changes u b). Qed.

(** All five search options stay once they are there. *)
Lemma chats_complete_step (u : TelegramBot.update) (b : TelegramBot.bot) :
  chats_complete b -> chats_complete (step b u).
Proof.
  intros Hall id ch Hid.
  destruct (handle_changes u b) as [Hother Hown].
  destruct (decide (id = chat_of u)) as [->|Hne];
    [|rewrite Hother in Hid by exact Hne; now apply (Hall id)].
  assert (Hfresh : forall v,
             Forall (fun k => is_Some (TelegramBot.fresh_options v !! k))
               option_keys).
  { intros v. repeat constructor; eexists; reflexivity. }
  assert (Hkept : forall K,
             own_chat_kept K (TelegramBot.user_data b !! chat_of u)
               (TelegramBot.user_data (step b u) !! chat_of u) ->
             Forall (fun k => is_Some (TelegramBot.search_options ch !! k))
               option_keys).
  { intros K Hk. unfold own_chat_kept in Hk.
    destruct (TelegramBot.user_data b !! chat_of u) as [ch0|] eqn:E;
      [|rewrite Hid in Hk; discriminate].
    destruct Hk as (ch' & E' & _ & Hkeys). rewrite Hid in E'.
    injection E' as <-.
    eapply Forall_impl; [exact (Hall _ _ E)|]. intros k. apply Hkeys. }
  destruct u; cbn [chat_of] in *;
    try (now apply (Hkept _ Hown));
    rewrite Hid in Hown.
  - injection Hown as ->. apply Hfresh.
  - discriminate.
  - injection Hown as ->. apply Hfresh.
Qed.

End DialogueFrames.

(** ** The dialogue: what is never sent, and what is never accepted *)

Lemma sends_refl (b : TelegramBot.bot) : sends_no_keywords_request b b.
Proof. exists []. split; [now rewrite app_nil_r|constructor]. Qed.

Lemma sends_trans (b1 b2 b3 : TelegramBot.bot) :
  sends_no_keywords_request b1 b2 -> sends_no_keywords_request b2 b3 ->
  sends_no_keywords_request b1 b3.
Proof.
  intros (s1 & E1 & H1) (s2 & E2 & H2). exists (s1 ++ s2). split.
  - now rewrite E2, E1, app_assoc.
  - now apply Forall_app.
Qed.

Lemma quiet_ret {A : Type} (a : A) : quiet (mret a : TelegramBot.B A).
Proof. intros b. apply sends_refl. Qed.

Lemma quiet_raise {A : Type} (e : exn) :
  quiet (TelegramBot.raise e : TelegramBot.B A).
Proof. intros b. apply sends_refl. Qed.

Lemma quiet_lift {A : Type} (r : result A) : quiet (TelegramBot.lift r).
Proof. intros b. apply sends_refl. Qed.

Lemma quiet_send (o : TelegramBot.outgoing) :
  is_keywords_request o = false -> quiet (TelegramBot.send o).
Proof. intros Ho b. exists [o]. split; [reflexivity|now constructor]. Qed.

Lemma quiet_get_chat (c : Z) : quiet (TelegramBot.get_chat c).
Proof.
  intros b. unfold TelegramBot.get_chat.
  destruct (TelegramBot.user_data b !! c); apply sends_refl.
Qed.

Lemma quiet_put_chat (c : Z) (ch : TelegramBot.chat) :
  quiet (TelegramBot.put_chat c ch).
Proof. intros b. exists []. split; [cbn; now rewrite app_nil_r|constructor]. Qed.

Lemma quiet_bind {A B : Type} (m : TelegramBot.B A)
  (f : A -> TelegramBot.B B) :
  quiet m -> (forall a, quiet (f a)) -> quiet (m ≫= f).
Proof.
  intros Hm Hf b. unfold mbind, TelegramBot.B_bind.
  specialize (Hm b). destruct (m b) as [[a|e] b1]; [|exact Hm].
  eapply sends_trans; [exact Hm|apply Hf].
Qed.

Lemma quiet_set_state (c : Z) (st : UserState) :
  quiet (TelegramBot.set_state c st).
Proof.
  apply quiet_bind; [apply quiet_get_chat|intros ch; apply quiet_put_chat].
Qed.

Lemma quiet_set_option (c : Z) (k : string) (v : pyval) :
  quiet (TelegramBot.set_option c k v).
Proof.
  apply quiet_bind; [apply quiet_get_chat|intros ch; apply quiet_put_chat].
Qed.

Ltac as_quiet :=
  match goal with
  | |- forall b, sends_no_keywords_request b (snd (?m b)) => change (quiet m)
  end.

Ltac quiet_step :=
  first
    [ apply quiet_set_state
    | apply quiet_set_option
    | apply quiet_get_chat
    | apply quiet_put_chat
    | apply quiet_send; reflexivity
    | apply quiet_lift
    | apply quiet_raise
    | apply quiet_ret
    | apply quiet_bind; [|intros ?]
    | match goal with
      | |- quiet (if ?x then _ else _) => destruct x
      | |- quiet (match ?x with _ => _ end) => destruct x
      end ].

Lemma SearchOptions_salary_from_empty (kwargs : gmap string pyval) :
  kwargs !! "salary_from" = Some (PStr "") ->
  SearchOptions_of_kwargs kwargs = Raise ValidationError.
Proof.
  intros H. unfold SearchOptions_of_kwargs. rewrite H.
  destruct (kwargs !! "search") as [[]|]; try reflexivity.
  destruct (kwargs !! "region") as [[]|]; reflexivity.
Qed.

Section Dialogue.
Variable SALARY_FROM_OPTIONS : option (list (string * pyval)).
Variable SALARY_TO_OPTIONS : option (list (string * pyval)).
Variable EXPERIENCE_OPTIONS : option (list (string * string)).
Variable py_str : pyval -> string.
Variable py_int : string -> result Z.
Variable work_ua_search : SearchOptions -> result (list Resume).
Variable robota_ua_search : SearchOptions -> result (option (list Resume)).

Local Abbreviation handle :=
  (TelegramBot.handle SALARY_FROM_OPTIONS SALARY_TO_OPTIONS EXPERIENCE_OPTIONS
     py_str py_int work_ua_search robota_ua_search).
Local Abbreviation step :=
  (TelegramBot.step SALARY_FROM_OPTIONS SALARY_TO_OPTIONS EXPERIENCE_OPTIONS
     py_str py_int work_ua_search robota_ua_search).
Local Abbreviation run :=
  (TelegramBot.run SALARY_FROM_OPTIONS SALARY_TO_OPTIONS EXPERIENCE_OPTIONS
     py_str py_int work_ua_search robota_ua_search).
Local Abbreviation search_resumes :=
  (TelegramBot.search_resumes work_ua_search robota_ua_search).

Lemma quiet_accept_parameter (c : Z) (text : string) :
  quiet (TelegramBot.accept_parameter c text).
Proof.
  intros b. unfold TelegramBot.accept_parameter.
  destruct (TelegramBot.user_data b !! c) as [ch|].
  - revert b. change (quiet
                        (_ ← match TelegramBot.state ch with
                             | FREE =>
                                 TelegramBot.send
                                   (TelegramBot.send_message c
                                      TelegramBot.not_choosing None)
                             | ASKING_KEYWORDS =>
                                 _ ← TelegramBot.set_option c "search"
                                       (PStr text);
                                 TelegramBot.send
                                   (TelegramBot.send_message c
                                      ("Search query set to: " +:+ text) None)
                             | ASKING_REGION =>
                                 _ ← TelegramBot.set_option c "region"
                                       (PStr text);
                                 TelegramBot.send
                                   (TelegramBot.send_message c
                                      ("Region set to: " +:+ text) None)
                             | _ => mret tt
                             end;
                         TelegramBot.set_state c FREE)).
    repeat quiet_step.
  - now apply quiet_send.
Qed.

(** With the keywords among the options of every chat, no handler sends
    the request for keywords. *)
Lemma handle_quiet (u : TelegramBot.update) (b : TelegramBot.bot) :
  chats_complete b -> sends_no_keywords_request b (step b u).
Proof.
  intros Hall. unfold TelegramBot.step.
  destruct u as [c|c|c|c text|c text|c|c data|c|c data|c];
    cbn [TelegramBot.handle].
  - unfold TelegramBot.start. clear Hall. revert b. as_quiet.
    repeat quiet_step.
  - unfold TelegramBot.stop. clear Hall. revert b. as_quiet.
    apply quiet_bind; [|intros ?; now apply quiet_send].
    intros b. exists []. split; [cbn; now rewrite app_nil_r|constructor].
  - unfold TelegramBot.clear. clear Hall. revert b. as_quiet.
    repeat quiet_step.
  - unfold TelegramBot.set_parameter. clear Hall. revert b. as_quiet.
    repeat quiet_step.
  - apply quiet_accept_parameter.
  - unfold TelegramBot.experience. clear Hall. revert b. as_quiet.
    repeat quiet_step.
  - unfold TelegramBot.experience_callback. cbv zeta.
    clear Hall. revert b. as_quiet. repeat quiet_step.
  - unfold TelegramBot.salary. clear Hall. revert b. as_quiet.
    repeat quiet_step.
  - unfold TelegramBot.salary_callback. clear Hall. revert b. as_quiet.
    repeat quiet_step.
  - unfold TelegramBot.search_resumes, mbind, TelegramBot.B_bind,
      TelegramBot.get_chat.
    destruct (TelegramBot.user_data b !! c) as [ch|] eqn:Hch;
      [|apply sends_refl].
    pose proof (Hall c ch Hch) as Hkeys.
    apply Forall_cons in Hkeys as [[v Hsearch] _]. rewrite Hsearch.
    unfold TelegramBot.lift, TelegramBot.raise, TelegramBot.send.
    destruct (SearchOptions_of_kwargs _) as [params|]; [|apply sends_refl].
    destruct (work_ua_search params) as [work|]; [|apply sends_refl].
    destruct (robota_ua_search params) as [[robota|]|]; try apply sends_refl.
    cbn [snd]. eexists [_]. split; [reflexivity|]. now constructor.
Qed.

(** However the dialogue goes, every chat keeps all five search
    options, and the bot never sends "Please provide at least
    keywords.": the key ["search"] that [search_resumes] tests for is
    there from [/start] on. *)
Theorem keywords_request_never_sent (updates : list TelegramBot.update) :
  chats_complete (run updates TelegramBot.bot0)
  /\ Forall (fun o => is_keywords_request o = false)
       (TelegramBot.outbox (run updates TelegramBot.bot0)).
Proof.
  assert (Hrun : forall updates b,
             chats_complete b
             /\ Forall (fun o => is_keywords_request o = false)
                  (TelegramBot.outbox b) ->
             chats_complete (run updates b)
             /\ Forall (fun o => is_keywords_request o = false)
                  (TelegramBot.outbox (run updates b))).
  { clear updates. induction updates as [|u updates IH]; intros b [Hc Ho];
      [now split|].
    cbn [TelegramBot.run fold_left]. apply IH. split.
    - now apply (chats_complete_step SALARY_FROM_OPTIONS SALARY_TO_OPTIONS
                   EXPERIENCE_OPTIONS py_str py_int work_ua_search
                   robota_ua_search).
    - destruct (handle_quiet u b Hc) as (sent & -> & Hsent).
      now apply Forall_app. }
  apply Hrun. split; [|constructor].
  intros id ch H. cbn in H. now rewrite lookup_empty in H.
Qed.

(** The salary bounds that [/clear] stores are empty strings, which
    [SearchOptions] refuses: after [/clear], as long as no salary
    keyboard is pressed in the chat and the chat is neither started
    anew nor stopped, [/search] fails with a [ValidationError],
    whatever else is set in between. *)
Theorem search_after_clear_fails (b : TelegramBot.bot) (c : Z)
  (updates : list TelegramBot.update) :
  Forall (keeps_salary c) updates ->
  fst (search_resumes c (run updates (step b (TelegramBot.Clear c))))
  = Raise ValidationError.
Proof.
  intros Hkeeps.
  set (J := fun b : TelegramBot.bot =>
              exists ch,
                TelegramBot.user_data b !! c = Some ch
                /\ is_Some (TelegramBot.search_options ch !! "search")
                /\ TelegramBot.search_options ch !! "salary_from"
                   = Some (PStr "")).
  assert (Hfresh : forall st,
             TelegramBot.user_data st !! c
             = Some (TelegramBot.mkChat FREE
                       (TelegramBot.fresh_options (PStr ""))) -> J st).
  { intros st H. eexists. split; [exact H|]. split; [|reflexivity].
    eexists. reflexivity. }
  assert (Hstep : forall u st, keeps_salary c u -> J st -> J (step st u)).
  { intros u st Hu (ch & Hch & Hsearch & Hfrom).
    destruct (handle_changes SALARY_FROM_OPTIONS SALARY_TO_OPTIONS
                EXPERIENCE_OPTIONS py_str py_int work_ua_search
                robota_ua_search u st) as [Hother Hown].
    destruct (decide (c = chat_of u)) as [->|Hne].
    - assert (Hkept : ~ In "salary_from" (touched u) ->
                own_chat_kept (touched u)
                  (TelegramBot.user_data st !! chat_of u)
                  (TelegramBot.user_data (step st u) !! chat_of u) ->
                J (step st u)).
      { intros Hnot Hk. unfold own_chat_kept in Hk. rewrite Hch in Hk.
        destruct Hk as (ch' & E & Hsame & Hkeys).
        exists ch'. split; [exact E|]. split; [now apply Hkeys|].
        now rewrite Hsame. }
      destruct u; cbn [chat_of keeps_salary touched] in *;
        try contradiction;
        try (apply Hkept; [cbn; intuition discriminate|exact Hown]).
      now apply Hfresh.
    - exists ch. rewrite Hother by exact Hne. now split. }
  assert (Hrun : forall updates st,
             Forall (keeps_salary c) updates -> J st -> J (run updates st)).
  { clear Hkeeps updates. induction updates as [|u updates IH];
      intros st Hall Hst; [exact Hst|].
    apply Forall_cons in Hall as [Hu Hall].
    cbn [TelegramBot.run fold_left]. apply IH; [exact Hall|].
    now apply Hstep. }
  assert (HJ : J (run updates (step b (TelegramBot.Clear c)))).
  { apply Hrun; [exact Hkeeps|]. apply Hfresh.
    apply (handle_changes SALARY_FROM_OPTIONS SALARY_TO_OPTIONS
             EXPERIENCE_OPTIONS py_str py_int work_ua_search
             robota_ua_search (TelegramBot.Clear c) b). }
  destruct HJ as (ch & Hch & [v Hsearch] & Hfrom).
  unfold TelegramBot.search_resumes, mbind, TelegramBot.B_bind,
    TelegramBot.get_chat.
  rewrite Hch, Hsearch. unfold TelegramBot.lift.
  now rewrite (SearchOptions_salary_from_empty _ Hfrom).
Qed.

(** A text message is always accepted: the handler never raises.  For a
    chat that has started it stores the text as the keywords or as the
    region when it was asked for one of them, drops it otherwise, and
    in each case ends the question; for a chat that has not started it
    only points to [/start]. *)
Theorem accept_parameter_total (c : Z) (text : string) (b : TelegramBot.bot) :
  fst (TelegramBot.accept_parameter c text b) = Ok tt
  /\ match TelegramBot.user_data b !! c with
     | None =>
         snd (TelegramBot.accept_parameter c text b)
         = TelegramBot.mkBot (TelegramBot.user_data b)
             (TelegramBot.outbox b
              ++ [TelegramBot.send_message c
                    "Please type /start to make a request." None])
     | Some ch =>
         TelegramBot.user_data (snd (TelegramBot.accept_parameter c text b))
         = <[c := TelegramBot.mkChat FREE
                    match TelegramBot.state ch with
                    | ASKING_KEYWORDS =>
                        <["search" := PStr text]>
                          (TelegramBot.search_options ch)
                    | ASKING_REGION =>
                        <["region" := PStr text]>
                          (TelegramBot.search_options ch)
                    | _ => TelegramBot.search_options ch
                    end]> (TelegramBot.user_data b)
     end.
Proof.
  unfold TelegramBot.accept_parameter.
  destruct (TelegramBot.user_data b !! c) as [ch|] eqn:Hch;
    [|now split].
  unfold TelegramBot.set_option, TelegramBot.set_state, TelegramBot.get_chat,
    TelegramBot.put_chat, TelegramBot.send, mbind, TelegramBot.B_bind, mret,
    TelegramBot.B_ret.
  destruct (TelegramBot.state ch); cbn;
    rewrite ?Hch; cbn; rewrite ?lookup_insert_eq; cbn;
    rewrite ?Hch; cbn; rewrite ?insert_insert_eq; now split.
Qed.

(** A chat that has not sent [/start] has no data: the commands and
    the presses on the keyboards raise [KeyError] for it and leave the
    chats as they are. *)
Theorem unknown_chat_raises (u : TelegramBot.update) (b : TelegramBot.bot) :
  needs_chat u = true ->
  TelegramBot.user_data b !! chat_of u = None ->
  fst (handle u b) = Raise (KeyError (pretty (chat_of u)))
  /\ TelegramBot.user_data (step b u) = TelegramBot.user_data b.
Proof.
  intros Hneeds Hnone. unfold TelegramBot.step.
  destruct u as [c|c|c|c text|c text|c|c data|c|c data|c];
    try discriminate; cbn [TelegramBot.handle chat_of needs_chat] in *.
  - unfold TelegramBot.set_parameter.
    destruct (String.prefix "/keywords" text);
      [|destruct (String.prefix "/region" text); [|discriminate]];
      unfold TelegramBot.set_state, TelegramBot.get_chat, TelegramBot.send,
        mbind, TelegramBot.B_bind;
      cbn [fst snd TelegramBot.user_data]; rewrite Hnone; now split.
  - unfold TelegramBot.experience, TelegramBot.get_chat, mbind,
      TelegramBot.B_bind. rewrite Hnone. now split.
  - unfold TelegramBot.experience_callback, TelegramBot.get_chat,
      TelegramBot.send, mbind, TelegramBot.B_bind.
    cbn [fst snd TelegramBot.user_data]. rewrite Hnone. now split.
  - unfold TelegramBot.salary, TelegramBot.set_state, TelegramBot.get_chat,
      mbind, TelegramBot.B_bind. rewrite Hnone. now split.
  - unfold TelegramBot.search_resumes, TelegramBot.get_chat, mbind,
      TelegramBot.B_bind. rewrite Hnone. now split.
Qed.

Ltac bot_red :=
  repeat (progress
            (cbv beta iota zeta;
             cbn [default from_option id fst snd TelegramBot.user_data
                    TelegramBot.outbox TelegramBot.state
                    TelegramBot.search_options])).

Lemma list_remove_app_last (x : string) (items : list pyval) :
  existsb (is_str x) items = false ->
  list_remove x (items ++ [PStr x]) = items.
Proof.
  induction items as [|v items IH]; cbn [existsb app list_remove is_str].
  - intros _. now rewrite String.eqb_refl.
  - intros H. apply orb_false_iff in H as [Hv Hitems].
    rewrite Hv. now rewrite IH.
Qed.

Lemma toggle_twice (x : string) (items : list pyval) :
  existsb (is_str x) items = false -> toggle x (toggle x items) = items.
Proof.
  intros H. unfold toggle at 2. rewrite H. unfold toggle.
  rewrite existsb_app, H. cbn [existsb is_str orb].
  rewrite String.eqb_refl. cbn [orb]. now apply list_remove_app_last.
Qed.

(** What a press on a label of the experience keyboard stores, whether
    or not the answer to it can be written. *)
Lemma experience_callback_toggle (c : Z) (action x : string)
  (mapping : list (string * string)) (ch : TelegramBot.chat)
  (items : list pyval) (b : TelegramBot.bot) :
  String.eqb action "experience_complete" = false ->
  String.eqb action "experience_reset" = false ->
  TelegramBot.get_experience_mapping EXPERIENCE_OPTIONS = Ok mapping ->
  assoc action mapping = Some x ->
  TelegramBot.user_data b !! c = Some ch ->
  TelegramBot.search_options ch !! "experience" = Some (PList items) ->
  TelegramBot.user_data (step b (TelegramBot.ExperienceCallback c action))
  = <[c := TelegramBot.mkChat (TelegramBot.state ch)
             (<["experience" := PList (toggle x items)]>
                (TelegramBot.search_options ch))]> (TelegramBot.user_data b).
Proof.
  intros Hc Hr Hmap Hx Hch Hitems.
  unfold TelegramBot.step. cbn [TelegramBot.handle].
  unfold TelegramBot.experience_callback, TelegramBot.set_option,
    TelegramBot.get_chat, TelegramBot.put_chat, TelegramBot.send,
    TelegramBot.lift, TelegramBot.raise, dict_get_default,
    mbind, TelegramBot.B_bind, mret, TelegramBot.B_ret.
  cbn [fst snd TelegramBot.user_data TelegramBot.outbox].
  rewrite Hch, Hmap, Hc, Hr, Hx, Hitems. bot_red.
  rewrite Hch. bot_red. fold (toggle x items).
  destruct (TelegramBot.selected_text (PList (toggle x items)));
    [|reflexivity].
  destruct (TelegramBot.build_experience_keyboard EXPERIENCE_OPTIONS
              (PList (toggle x items))); reflexivity.
Qed.

(** A press on a label that is not selected selects it, as the last of
    the selection; a second press on it takes it out again and leaves
    the chats exactly as they were before the first. *)
Theorem experience_pressed_twice (c : Z) (action x : string)
  (mapping : list (string * string)) (ch : TelegramBot.chat)
  (items : list pyval) (b : TelegramBot.bot) :
  String.eqb action "experience_complete" = false ->
  String.eqb action "experience_reset" = false ->
  TelegramBot.get_experience_mapping EXPERIENCE_OPTIONS = Ok mapping ->
  assoc action mapping = Some x ->
  TelegramBot.user_data b !! c = Some ch ->
  TelegramBot.search_options ch !! "experience" = Some (PList items) ->
  existsb (is_str x) items = false ->
  TelegramBot.user_data (step b (TelegramBot.ExperienceCallback c action)) !! c
  = Some (TelegramBot.mkChat (TelegramBot.state ch)
            (<["experience" := PList (items ++ [PStr x])]>
               (TelegramBot.search_options ch)))
  /\ TelegramBot.user_data
       (step (step b (TelegramBot.ExperienceCallback c action))
          (TelegramBot.ExperienceCallback c action))
     = TelegramBot.user_data b.
Proof.
  intros Hc Hr Hmap Hx Hch Hitems Hnot.
  pose proof (experience_callback_toggle c action x mapping ch items b
                Hc Hr Hmap Hx Hch Hitems) as H1.
  assert (Ht : toggle x items = items ++ [PStr x])
    by (unfold toggle; now rewrite Hnot).
  split.
  - rewrite H1, lookup_insert_eq, Ht. reflexivity.
  - rewrite (experience_callback_toggle c action x mapping
               (TelegramBot.mkChat (TelegramBot.state ch)
                  (<["experience" := PList (toggle x items)]>
                     (TelegramBot.search_options ch)))
               (toggle x items) _ Hc Hr Hmap Hx).
    + rewrite H1. cbn [TelegramBot.state TelegramBot.search_options].
      rewrite !insert_insert_eq, toggle_twice by exact Hnot.
      rewrite (insert_id (TelegramBot.search_options ch)) by exact Hitems.
      apply insert_id. rewrite Hch. now destruct ch.
    + rewrite H1. apply lookup_insert_eq.
    + apply lookup_insert_eq.
Qed.

(** [experience_reset] empties the stored selection, and the keyboard
    it sends is still the one of the selection before the reset, with
    its ticks. *)
Theorem experience_reset_keeps_ticks (c : Z) (ch : TelegramBot.chat)
  (selected : pyval) (keyboard : list (list TelegramBot.button))
  (b : TelegramBot.bot) :
  TelegramBot.user_data b !! c = Some ch ->
  TelegramBot.search_options ch !! "experience" = Some selected ->
  TelegramBot.build_experience_keyboard EXPERIENCE_OPTIONS selected
  = Ok keyboard ->
  step b (TelegramBot.ExperienceCallback c "experience_reset")
  = TelegramBot.mkBot
      (<[c := TelegramBot.mkChat (TelegramBot.state ch)
                (<["experience" := PList []]>
                   (TelegramBot.search_options ch))]>
         (TelegramBot.user_data b))
      (TelegramBot.outbox b
       ++ [TelegramBot.answer;
           TelegramBot.edit_message_text
             "Experience options have been reset. Please select again."
             (Some keyboard)]).
Proof.
  intros Hch Hsel Hkb.
  assert (Hmap : exists mapping,
             TelegramBot.get_experience_mapping EXPERIENCE_OPTIONS
             = Ok mapping).
  { unfold TelegramBot.build_experience_keyboard in Hkb.
    destruct (TelegramBot.get_experience_mapping EXPERIENCE_OPTIONS);
      [eauto|discriminate]. }
  destruct Hmap as [mapping Hmap].
  unfold TelegramBot.step. cbn [TelegramBot.handle].
  unfold TelegramBot.experience_callback, TelegramBot.set_option,
    TelegramBot.get_chat, TelegramBot.put_chat, TelegramBot.send,
    TelegramBot.lift, dict_get_default,
    mbind, TelegramBot.B_bind, mret, TelegramBot.B_ret.
  cbn [fst snd TelegramBot.user_data TelegramBot.outbox].
  rewrite Hch, Hmap, Hsel. cbn [String.eqb Ascii.eqb Bool.eqb]. bot_red.
  rewrite Hch. bot_red. rewrite Hkb. bot_red.
  now rewrite <- app_assoc.
Qed.

(** When both parsers return, the one message of [/search] counts the
    resumes of both and lists the five best of them; when the second
    parser returns [None], or raises, nothing is sent, whatever the
    first one found. *)
Theorem search_all_or_nothing (c : Z) (ch : TelegramBot.chat)
  (params : SearchOptions) (work : list Resume) (b : TelegramBot.bot) :
  TelegramBot.user_data b !! c = Some ch ->
  SearchOptions_of_kwargs (TelegramBot.search_options ch) = Ok params ->
  work_ua_search params = Ok work ->
  match robota_ua_search params with
  | Ok (Some robota) =>
      search_resumes c b
      = (Ok tt,
         TelegramBot.mkBot (TelegramBot.user_data b)
           (TelegramBot.outbox b
            ++ [TelegramBot.send_message c
                  ("Found " +:+ pretty (length work + length robota)%nat
                   +:+ " resumes" +:+ nl
                   +:+ "You can see top 5 below:" +:+ nl
                   +:+ String.concat nl
                         (map TelegramBot.format_resume
                            (aggregate work robota 5)))
                  None]))
  | Ok None => search_resumes c b = (Raise TypeError, b)
  | Raise e => search_resumes c b = (Raise e, b)
  end.
Proof.
  intros Hch Hparams Hwork.
  assert (Hsearch : is_Some (TelegramBot.search_options ch !! "search")).
  { unfold SearchOptions_of_kwargs in Hparams.
    destruct (TelegramBot.search_options ch !! "search");
      [eauto|discriminate]. }
  destruct Hsearch as [v Hsearch].
  unfold TelegramBot.search_resumes, TelegramBot.get_chat, TelegramBot.lift,
    TelegramBot.raise, TelegramBot.send, mbind, TelegramBot.B_bind, mret,
    TelegramBot.B_ret.
  rewrite Hch, Hsearch, Hparams, Hwork.
  destruct (robota_ua_search params) as [[robota|]|e]; try reflexivity.
  unfold TelegramBot.found_text, top_resumes.
  rewrite (Permutation_length (combined_results_perm work robota)).
  now rewrite length_app.
Qed.

End Dialogue.

(** ** A scraped resume in the answer of the bot *)

Section ScrapedText.
Variable base_url : string.
Variable find_meta_description : string -> option string.
Variable find_work_experience : string -> list pyval.

Local Abbreviation parse_resume :=
  (WorkUa.parse_resume base_url find_meta_description find_work_experience).

Lemma parse_resume_salary (link html : string) (resume : Resume) :
  parse_resume link html = Ok resume -> salary_expectation resume = Some "".
Proof.
  unfold WorkUa.parse_resume. intros H.
  destruct (WorkUa.resume_dict base_url find_meta_description
              find_work_experience link html) as [kwargs|] eqn:Hdict;
    [|discriminate].
  destruct (resume_dict_salary _ _ _ link html kwargs Hdict) as (Hs & _ & _).
  simpl in H. unfold Resume_of_kwargs in H. rewrite Hs in H.
  destruct (kwargs !! "href") as [h|]; [|discriminate]. simpl in H.
  destruct (validate_str h); [|discriminate]. simpl in H.
  destruct (kwargs !! "experience") as [ex|]; [|discriminate]. simpl in H.
  destruct (validate_opt_experience ex); [|discriminate]. simpl in H.
  destruct (kwargs !! "filling_percentage") as [f|]; [|discriminate].
  simpl in H. destruct (validate_int f); [|discriminate]. simpl in H.
  now injection H as <-.
Qed.

(** What the bot writes for a resume scraped from Work.ua: the link,
    the experience entries if there are any, and a filling percentage
    of 0; never a salary line, also when the page announced a salary. *)
Theorem scraped_resume_text (link html : string) (resume : Resume) :
  parse_resume link html = Ok resume ->
  TelegramBot.format_resume resume
  = "Resume: " +:+ (base_url +:+ link) +:+ nl
    +:+ TelegramBot.format_experiences (experience resume)
    +:+ "Resume filling percentage: 0%" +:+ nl.
Proof.
  intros H.
  destruct (parse_resume_shape _ _ _ link html resume H) as [Hhref Hfill].
  pose proof (parse_resume_salary link html resume H) as Hsalary.
  unfold TelegramBot.format_resume. now rewrite Hhref, Hfill, Hsalary.
Qed.

End ScrapedText.

Lemma scraped_resume_text_witness :
  TelegramBot.format_resume
    (mkResume "https://www.work.ua/resumes/1/" (Some "") (Some []) 0)
  = "Resume: https://www.work.ua/resumes/1/" +:+ nl
    +:+ "Resume filling percentage: 0%" +:+ nl.
Proof.
  exact (scraped_resume_text "https://www.work.ua" description_with_salary
           (fun _ => []) "/resumes/1/" "<html>"
           (mkResume "https://www.work.ua/resumes/1/" (Some "") (Some []) 0)
           eq_refl).
Defined.

(** ** The dialogue on an example *)

Lemma search_after_clear_fails_witness :
  fst (TelegramBot.search_resumes work_ua_search_example
         robota_ua_search_example 7
         (TelegramBot.run bot_salary_example bot_salary_example
            bot_experience_example py_str_example py_int_example
            work_ua_search_example robota_ua_search_example
            [TelegramBot.Command 7 "/keywords"; TelegramBot.Text 7 "python";
             TelegramBot.SalaryCallback 8 "salary_from:2"]
            (TelegramBot.step bot_salary_example bot_salary_example
               bot_experience_example py_str_example py_int_example
               work_ua_search_example robota_ua_search_example
               bot_started (TelegramBot.Clear 7))))
  = Raise ValidationError.
Proof.
  apply (search_after_clear_fails bot_salary_example bot_salary_example
           bot_experience_example py_str_example py_int_example
           work_ua_search_example robota_ua_search_example).
  repeat constructor. cbn. lia.
Defined.

Lemma unknown_chat_raises_witness :
  fst (TelegramBot.handle bot_salary_example bot_salary_example
         bot_experience_example py_str_example py_int_example
         work_ua_search_example robota_ua_search_example
         (TelegramBot.Search 8) bot_started)
  = Raise (KeyError "8")
  /\ TelegramBot.user_data
       (TelegramBot.step bot_salary_example bot_salary_example
          bot_experience_example py_str_example py_int_example
          work_ua_search_example robota_ua_search_example
          bot_started (TelegramBot.Search 8))
     = TelegramBot.user_data bot_started.
Proof.
  apply (unknown_chat_raises bot_salary_example bot_salary_example
           bot_experience_example py_str_example py_int_example
           work_ua_search_example robota_ua_search_example
           (TelegramBot.Search 8) bot_started); reflexivity.
Defined.

Lemma experience_pressed_twice_witness :
  TelegramBot.user_data
    (TelegramBot.step bot_salary_example bot_salary_example
       bot_experience_example py_str_example py_int_example
       work_ua_search_example robota_ua_search_example
       bot_started (TelegramBot.ExperienceCallback 7 "164")) !! 7
  = Some (TelegramBot.mkChat FREE
            (<["experience" := PList [PStr "1 to 2 years"]]>
               (TelegramBot.fresh_options (PInt 0))))
  /\ TelegramBot.user_data
       (TelegramBot.step bot_salary_example bot_salary_example
          bot_experience_example py_str_example py_int_example
          work_ua_search_example robota_ua_search_example
          (TelegramBot.step bot_salary_example bot_salary_example
             bot_experience_example py_str_example py_int_example
             work_ua_search_example robota_ua_search_example
             bot_started (TelegramBot.ExperienceCallback 7 "164"))
          (TelegramBot.ExperienceCallback 7 "164"))
     = TelegramBot.user_data bot_started.
Proof.
  apply (experience_pressed_twice bot_salary_example bot_salary_example
           bot_experience_example py_str_example py_int_example
           work_ua_search_example robota_ua_search_example
           7 "164" "1 to 2 years"
           [("0", "No experience"); ("164", "1 to 2 years")]
           (TelegramBot.mkChat FREE (TelegramBot.fresh_options (PInt 0)))
           [] bot_started); reflexivity.
Defined.

Lemma experience_reset_keeps_ticks_witness :
  TelegramBot.step bot_salary_example bot_salary_example
    bot_experience_example py_str_example py_int_example
    work_ua_search_example robota_ua_search_example
    bot_selected (TelegramBot.ExperienceCallback 7 "experience_reset")
  = TelegramBot.mkBot
      (<[7 := TelegramBot.mkChat FREE
                (<["experience" := PList []]>
                   (<["experience" := PList [PStr "1 to 2 years"]]>
                      (TelegramBot.fresh_options (PInt 0))))]>
         (TelegramBot.user_data bot_selected))
      (TelegramBot.outbox bot_selected
       ++ [TelegramBot.answer;
           TelegramBot.edit_message_text
             "Experience options have been reset. Please select again."
             (Some [[TelegramBot.mkButton "No experience" "0";
                     TelegramBot.mkButton "✅ 1 to 2 years" "164"];
                    [TelegramBot.mkButton "🔄 Reset" "experience_reset";
                     TelegramBot.mkButton "✔️ Complete"
                       "experience_complete"]])]).
Proof.
  exact (experience_reset_keeps_ticks bot_salary_example bot_salary_example
           bot_experience_example py_str_example py_int_example
           work_ua_search_example robota_ua_search_example
           7
           (TelegramBot.mkChat FREE
              (<["experience" := PList [PStr "1 to 2 years"]]>
                 (TelegramBot.fresh_options (PInt 0))))
           (PList [PStr "1 to 2 years"])
           [[TelegramBot.mkButton "No experience" "0";
             TelegramBot.mkButton "✅ 1 to 2 years" "164"];
            [TelegramBot.mkButton "🔄 Reset" "experience_reset";
             TelegramBot.mkButton "✔️ Complete" "experience_complete"]]
           bot_selected eq_refl eq_refl eq_refl).
Defined.

Lemma search_all_or_nothing_witness :
  TelegramBot.search_resumes work_ua_search_example robota_ua_search_example
    7 bot_started
  = (Ok tt,
     TelegramBot.mkBot (TelegramBot.user_data bot_started)
       (TelegramBot.outbox bot_started
        ++ [TelegramBot.send_message 7
              ("Found 2 resumes" +:+ nl
               +:+ "You can see top 5 below:" +:+ nl
               +:+ "Resume: https://robota.ua/candidates/7" +:+ nl
               +:+ "Salary expectation: 45000" +:+ nl
               +:+ "Resume filling percentage: 80%" +:+ nl +:+ nl
               +:+ "Resume: https://www.work.ua/resumes/1/" +:+ nl
               +:+ "Resume filling percentage: 0%" +:+ nl)
              None])).
Proof.
  exact (search_all_or_nothing work_ua_search_example
           robota_ua_search_example 7
           (TelegramBot.mkChat FREE (TelegramBot.fresh_options (PInt 0)))
           (mkSearchOptions "" (Some "") (Some 0) (Some 0) (Some []))
           [mkResume "https://www.work.ua/resumes/1/" (Some "") (Some []) 0]
           bot_started eq_refl eq_refl eq_refl).
Defined.
